(** * Element resolution and action dispatch of the Playwright MCP tools

    A shallow embedding of the element-location tools
    ([Tools/ElementLocation/location.py]), of the action dispatcher
    [playwright_auto_execute] ([Tools/Debug/debug.py]) and of
    [playwright_close] ([Tools/BrowserControl/navigation.py]), together
    with the properties the specification states about them.

    Python dictionaries are finite maps from strings to values, the page
    driver is an abstract record of operations over a world state, and the
    tools are programs of a state-and-exception monad in which a Python
    [return] and a raised [Exception] are both explicit. *)

From Stdlib Require Import ZArith Lia Ascii String List.
From stdpp Require Import base strings gmap list sorting pretty.

#[local] Set Warnings "-register-all,-clear-no-such-hyp".

(** ** Strings *)

Module Str.

  (** [str.lower()] / [toLowerCase()], on ASCII text: the letters A to Z
      are lowered and any other byte is kept.  The source also lowers the
      letters outside ASCII; the scores of [playwright_find_element] and
      [playwright_js_locate] are stated for [ascii_only] text. *)
Definition lower_ascii (c : ascii) : ascii :=
    let n := N_of_ascii c in
    if ((65 <=? n) && (n <=? 90))%N then ascii_of_N (n + 32) else c.

Fixpoint lower (s : string) : string :=
    match s with
    | EmptyString => EmptyString
    | String c s' => String (lower_ascii c) (lower s')
    end.

Fixpoint starts_with (p s : string) : bool :=
    match p, s with
    | EmptyString, _ => true
    | String _ _, EmptyString => false
    | String a p', String b s' => if Ascii.eqb a b then starts_with p' s' else false
    end.

  (** [sub in s] of Python, [s.includes(sub)] of JavaScript. *)
Fixpoint contains (s sub : string) : bool :=
    if starts_with sub s then true
    else match s with
         | EmptyString => false
         | String _ s' => contains s' sub
         end.

  (** [s[:n]] for [0 <= n], [s.substring(0, n)]. *)
Fixpoint take (n : nat) (s : string) : string :=
    match n, s with
    | S n', String c s' => String c (take n' s')
    | _, _ => EmptyString
    end.

  (** White space as [str.split()] sees it in ASCII text. *)
Definition is_space (c : ascii) : bool :=
    let n := N_of_ascii c in
    (((9 <=? n) && (n <=? 13)) || ((28 <=? n) && (n <=? 32)))%N.

Definition flush (cur : string) (acc : list string) : list string :=
    match cur with
    | EmptyString => acc
    | _ => String.rev cur :: acc
    end.

Fixpoint split_go (s cur : string) (acc : list string) : list string :=
    match s with
    | EmptyString => rev (flush cur acc)
    | String c s' =>
        if is_space c then split_go s' EmptyString (flush cur acc)
        else split_go s' (String c cur) acc
    end.

  (** [s.split()]: the maximal runs of non-blank characters. *)
Definition split (s : string) : list string := split_go s EmptyString [].

Definition truthy (s : string) : bool :=
    match s with EmptyString => false | _ => true end.

  (** The double quote character, for the generated XPath. *)
Definition dquote : string := String "034"%char EmptyString.

Fixpoint join (sep : string) (l : list string) : string :=
    match l with
    | [] => EmptyString
    | [x] => x
    | x :: l' => x +:+ sep +:+ join sep l'
    end.

  (** The string holds ASCII characters only.  Strings are strings of
      bytes: on these a character is a byte, and [lower], [take] and
      [split] are the operations of the source. *)
Definition ascii_only (s : string) : bool :=
    forallb (λ c, (N_of_ascii c <? 128)%N) (list_ascii_of_string s).

End Str.

(** [f"{x}"] for an optional string: [None] prints as the word None. *)
Definition fmt (x : option string) : string := default "None" x.

Definition opt_truthy (x : option string) : bool :=
  match x with Some s => Str.truthy s | None => false end.

(** ** Values and dictionaries *)

Inductive Val : Type :=
| VNone
| VBool (b : bool)
| VInt (z : Z)
| VStr (s : string)
| VList (l : list Val)
| VDict (d : gmap string Val).

Abbreviation dict := (gmap string Val).

Definition VOptStr (x : option string) : Val :=
  match x with Some s => VStr s | None => VNone end.

Definition VStrs (l : list string) : Val := VList (VStr <$> l).
Definition VDicts (l : list dict) : Val := VList (VDict <$> l).

(** Python truthiness of the values that occur. *)
Definition truthy (v : Val) : bool :=
  match v with
  | VNone => false
  | VBool b => b
  | VInt z => negb (z =? 0)%Z
  | VStr s => Str.truthy s
  | VList l => match l with [] => false | _ => true end
  | VDict d => negb (bool_decide (size d = 0%nat))
  end.

(** [d.get(k)]: [None] when the key is absent. *)
Definition get (d : dict) (k : string) : Val := default VNone (d !! k).

Definition is_str (v : Val) (s : string) : bool :=
  match v with VStr s' => String.eqb s' s | _ => false end.

Definition get_str (d : dict) (k : string) : option string :=
  match d !! k with Some (VStr s) => Some s | _ => None end.

Definition get_bool (d : dict) (k : string) (dflt : bool) : bool :=
  match d !! k with Some (VBool b) => b | _ => dflt end.

Definition get_int (d : dict) (k : string) (dflt : Z) : Z :=
  match d !! k with Some (VInt z) => z | _ => dflt end.

(** The text of a raised exception, [str(e)]. *)
Definition Exn := string.

(** ** Sorting

    [list.sort(key=..., reverse=True)] and [Array.prototype.sort] with the
    comparator [(a, b) => b.score - a.score] are both stable: elements
    with equal keys keep their order.  A stable sort has one possible
    result, so insertion from the right stands for both. *)

Section Sort.
Context {A : Type} (key : A → Z).

Fixpoint insert_desc (x : A) (l : list A) : list A :=
    match l with
    | [] => [x]
    | y :: l' => if (key x <? key y)%Z then y :: insert_desc x l' else x :: y :: l'
    end.

Fixpoint sort_desc (l : list A) : list A :=
    match l with
    | [] => []
    | x :: l' => insert_desc x (sort_desc l')
    end.
End Sort.

(** [l[:n]] of Python for any integer [n]: a negative [n] counts from the end. *)
Definition py_take {A} (n : Z) (l : list A) : list A :=
  if (0 <=? n)%Z then take (Z.to_nat n) l
  else take (length l - Z.to_nat (- n)) l.

(** ** Programs

    A program reads and writes a state and ends in one of three ways: it
    runs to completion with a value, it executes a Python [return] with
    the dictionary returned, or it raises an [Exception]. *)

(** What a call to the outside (the driver, another tool) or a pure
    computation yields: a value or a thrown exception. *)
Inductive Answer (A : Type) : Type :=
| Gives (a : A)
| Throws (e : Exn).
Arguments Gives {A} a.
Arguments Throws {A} e.

Inductive Res (A : Type) : Type :=
| Ok (a : A)
| Return (o : dict)
| Raise (e : Exn).
Arguments Ok {A} a.
Arguments Return {A} o.
Arguments Raise {A} e.

Definition M (S A : Type) : Type := S → Res A * S.

#[global] Instance M_ret {S} : MRet (M S) := λ A a s, (Ok a, s).

#[global] Instance M_bind {S} : MBind (M S) := λ A B f m s,
  match m s with
  | (Ok a, s') => f a s'
  | (Return o, s') => (Return o, s')
  | (Raise e, s') => (Raise e, s')
  end.

#[global] Instance Answer_ret : MRet Answer := λ A a, Gives a.

#[global] Instance Answer_bind : MBind Answer := λ A B f m,
  match m with
  | Gives a => f a
  | Throws e => Throws e
  end.

(** What a pure computation throws is raised. *)
Definition answer {S A} (r : Answer A) : M S A := λ s,
  match r with
  | Gives a => (Ok a, s)
  | Throws e => (Raise e, s)
  end.

(** [return o] *)
Definition return_ {S A} (o : dict) : M S A := λ s, (Return o, s).

(** [raise Exception(e)] *)
Definition raise {S A} (e : Exn) : M S A := λ s, (Raise e, s).

(** [try: m  except Exception as e: h e] *)
Definition try_except {S A} (m : M S A) (h : Exn → M S A) : M S A := λ s,
  match m s with
  | (Raise e, s') => h e s'
  | r => r
  end.

(** [try: m  except Exception: pass] *)
Definition try_pass {S} (m : M S unit) : M S unit :=
  try_except m (λ _, mret tt).

Definition when {S} (b : bool) (m : M S unit) : M S unit :=
  if b then m else mret tt.

(** [for x in l: body x] *)
Fixpoint for_each {S A} (l : list A) (body : A → M S unit) : M S unit :=
  match l with
  | [] => mret tt
  | x :: l' => body x ;; for_each l' body
  end.

Definition gets {S A} (f : S → A) : M S A := λ s, (Ok (f s), s).
Definition modify {S} (f : S → S) : M S unit := λ s, (Ok tt, f s).

(** ** The page driver

    Pages and element handles are opaque identifiers.  What the driver
    knows about the browser is a world state [W]; every operation may
    change it and may throw. *)

Definition Page := nat.
Definition Handle := nat.

(** An element as the scripts run by [page.evaluate] see it.  The position
    of the element in the tree is kept as the node names of the element
    siblings before it and, for each ancestor from the parent up to the
    root, the ancestor's node name and those of the siblings before it. *)
Record DomElement := {
  tagName : string;
  el_id : string;
  classList : list string;
  className : string;
  innerText : option string;
  textContent : option string;
  el_value : option string;
  el_attributes : gmap string string;
  has_click : bool;
  prev_siblings : list string;
  ancestors : list (string * list string)
}.

(** A node of [page.accessibility.snapshot()]. *)
Inductive A11yNode : Type :=
| ANode (name role : option string) (children : list A11yNode).

Record Driver (W : Type) := {
  d_wait_for_selector : Page → string → Z → W → Answer (option Handle) * W;
  d_query_selector_all : Page → string → W → Answer (list Handle) * W;
  d_page_click : Page → string → W → Answer unit * W;
  d_page_fill : Page → string → string → W → Answer unit * W;
  d_page_hover : Page → string → W → Answer unit * W;
  d_page_select_option : Page → string → string → W → Answer unit * W;
  d_goto : Page → string → string → Z → W → Answer unit * W;
  d_click : Handle → W → Answer unit * W;
  d_fill : Handle → string → W → Answer unit * W;
  d_hover : Handle → W → Answer unit * W;
  d_select_option : Handle → string → W → Answer unit * W;
  d_bounding_box : Handle → W → Answer (option string) * W;
  d_screenshot : Page → string → W → Answer unit * W;
  (** [page.evaluate(script, handle)]: the element behind a handle *)
  d_element : Page → Handle → W → Answer DomElement * W;
  (** [page.evaluate(script, arg)]: [document.querySelectorAll('*')] *)
  d_document : Page → W → Answer (list DomElement) * W;
  (** [document.querySelector(sel)]: the position of the first match in
      [querySelectorAll('*')], or a [SyntaxError] *)
  d_query_selector : list DomElement → string → Answer (option nat);
  (** [element.click()] run by a script on the n-th element *)
  d_js_click : Page → nat → W → W;
  (** [document.body.innerText] *)
  d_body_text : Page → W → Answer string * W;
  d_snapshot : Page → W → Answer (option A11yNode) * W;
  d_title : Page → W → Answer string * W;
  d_url : Page → W → string;
  d_close : Page → W → Answer unit * W
}.
Arguments d_wait_for_selector {W}. Arguments d_query_selector_all {W}.
Arguments d_page_click {W}. Arguments d_page_fill {W}.
Arguments d_page_hover {W}. Arguments d_page_select_option {W}.
Arguments d_goto {W}. Arguments d_click {W}. Arguments d_fill {W}.
Arguments d_hover {W}. Arguments d_select_option {W}.
Arguments d_bounding_box {W}. Arguments d_screenshot {W}.
Arguments d_element {W}. Arguments d_document {W}.
Arguments d_query_selector {W}. Arguments d_js_click {W}.
Arguments d_body_text {W}. Arguments d_snapshot {W}.
Arguments d_title {W}. Arguments d_url {W}. Arguments d_close {W}.

(** [int(time.time())] and [asyncio.get_event_loop().time()], as printed in
    a file name; the n-th reading of a run. *)
Record Clock := {
  time_time : nat → string;
  loop_time : nat → string
}.

(** What a run did to the outside, in order. *)
Inductive Event : Type :=
| EWaitForSelector (p : Page) (sel : string) (timeout : Z)
| EQuerySelectorAll (p : Page) (sel : string)
| EPageClick (p : Page) (sel : string)
| EPageFill (p : Page) (sel text : string)
| EPageHover (p : Page) (sel : string)
| EPageSelectOption (p : Page) (sel value : string)
| EGoto (p : Page) (url : string)
| EClick (h : Handle)
| EFill (h : Handle) (text : string)
| EHover (h : Handle)
| ESelectOption (h : Handle) (value : string)
| EBoundingBox (h : Handle)
| EScreenshot (p : Page) (path : string)
| EEvaluate (p : Page) (script : string)
| ESnapshot (p : Page)
| ETitle (p : Page)
| EClosePage (p : Page).

(** The session as every tool sees it: the world behind the driver, the
    page collection [self.pages], the clock readings made so far and the
    events so far. *)
Record Ext (W : Type) := {
  world : W;
  pages : list Page;
  ticks : nat;
  trace : list Event
}.
Arguments world {W}. Arguments pages {W}. Arguments ticks {W}. Arguments trace {W}.

(** The objects local to one call: the attempt dictionaries created so far,
    by address, and the list [attempts] of the addresses appended.  A
    dictionary appended to [attempts] stays shared with the variable
    [attempt], so assigning to a key afterwards shows in the list.
    [called] is a ghost record of the methods the dispatcher has awaited,
    each with its position in the chain (0 for the primary tool). *)
Record Frame := {
  dicts : list dict;
  attempts : list nat;
  called : list (Z * string)
}.

Record State (W : Type) := {
  ext : Ext W;
  frame : Frame
}.
Arguments ext {W}. Arguments frame {W}.

(** A tool as its caller sees it. *)
Definition Tool (W : Type) : Type := Ext W → Answer dict * Ext W.

(** ** The tools *)

Section Tools.
Context {W : Type} (drv : Driver W) (clk : Clock).

  (** *** Primitive steps *)

  (** The state after a driver operation that left the world [w] behind. *)
Definition after_call (ev : Event) (w : W) (s : State W) : State W :=
    {| ext := {| world := w; pages := pages (ext s); ticks := ticks (ext s);
                 trace := trace (ext s) ++ [ev] |};
       frame := frame s |}.

Definition after_tick (s : State W) : State W :=
    {| ext := {| world := world (ext s); pages := pages (ext s);
                 ticks := S (ticks (ext s)); trace := trace (ext s) |};
       frame := frame s |}.

Definition with_dict (d : dict) (s : State W) : State W :=
    {| ext := ext s;
       frame := {| dicts := dicts (frame s) ++ [d]; attempts := attempts (frame s);
                   called := called (frame s) |} |}.

Definition with_key (a : nat) (k : string) (v : Val) (s : State W) : State W :=
    {| ext := ext s;
       frame := {| dicts := alter (<[k := v]>) a (dicts (frame s));
                   attempts := attempts (frame s); called := called (frame s) |} |}.

Definition with_attempt (a : nat) (s : State W) : State W :=
    {| ext := ext s;
       frame := {| dicts := dicts (frame s); attempts := attempts (frame s) ++ [a];
                   called := called (frame s) |} |}.

Definition with_called (i : Z) (tool_name : string) (s : State W) : State W :=
    {| ext := ext s;
       frame := {| dicts := dicts (frame s); attempts := attempts (frame s);
                   called := called (frame s) ++ [(i, tool_name)] |} |}.

Definition with_ext (e : Ext W) (s : State W) : State W :=
    {| ext := e; frame := frame s |}.

(** One driver operation: it is logged, it changes the world, and what
      it throws becomes a raised exception. *)
Definition call {A} (ev : Event) (op : W → Answer A * W) : M (State W) A := λ s,
    let '(r, w') := op (world (ext s)) in
    match r with
    | Gives a => (Ok a, after_call ev w' s)
    | Throws x => (Raise x, after_call ev w' s)
    end.

Definition read_clock (f : Clock → nat → string) : M (State W) string := λ s,
    (Ok (f clk (ticks (ext s))), after_tick s).

(** [attempt = {...}] *)
Definition new_dict (d : dict) : M (State W) nat := λ s,
    (Ok (length (dicts (frame s))), with_dict d s).

(** [attempt[k] = v] *)
Definition set_key (a : nat) (k : string) (v : Val) : M (State W) unit := λ s,
    (Ok tt, with_key a k v s).

(** [attempts.append(attempt)] *)
Definition append_attempt (a : nat) : M (State W) unit := λ s,
    (Ok tt, with_attempt a s).

(** The attempt trail: the dictionaries [attempts] refers to. *)
Definition trail (f : Frame) : list dict :=
    omap (λ a, dicts f !! a) (attempts f).

Definition read_attempts : M (State W) (list dict) :=
    gets (λ s, trail (frame s)).

  (** [await tool(...)] *)
Definition invoke (t : Tool W) : M (State W) dict := λ s,
    let '(r, e') := t (ext s) in
    match r with
    | Gives o => (Ok o, with_ext e' s)
    | Throws x => (Raise x, with_ext e' s)
    end.

(** A call of a tool body: its local objects start empty. *)
Definition start (e : Ext W) : State W :=
    {| ext := e; frame := {| dicts := []; attempts := []; called := [] |} |}.

Definition run (body : M (State W) dict) (e : Ext W) : Res dict * State W :=
    body (start e).

Definition fn (body : M (State W) dict) : Tool W := λ e,
    let '(r, s) := run body e in
    match r with
    | Ok o | Return o => (Gives o, ext s)
    | Raise x => (Throws x, ext s)
    end.

  (** Modelled from the spec: [PlaywrightBase._get_page] of [Tools/base.py],
      which is not among the sources.  Pages are addressed by index in the
      session's page collection; an index outside it yields no page. *)
Definition page_at (e : Ext W) (page_index : Z) : option Page :=
    if (0 <=? page_index)%Z then pages e !! Z.to_nat page_index else None.

Definition _get_page (page_index : Z) : M (State W) (option Page) :=
    gets (λ s, page_at (ext s) page_index).

Definition err (msg : string) : dict :=
    {[ "status" := VStr "error"; "message" := VStr msg ]}.

  (** [if capture_screenshot: path = f"{stem}{now}.png"; await page.screenshot(path=path)] *)
Definition take_screenshot (page : Page) (capture_screenshot : bool)
      (stem : string) (now : Clock → nat → string) : M (State W) (option string) :=
    if capture_screenshot then
      t ← read_clock now;
      let path := stem +:+ t +:+ ".png" in
      call (EScreenshot page path) (d_screenshot drv page path);;
      mret (Some path)
    else mret None.

  (** *** [playwright_smart_click] *)

Definition smart_click_selectors (element_type text : string) : list string :=
    (if String.eqb element_type "any" || String.eqb element_type "button" then
       [ "button:has-text('" +:+ text +:+ "')";
         "button:has-text('" +:+ text +:+ "', 'i')";
         "input[type='button'][value*='" +:+ text +:+ "']";
         "input[type='submit'][value*='" +:+ text +:+ "']";
         "[role='button']:has-text('" +:+ text +:+ "')" ]
     else []) ++
    (if String.eqb element_type "any" || String.eqb element_type "link" then
       [ "a:has-text('" +:+ text +:+ "')";
         "a:has-text('" +:+ text +:+ "', 'i')";
         "a[href]:has-text('" +:+ text +:+ "')" ]
     else []) ++
    [ "text='" +:+ text +:+ "'";
      "text='" +:+ text +:+ "' >> visible=true";
      "[aria-label*='" +:+ text +:+ "']";
      "[title*='" +:+ text +:+ "']";
      "[placeholder*='" +:+ text +:+ "']";
      "[name*='" +:+ text +:+ "']";
      "[data-test*='" +:+ text +:+ "']" ].

  (** [text or description or "Click Target"] *)
Definition text_or_fallback (text description : option string) : string :=
    if opt_truthy text then default EmptyString text
    else if opt_truthy description then default EmptyString description
    else "Click Target".

Definition smart_click_direct (page : Page) (selector : string)
      (capture_screenshot : bool) : M (State W) unit :=
    call (EPageClick page selector) (d_page_click drv page selector);;
    let result : dict :=
      {[ "status" := VStr "success";
         "message" := VStr ("Clicked element with selector: " +:+ selector);
         "selector_used" := VStr selector ]} in
    shot ← take_screenshot page capture_screenshot "smart_click_" loop_time;
    return_ (match shot with
             | Some path => <["screenshot" := VStr path]> result
             | None => result
             end).

Definition smart_click_try (page : Page) (text : string)
      (capture_screenshot : bool) (selector : string) : M (State W) unit :=
    try_except (
      element ← call (EWaitForSelector page selector 500)
                     (d_wait_for_selector drv page selector 500);
      match element with
      | Some element =>
          call (EClick element) (d_click drv element);;
          let result : dict :=
            {[ "status" := VStr "success";
               "message" := VStr ("Smart click successful: " +:+ text);
               "selector_used" := VStr selector;
               "element_found" := VBool true ]} in
          shot ← take_screenshot page capture_screenshot "smart_click_success_" loop_time;
          return_ (match shot with
                   | Some path => <["screenshot" := VStr path]> result
                   | None => result
                   end)
      | None => mret tt
      end)
    (λ _, mret tt).

Definition smart_click_not_found (optional : bool) (text : string)
      (selectors : list string) (debug_screenshot : option string) : dict :=
    if optional then
      {[ "status" := VStr "success";
         "message" := VStr ("Optional click: Element matching '" +:+ text
                            +:+ "' not found but continuing");
         "tried_selectors" := VStrs (take 5 selectors);
         "fallbacks_tried" := VStrs ["accessibility_locator"; "vision_locator"; "js_locate"];
         "element_found" := VBool false;
         "debug_screenshot" := VOptStr debug_screenshot ]}
    else
      {[ "status" := VStr "error";
         "message" := VStr ("Smart click failed: Could not find clickable element matching '"
                            +:+ text +:+ "'");
         "tried_selectors" := VStrs (take 5 selectors);
         "fallbacks_tried" := VStrs ["accessibility_locator"; "vision_locator"; "js_locate"];
         "debug_screenshot" := VOptStr debug_screenshot ]}.

Definition on_exception (optional : bool) (e : Exn) : dict :=
    if optional then
      {[ "status" := VStr "success";
         "message" := VStr ("Optional action: Exception occurred but continuing. Error: " +:+ e);
         "element_found" := VBool false;
         "error" := VStr e ]}
    else err e.

Definition smart_click_cascade (page : Page) (text : string) (element_type : string)
      (capture_screenshot optional : bool) : M (State W) dict :=
    let selectors := smart_click_selectors element_type text in
    for_each selectors (smart_click_try page text capture_screenshot);;
    try_pass (
      let sel := "[role=button][name='" +:+ text +:+ "']" in
      call (EPageClick page sel) (d_page_click drv page sel);;
      return_ {[ "status" := VStr "success";
                 "message" := VStr ("Smart click successful via accessibility API: " +:+ text);
                 "element_found" := VBool true ]});;
    debug_screenshot ← take_screenshot page capture_screenshot "smart_click_failed_" loop_time;
    return_ (smart_click_not_found optional text selectors debug_screenshot).

Definition smart_click_body (text selector : option string) (element_type : string)
      (page_index : Z) (capture_screenshot optional : bool)
      (description : option string) : M (State W) dict :=
    page ← _get_page page_index;
    match page with
    | None => return_ (err "Invalid page index")
    | Some page =>
        try_except (
          text ← (if opt_truthy selector && negb (opt_truthy text) then
                    try_except (
                      smart_click_direct page (default EmptyString selector) capture_screenshot;;
                      mret text)
                    (λ _, mret (Some (text_or_fallback text description)))
                  else mret text);
          if negb (opt_truthy text) then
            return_ (err "Either text or a valid selector must be provided")
          else
            smart_click_cascade page (default EmptyString text) element_type
                                capture_screenshot optional)
        (λ e, return_ (on_exception optional e))
    end.

Definition playwright_smart_click (text selector : option string) (element_type : string)
      (page_index : Z) (capture_screenshot optional : bool)
      (description : option string) : Tool W :=
    fn (smart_click_body text selector element_type page_index
                         capture_screenshot optional description).

  (** *** [playwright_find_element] *)

Definition any_in (words keywords : list string) : bool :=
    existsb (λ word, bool_decide (word ∈ keywords)) words.

Definition find_element_selectors (keywords : list string) : list string :=
    let selectors :=
      (if any_in ["button"; "click"; "submit"] keywords then
         ["button"; "input[type='button']"; "input[type='submit']"; "[role='button']"]
       else []) ++
      (if any_in ["link"; "anchor"; "href"] keywords then ["a"] else []) ++
      (if any_in ["input"; "field"; "text"; "enter"] keywords then
         ["input[type='text']"; "input:not([type='button']):not([type='submit'])"; "textarea"]
       else []) ++
      (if any_in ["checkbox"; "check"] keywords then ["input[type='checkbox']"] else []) ++
      (if any_in ["radio"] keywords then ["input[type='radio']"] else []) ++
      (if any_in ["select"; "dropdown"; "option"] keywords then ["select"] else []) in
    match selectors with
    | [] => ["button"; "a"; "input"; "select"; "textarea"; "[role='button']"]
    | _ => selectors
    end.

  (** [any(keyword.lower() in s.lower() for keyword in keywords)] *)
Definition any_keyword_in (keywords : list string) (s : string) : bool :=
    existsb (λ keyword, Str.contains (Str.lower s) (Str.lower keyword)) keywords.

  (** The relevance score computed by [playwright_find_element]. *)
Definition relevance (keywords : list string) (text : string)
      (attributes : gmap string string) : Z :=
    let score := 0%Z in
    let score := if Str.truthy text && any_keyword_in keywords text
                 then (score + 10)%Z else score in
    foldl (λ score '(attr, value),
             if Str.truthy value && any_keyword_in keywords value
             then (score + 5)%Z else score)
          score (map_to_list attributes).

Record ElementInfo := {
    ei_tag : string;
    ei_text : string;
    ei_attributes : gmap string string;
    ei_relevance : Z
  }.

Definition element_info_dict (i : ElementInfo) : dict :=
    {[ "tag" := VStr (ei_tag i);
       "text" := VStr (ei_text i);
       "attributes" := VDict (VStr <$> ei_attributes i);
       "relevance" := VInt (ei_relevance i) ]}.

  (** [element.innerText || element.textContent || element.value || ''] *)
Definition js_or (xs : list (option string)) : string :=
    default EmptyString (list_find Str.truthy (omap id xs) ≫= λ '(_, s), Some s).

  (** The elements [found_elements] gains from the candidates, in order. *)
Definition score_candidate (keywords : list string) (tag_name text : string)
      (attributes : gmap string string) : list ElementInfo :=
    let score := relevance keywords text attributes in
    if (0 <? score)%Z then
      [ {| ei_tag := tag_name;
           ei_text := if Str.truthy text then Str.take 100 text else EmptyString;
           ei_attributes := attributes;
           ei_relevance := score |} ]
    else [].

  (** [found_elements.sort(key=lambda x: x["relevance"], reverse=True)]
      followed by [found_elements[:max_results]] *)
Definition rank (max_results : Z) (found_elements : list ElementInfo) : list ElementInfo :=
    py_take max_results (sort_desc ei_relevance found_elements).

Fixpoint fold_m {S A B} (f : B → A → M S B) (l : list A) (b : B) : M S B :=
    match l with
    | [] => mret b
    | x :: l' => b' ← f b x; fold_m f l' b'
    end.

  (** [await page.evaluate(script, element)] for a script that only reads
      the element. *)
Definition evaluate_on {A} (page : Page) (script : string) (f : DomElement → A)
      (element : Handle) : M (State W) A :=
    el ← call (EEvaluate page script) (d_element drv page element);
    mret (f el).

Definition inspect_element (page : Page) (keywords : list string)
      (found_elements : list ElementInfo) (element : Handle) : M (State W) (list ElementInfo) :=
    tag_name ← evaluate_on page "(element) => element.tagName.toLowerCase()"
                 (λ el, Str.lower (tagName el)) element;
    text ← evaluate_on page
             "(element) => element.innerText || element.textContent || element.value || ''"
             (λ el, js_or [innerText el; textContent el; el_value el]) element;
    attributes ← evaluate_on page "(element) => attrs" el_attributes element;
    mret (found_elements ++ score_candidate keywords tag_name text attributes).

Definition find_element_body (description : string) (page_index max_results : Z)
      : M (State W) dict :=
    page ← _get_page page_index;
    match page with
    | None => return_ (err "Invalid page index")
    | Some page =>
        try_except (
          let keywords := Str.split (Str.lower description) in
          let selectors := find_element_selectors keywords in
          found_elements ←
            fold_m (λ found_elements selector,
                      elements ← call (EQuerySelectorAll page selector)
                                      (d_query_selector_all drv page selector);
                      fold_m (inspect_element page keywords) elements found_elements)
                   selectors [];
          let found_elements := rank max_results found_elements in
          return_ {[ "status" := VStr "success";
                     "message" := VStr ("Found " +:+ pretty (length found_elements)
                                        +:+ " elements matching description: " +:+ description);
                     "elements" := VDicts (element_info_dict <$> found_elements) ]})
        (λ e, return_ (err e))
    end.

Definition playwright_find_element (description : string) (page_index max_results : Z)
      : Tool W :=
    fn (find_element_body description page_index max_results).

  (** *** [playwright_accessibility_locator] *)

Record NodeMatch := {
    nm_name : option string;
    nm_role : option string;
    nm_relevance : Z
  }.

  (** [description.lower()], which fails on [None]. *)
Definition lower_of (description : option string) : Answer string :=
    match description with
    | Some d => Gives (Str.lower d)
    | None => Throws "'NoneType' object has no attribute 'lower'"
    end.

  (** [field and description.lower() in field.lower()] *)
Definition field_matches (description field : option string) : Answer bool :=
    if opt_truthy field then
      d ← lower_of description;
      mret (Str.contains (Str.lower (default EmptyString field)) d)
    else mret false.

Fixpoint search_nodes (description : option string) (node : A11yNode)
      (matching_nodes : list NodeMatch) {struct node} : Answer (list NodeMatch) :=
    match node with
    | ANode name role children =>
        by_name ← field_matches description name;
        by_role ← field_matches description role;
        let relevance := ((if by_name : bool then 10 else 0)
                          + (if by_role : bool then 5 else 0))%Z in
        let matching_nodes :=
          if (0 <? relevance)%Z
          then matching_nodes ++ [ {| nm_name := name; nm_role := role;
                                      nm_relevance := relevance |} ]
          else matching_nodes in
        foldl (λ acc child, m ← acc; search_nodes description child m)
              (Gives matching_nodes) children
    end.

Definition node_dict (n : NodeMatch) : dict :=
    {[ "name" := VOptStr (nm_name n); "role" := VOptStr (nm_role n) ]}.

Definition a11y_find_element (page : Page) (top_node : NodeMatch)
      : M (State W) (option Handle) :=
    if bool_decide (nm_role top_node = Some "button")
       || bool_decide (nm_role top_node = Some "link") then
      let by_role := "[role='" +:+ fmt (nm_role top_node) +:+ "'][name='"
                     +:+ fmt (nm_name top_node) +:+ "']" in
      let by_text := "text='" +:+ fmt (nm_name top_node) +:+ "'" in
      try_except
        (call (EWaitForSelector page by_role 1000) (d_wait_for_selector drv page by_role 1000))
        (λ _, try_except
                (call (EWaitForSelector page by_text 1000)
                      (d_wait_for_selector drv page by_text 1000))
                (λ _, mret None))
    else mret None.

Definition accessibility_locator_body (description : option string)
      (action text_input : string) (page_index : Z) : M (State W) dict :=
    page ← _get_page page_index;
    match page with
    | None => return_ (err "Invalid page index")
    | Some page =>
        try_except (
          snapshot ← call (ESnapshot page) (d_snapshot drv page);
          matching_nodes ← match snapshot with
                           | Some root => answer (search_nodes description root [])
                           | None => mret []
                           end;
          let matching_nodes := sort_desc nm_relevance matching_nodes in
          if String.eqb action "find" then
            return_ {[ "status" := VStr "success";
                       "message" := VStr ("Found " +:+ pretty (length matching_nodes)
                                          +:+ " accessibility nodes matching: "
                                          +:+ fmt description);
                       "nodes" := VDicts (node_dict <$> take 5 matching_nodes) ]}
          else
            match matching_nodes with
            | top_node :: _ =>
                if bool_decide (action ∈ ["click"; "fill"; "select"]) then
                  element ← a11y_find_element page top_node;
                  match element with
                  | Some element =>
                      (if String.eqb action "click" then
                         call (EClick element) (d_click drv element)
                       else if String.eqb action "fill" then
                         call (EFill element text_input) (d_fill drv element text_input)
                       else if String.eqb action "select" then
                         call (ESelectOption element text_input)
                              (d_select_option drv element text_input)
                       else mret tt);;
                      return_ {[ "status" := VStr "success";
                                 "message" := VStr ("Successfully performed " +:+ action
                                                    +:+ " on element via accessibility tree");
                                 "element_found" := VBool true;
                                 "element_details" := VDict (node_dict top_node) ]}
                  | None =>
                      return_ {[ "status" := VStr "error";
                                 "message" := VStr "Found accessibility node but couldn't locate corresponding DOM element";
                                 "accessibility_details" := VDict (node_dict top_node) ]}
                  end
                else
                  return_ (err ("No matching accessibility nodes found for " +:+ fmt description
                                +:+ " or unsupported action: " +:+ action))
            | [] =>
                return_ (err ("No matching accessibility nodes found for " +:+ fmt description
                              +:+ " or unsupported action: " +:+ action))
            end)
        (λ e, return_ (err e))
    end.

Definition playwright_accessibility_locator (description : option string)
      (action text_input : string) (page_index : Z) : Tool W :=
    fn (accessibility_locator_body description action text_input page_index).

  (** *** [playwright_vision_locator] *)

Definition vision_locator_body (text : option string) (exact : bool)
      (action text_input : string) (page_index : Z) : M (State W) dict :=
    page ← _get_page page_index;
    match page with
    | None => return_ (err "Invalid page index")
    | Some page =>
        try_except (
          let selector := if exact then "text='" +:+ fmt text +:+ "'"
                          else "text='" +:+ fmt text +:+ "' >> visible=true" in
          element ← call (EWaitForSelector page selector 2000)
                         (d_wait_for_selector drv page selector 2000);
          match element with
          | Some element =>
              if String.eqb action "find" then
                bound ← call (EBoundingBox element) (d_bounding_box drv element);
                return_ {[ "status" := VStr "success";
                           "message" := VStr ("Found text '" +:+ fmt text +:+ "' on page");
                           "element_found" := VBool true;
                           "position" := VOptStr bound ]}
              else
                (if String.eqb action "click" then
                   call (EClick element) (d_click drv element)
                 else if String.eqb action "fill" then
                   call (EFill element text_input) (d_fill drv element text_input)
                 else mret tt);;
                return_ {[ "status" := VStr "success";
                           "message" := VStr ("Successfully performed " +:+ action
                                              +:+ " on element with text: " +:+ fmt text);
                           "element_found" := VBool true ]}
          | None =>
              return_ (err ("Could not find text '" +:+ fmt text +:+ "' on page"))
          end)
        (λ e, return_ (err e))
    end.

Definition playwright_vision_locator (text : option string) (exact : bool)
      (action text_input : string) (page_index : Z) : Tool W :=
    fn (vision_locator_body text exact action text_input page_index).

  (** *** [playwright_js_locate] *)

Record JsMatch := {
    jm_tag : string;
    jm_id : string;
    jm_classes : list string;
    jm_text : string;
    jm_score : Z;
    jm_xpath : string
  }.

Definition js_match_dict (m : JsMatch) : dict :=
    {[ "tag" := VStr (jm_tag m);
       "id" := VStr (jm_id m);
       "classes" := VStrs (jm_classes m);
       "text" := VStr (jm_text m);
       "score" := VInt (jm_score m);
       "xpath" := VStr (jm_xpath m) ]}.

  (** One step of [getXPath]: the node's name in lower case and its rank
      among the siblings of the same name before it. *)
Definition xpath_part (node : string * list string) : string :=
    let '(nodeName, previous) := node in
    let index := S (length (filter (λ sibling, sibling = nodeName) previous)) in
    Str.lower nodeName +:+ "[" +:+ pretty index +:+ "]".

Definition getXPath (el : DomElement) : string :=
    if Str.truthy (el_id el) then
      "//*[@id=" +:+ Str.dquote +:+ el_id el +:+ Str.dquote +:+ "]"
    else
      let parts := rev (xpath_part <$> ((tagName el, prev_siblings el) :: ancestors el)) in
      "/" +:+ Str.join "/" parts.

Definition scan_attributes : list string :=
    ["placeholder"; "title"; "aria-label"; "alt"; "name"].

  (** The score the scan script gives an element. *)
Definition js_score (descLower : string) (el : DomElement) : Z :=
    let score := 0%Z in
    let text := js_or [innerText el; textContent el] in
    let score := if Str.contains (Str.lower text) descLower
                 then (score + 10)%Z else score in
    foldl (λ score attr,
             match el_attributes el !! attr with
             | Some value =>
                 if Str.contains (Str.lower value) descLower
                 then (score + 5)%Z else score
             | None => score
             end)
          score scan_attributes.

Definition js_candidate (descLower : string) (el : DomElement) : list JsMatch :=
    let score := js_score descLower el in
    if (0 <? score)%Z then
      [ {| jm_tag := Str.lower (tagName el);
           jm_id := el_id el;
           jm_classes := classList el;
           jm_text := Str.take 100 (js_or [innerText el; textContent el]);
           jm_score := score;
           jm_xpath := getXPath el |} ]
    else [].

  (** The script of [playwright_js_locate] on [document.querySelectorAll('*')]. *)
Definition js_scan (description : option string) (allElements : list DomElement)
      : Answer (list JsMatch) :=
    match description with
    | None => Throws "TypeError: Cannot read properties of null (reading 'toLowerCase')"
    | Some description =>
        let descLower := Str.lower description in
        let matches := allElements ≫= js_candidate descLower in
        Gives (take 5 (sort_desc jm_score matches))
    end.

Definition js_locate_body (description : option string) (action text_input : string)
      (page_index : Z) : M (State W) dict :=
    page ← _get_page page_index;
    match page with
    | None => return_ (err "Invalid page index")
    | Some page =>
        try_except (
          allElements ← call (EEvaluate page "js_locate") (d_document drv page);
          elements ← answer (js_scan description allElements);
          match elements with
          | top_element :: _ =>
              if String.eqb action "find" then
                return_ {[ "status" := VStr "success";
                           "message" := VStr ("Found " +:+ pretty (length elements)
                                              +:+ " elements matching: " +:+ fmt description);
                           "elements" := VDicts (js_match_dict <$> elements) ]}
              else
                let xpath := jm_xpath top_element in
                element ← call (EWaitForSelector page ("xpath=" +:+ xpath) 2000)
                               (d_wait_for_selector drv page ("xpath=" +:+ xpath) 2000);
                match element with
                | Some element =>
                    (if String.eqb action "click" then
                       call (EClick element) (d_click drv element)
                     else if String.eqb action "fill" then
                       call (EFill element text_input) (d_fill drv element text_input)
                     else mret tt);;
                    return_ {[ "status" := VStr "success";
                               "message" := VStr ("Successfully performed " +:+ action
                                                  +:+ " on element via JS locator");
                               "element_found" := VBool true;
                               "element_details" := VDict (js_match_dict top_element) ]}
                | None =>
                    return_ {[ "status" := VStr "error";
                               "message" := VStr "Found element with JS but couldn't interact with it";
                               "element_details" := VDict (js_match_dict top_element) ]}
                end
          | [] =>
              return_ (err ("No elements found matching description: " +:+ fmt description))
          end)
        (λ e, return_ (err e))
    end.

Definition playwright_js_locate (description : option string) (action text_input : string)
      (page_index : Z) : Tool W :=
    fn (js_locate_body description action text_input page_index).

  (** *** [playwright_multi_strategy_locate] *)

Definition template_selectors (description : string) : list string :=
    [ "text=" +:+ description;
      "text='" +:+ description +:+ "'";
      "button:has-text('" +:+ description +:+ "')";
      "a:has-text('" +:+ description +:+ "')";
      "input[placeholder*='" +:+ description +:+ "']";
      "[aria-label*='" +:+ description +:+ "']";
      "label:has-text('" +:+ description +:+ "')" ].

Definition perform_action (action text_input : string) (element : Handle)
      : M (State W) unit :=
    if String.eqb action "click" then call (EClick element) (d_click drv element)
    else if String.eqb action "fill" then
      call (EFill element text_input) (d_fill drv element text_input)
    else if String.eqb action "hover" then call (EHover element) (d_hover drv element)
    else if String.eqb action "select" then
      call (ESelectOption element text_input) (d_select_option drv element text_input)
    else mret tt.

  (** The handler [except Exception as e] of each strategy block. *)
Definition record_failure (attempt : nat) (e : Exn) : M (State W) unit :=
    set_key attempt "result" (VStr "failed");;
    set_key attempt "error" (VStr e);;
    append_attempt attempt.

  (** The body of the loop over [standard_selectors]. *)
Definition try_standard_selector (page : Page) (action text_input : string)
      (capture_screenshot : bool) (selector : string) : M (State W) unit :=
    attempt ← new_dict {[ "strategy" := VStr "standard_selector";
                          "selector" := VStr selector ]};
    try_except (
      element ← call (EWaitForSelector page selector 1000)
                     (d_wait_for_selector drv page selector 1000);
      match element with
      | Some element =>
          perform_action action text_input element;;
          set_key attempt "result" (VStr "success");;
          append_attempt attempt;;
          screenshot_path ← take_screenshot page capture_screenshot "multi_strategy_" time_time;
          return_ {[ "status" := VStr "success";
                     "message" := VStr ("Located element using standard selector: " +:+ selector);
                     "strategy_used" := VStr "standard_selector";
                     "selector_used" := VStr selector;
                     "action_performed" := VStr action;
                     "screenshot" := VOptStr screenshot_path ]}
      | None => mret tt
      end)
    (record_failure attempt).

  (** The three blocks that follow the loop have one shape: they differ in
      the attempt recorded, the tool awaited, the message of a miss and the
      dictionary returned on a hit. *)
Definition try_locator (page : Page) (capture_screenshot : bool) (attempt0 : dict)
      (tool : Tool W) (miss : string) (hit : dict → option string → dict)
      : M (State W) unit :=
    attempt ← new_dict attempt0;
    try_except (
      result ← invoke tool;
      if is_str (get result "status") "success" && truthy (get result "element_found") then
        set_key attempt "result" (VStr "success");;
        append_attempt attempt;;
        screenshot_path ← take_screenshot page capture_screenshot "multi_strategy_" time_time;
        return_ (hit result screenshot_path)
      else
        set_key attempt "result" (VStr "failed");;
        set_key attempt "error" (VStr miss);;
        append_attempt attempt)
    (record_failure attempt).

Definition a11y_hit (action : string) (a11y_result : dict) (screenshot_path : option string)
      : dict :=
    {[ "status" := VStr "success";
       "message" := VStr "Located element using accessibility tree";
       "strategy_used" := VStr "accessibility_tree";
       "element_details" := get a11y_result "element_details";
       "action_performed" := VStr action;
       "screenshot" := VOptStr screenshot_path ]}.

Definition vision_hit (action : string) (vision_result : dict)
      (screenshot_path : option string) : dict :=
    {[ "status" := VStr "success";
       "message" := VStr "Located element using vision-based locator";
       "strategy_used" := VStr "vision_locator";
       "action_performed" := VStr action;
       "screenshot" := VOptStr screenshot_path ]}.

Definition js_hit (action : string) (js_result : dict) (screenshot_path : option string)
      : dict :=
    {[ "status" := VStr "success";
       "message" := VStr "Located element using JavaScript";
       "strategy_used" := VStr "javascript";
       "element_details" := get js_result "element_details";
       "action_performed" := VStr action;
       "screenshot" := VOptStr screenshot_path ]}.

Definition strategies_of (attempts : list dict) : Val :=
    VList ((λ a, get a "strategy") <$> attempts).

Definition not_located (optional : bool) (description : option string)
      (attempts : list dict) (page_info : dict) (debug_screenshot : option string) : dict :=
    let element_desc := if opt_truthy description then default EmptyString description
                        else "using provided selectors" in
    if optional then
      {[ "status" := VStr "success";
         "message" := VStr ("Optional action: Element matching '" +:+ element_desc
                            +:+ "' not found but continuing");
         "element_found" := VBool false;
         "attempted_strategies" := strategies_of attempts;
         "detailed_attempts" := VDicts attempts;
         "page_info" := VDict page_info ]}
    else
      {[ "status" := VStr "error";
         "message" := VStr ("Failed to locate element matching '" +:+ element_desc
                            +:+ "' with any strategy");
         "attempted_strategies" := strategies_of attempts;
         "detailed_attempts" := VDicts attempts;
         "page_info" := VDict page_info;
         "debug_screenshot" := VOptStr debug_screenshot;
         "suggestion" := VStr "Try using more specific description or inspect the page manually" ]}.

  (** What follows the validation of the request, inside the outer [try]. *)
Definition multi_strategy_chain (page : Page) (description : option string)
      (standard_selectors : list string) (action text_input : string) (page_index : Z)
      (capture_screenshot optional : bool) : M (State W) dict :=
    for_each standard_selectors
             (try_standard_selector page action text_input capture_screenshot);;
    try_locator page capture_screenshot
      {[ "strategy" := VStr "accessibility_tree"; "description" := VOptStr description ]}
      (playwright_accessibility_locator description action text_input page_index)
      "No matching elements found via accessibility tree" (a11y_hit action);;
    try_locator page capture_screenshot
      {[ "strategy" := VStr "vision_location"; "text" := VOptStr description ]}
      (playwright_vision_locator description false action text_input page_index)
      "No matching elements found via vision-based locator" (vision_hit action);;
    try_locator page capture_screenshot
      {[ "strategy" := VStr "javascript"; "description" := VOptStr description ]}
      (playwright_js_locate description action text_input page_index)
      "No matching elements found via JavaScript" (js_hit action);;
    debug_screenshot ← take_screenshot page capture_screenshot
                                       "multi_strategy_failed_" time_time;
    url ← gets (λ s, d_url drv page (world (ext s)));
    title ← call (ETitle page) (d_title drv page);
    body ← call (EEvaluate page "() => document.body.innerText.substring(0, 500)")
                (d_body_text drv page);
    let page_info : dict :=
      {[ "url" := VStr url; "title" := VStr title;
         "content_snippet" := VStr (Str.take 500 body) ]} in
    attempts ← read_attempts;
    return_ (not_located optional description attempts page_info debug_screenshot).

Definition multi_strategy_body (description : option string)
      (selectors : option (list string)) (action text_input : string) (page_index : Z)
      (capture_screenshot optional : bool) : M (State W) dict :=
    page ← _get_page page_index;
    match page with
    | None => return_ (err "Invalid page index")
    | Some page =>
        try_except (
          standard_selectors ←
            match selectors with
            | Some ((_ :: _) as selectors) => mret selectors
            | _ =>
                if opt_truthy description
                then mret (template_selectors (default EmptyString description))
                else return_ (err "Either description or selectors must be provided")
            end;
          multi_strategy_chain page description standard_selectors action text_input
                               page_index capture_screenshot optional)
        (λ e, return_ (on_exception optional e))
    end.

Definition playwright_multi_strategy_locate (description : option string)
      (selectors : option (list string)) (action text_input : string) (page_index : Z)
      (capture_screenshot optional : bool) : Tool W :=
    fn (multi_strategy_body description selectors action text_input page_index
                            capture_screenshot optional).

  (** *** The one-call tools the dispatcher names
      ([playwright_hover], [playwright_fill], [playwright_select] of
      [Tools/ElementInteraction/interaction.py], [playwright_navigate] of
      [Tools/BrowserControl/navigation.py]) *)

Definition playwright_hover (selector : string) (page_index : Z)
      (capture_screenshot : bool) : Tool W :=
    fn (page ← _get_page page_index;
        match page with
        | None => return_ (err "Invalid page index")
        | Some page =>
            try_except (
              call (EPageHover page selector) (d_page_hover drv page selector);;
              let result : dict :=
                {[ "status" := VStr "success";
                   "message" := VStr ("Hovered over element: " +:+ selector) ]} in
              shot ← take_screenshot page capture_screenshot "hover_" time_time;
              return_ (match shot with
                       | Some path => <["screenshot" := VStr path]> result
                       | None => result
                       end))
            (λ e, return_ (err e))
        end).

Definition playwright_fill (selector text : string) (page_index : Z) : Tool W :=
    fn (page ← _get_page page_index;
        match page with
        | None => return_ (err "Invalid page index")
        | Some page =>
            try_except (
              call (EPageFill page selector text) (d_page_fill drv page selector text);;
              return_ {[ "status" := VStr "success";
                         "message" := VStr ("Filled element " +:+ selector
                                            +:+ " with text: " +:+ text) ]})
            (λ e, return_ (err e))
        end).

Definition playwright_select (selector value : string) (page_index : Z) : Tool W :=
    fn (page ← _get_page page_index;
        match page with
        | None => return_ (err "Invalid page index")
        | Some page =>
            try_except (
              call (EPageSelectOption page selector value)
                   (d_page_select_option drv page selector value);;
              return_ {[ "status" := VStr "success";
                         "message" := VStr ("Selected option with value '" +:+ value
                                            +:+ "' from dropdown " +:+ selector) ]})
            (λ e, return_ (err e))
        end).

  (** [navigation.py] does not import [asyncio], so naming the screenshot
      file raises a [NameError]. *)
Definition playwright_navigate (url : string) (wait_for_load capture_screenshot : bool)
      (page_index : Z) : Tool W :=
    fn (page ← _get_page page_index;
        match page with
        | None => return_ (err "Invalid page index")
        | Some page =>
            try_except (
              let wait_until := if wait_for_load then "load" else "domcontentloaded" in
              call (EGoto page url) (d_goto drv page url wait_until 60000);;
              title ← call (ETitle page) (d_title drv page);
              current ← gets (λ s, d_url drv page (world (ext s)));
              let result : dict :=
                {[ "status" := VStr "success";
                   "message" := VStr ("Navigated to " +:+ url);
                   "title" := VStr title;
                   "url" := VStr current ]} in
              (if capture_screenshot
               then raise "name 'asyncio' is not defined"
               else mret tt);;
              return_ result)
            (λ e, return_ (err e))
        end).

  (** *** [playwright_close] *)

Definition with_pages (ps : list Page) (s : State W) : State W :=
    {| ext := {| world := world (ext s); pages := ps; ticks := ticks (ext s);
                 trace := trace (ext s) |};
       frame := frame s |}.

Definition set_pages (ps : list Page) : M (State W) unit := λ s,
    (Ok tt, with_pages ps s).

Definition playwright_close (page_index : Z) : Tool W :=
    fn (ps ← gets (λ s, pages (ext s));
        if ((page_index <? 0) || (Z.of_nat (length ps) <=? page_index))%Z then
          return_ (err "Invalid page index")
        else
          try_except (
            page ← match ps !! Z.to_nat page_index with
                   | Some page => mret page
                   | None => raise "list index out of range"
                   end;
            call (EClosePage page) (d_close drv page);;
            ps ← gets (λ s, pages (ext s));
            set_pages (delete (Z.to_nat page_index) ps);;
            ps ← gets (λ s, pages (ext s));
            return_ {[ "status" := VStr "success";
                       "message" := VStr ("Closed page at index " +:+ pretty page_index);
                       "pages_count" := VInt (Z.of_nat (length ps)) ]})
          (λ e, return_ (err e))).

  (** *** [playwright_auto_execute] *)

  (** What [getattr(self, name)] can be: a method, taking its keyword
      arguments, or something that is not callable. *)
Inductive Attr : Type :=
  | Method (f : dict → Tool W)
  | NotCallable (type_name : string).

Definition action_tool_map : gmap string (list string) :=
    {[ "click" := ["playwright_smart_click"; "playwright_multi_strategy_locate";
                   "playwright_js_locate"];
       "fill" := ["playwright_fill"; "playwright_multi_strategy_locate";
                  "playwright_js_locate"];
       "navigate" := ["playwright_navigate"];
       "select" := ["playwright_select"; "playwright_multi_strategy_locate"];
       "hover" := ["playwright_hover"; "playwright_multi_strategy_locate"] ]}.

  (** [action_tool_map.get(action.lower(), ["playwright_multi_strategy_locate"])] *)
Definition tool_names_for (action : string) : list string :=
    default ["playwright_multi_strategy_locate"] (action_tool_map !! Str.lower action).

Definition common_args (page_index : Z) (capture_screenshot : bool) (kwargs : dict) : dict :=
    <["capture_screenshot" := VBool capture_screenshot]>
      (<["page_index" := VInt page_index]> kwargs).

Definition locate_args (action target value : string) (tool_args : dict) : dict :=
    <["text_input" := VStr value]>
      (<["action" := VStr action]> (<["description" := VStr target]> tool_args)).

Definition primary_args (primary_tool_name action target value : string)
      (page_index : Z) (capture_screenshot : bool) (kwargs : dict) : dict :=
    let tool_args := common_args page_index capture_screenshot kwargs in
    if String.eqb primary_tool_name "playwright_navigate" then
      <["url" := VStr target]> tool_args
    else if String.eqb primary_tool_name "playwright_smart_click" then
      <["text" := VStr target]> tool_args
    else if String.eqb primary_tool_name "playwright_fill" then
      <["text" := VStr value]> (<["selector" := VStr target]> tool_args)
    else if String.eqb primary_tool_name "playwright_select" then
      <["value" := VStr value]> (<["selector" := VStr target]> tool_args)
    else if String.eqb primary_tool_name "playwright_hover" then
      <["selector" := VStr target]> tool_args
    else if String.eqb primary_tool_name "playwright_multi_strategy_locate" then
      locate_args action target value tool_args
    else tool_args.

Definition fallback_args (tool_name action target value : string)
      (page_index : Z) (capture_screenshot : bool) (kwargs : dict) : dict :=
    let tool_args := common_args page_index capture_screenshot kwargs in
    if String.eqb tool_name "playwright_multi_strategy_locate" then
      locate_args action target value tool_args
    else if String.eqb tool_name "playwright_js_locate" then
      locate_args action target value tool_args
    else if String.eqb tool_name "playwright_vision_locator" then
      <["text_input" := VStr value]>
        (<["action" := VStr action]> (<["text" := VStr target]> tool_args))
    else tool_args.

Definition mark_called (i : Z) (tool_name : string) : M (State W) unit := λ s,
    (Ok tt, with_called i tool_name s).

(** [await method] on the keyword arguments [tool_args] *)
Definition call_method (i : Z) (tool_name : string) (method : Attr) (tool_args : dict)
      : M (State W) dict :=
    match method with
    | Method f => mark_called i tool_name;; invoke (f tool_args)
    | NotCallable type_name => raise ("'" +:+ type_name +:+ "' object is not callable")
    end.

Definition record_result (attempt : nat) (result : string) (error : Val) : M (State W) unit :=
    set_key attempt "result" (VStr result);;
    set_key attempt "error" error;;
    append_attempt attempt.

Definition record_success (attempt : nat) : M (State W) unit :=
    set_key attempt "result" (VStr "success");;
    append_attempt attempt.

  (** [result.get("message", "Unknown error")] *)
Definition message_of (result : dict) : Val :=
    default (VStr "Unknown error") (result !! "message").

Section Dispatch.
Context (self : gmap string Attr).
Context (action target value : string) (page_index max_attempts : Z)
            (capture_screenshot : bool) (kwargs : dict).

Definition try_primary (primary_tool_name : string) : M (State W) unit :=
      attempt ← new_dict {[ "strategy" := VStr primary_tool_name; "target" := VStr target ]};
      try_except (
        match self !! primary_tool_name with
        | None =>
            record_result attempt "error"
              (VStr ("Tool " +:+ primary_tool_name +:+ " does not exist"));;
            raise ("Tool " +:+ primary_tool_name +:+ " does not exist")
        | Some (NotCallable _) =>
            record_result attempt "error"
              (VStr ("Tool " +:+ primary_tool_name +:+ " is not callable"));;
            raise ("Tool " +:+ primary_tool_name +:+ " is not callable")
        | Some method =>
            let tool_args := primary_args primary_tool_name action target value
                                          page_index capture_screenshot kwargs in
            result ← call_method 0 primary_tool_name method tool_args;
            if is_str (get result "status") "success" then
              record_success attempt;;
              return_ {[ "status" := VStr "success";
                         "message" := VStr ("Action '" +:+ action
                                            +:+ "' completed successfully with direct tool");
                         "tool_used" := VStr primary_tool_name;
                         "details" := VDict result ]}
            else
              record_result attempt "failed" (message_of result)
        end)
      (λ e, record_result attempt "error" (VStr e)).

    (** The body of the loop over the fallback tools, after the test of
        the budget. *)
Definition try_fallback (i : Z) (tool_name : string) : M (State W) unit :=
      attempt ← new_dict {[ "strategy" := VStr tool_name; "target" := VStr target ]};
      try_except (
        match self !! tool_name with
        | None =>
            record_result attempt "error"
              (VStr ("Tool " +:+ tool_name +:+ " does not exist"))
        | Some method =>
            let tool_args := fallback_args tool_name action target value
                                           page_index capture_screenshot kwargs in
            result ← call_method i tool_name method tool_args;
            if is_str (get result "status") "success" then
              record_success attempt;;
              return_ {[ "status" := VStr "success";
                         "message" := VStr ("Action '" +:+ action
                                            +:+ "' completed successfully with fallback tool");
                         "tool_used" := VStr tool_name;
                         "fallback_attempt" := VInt i;
                         "details" := VDict result ]}
            else
              record_result attempt "failed" (message_of result)
        end)
      (λ e, record_result attempt "error" (VStr e)).

    (** [for i, tool_name in enumerate(tool_names[1:], 1):
           if i >= max_attempts: break
           ...] *)
Fixpoint fallback_loop (i : Z) (tool_names : list string) : M (State W) unit :=
      match tool_names with
      | [] => mret tt
      | tool_name :: rest =>
          if (max_attempts <=? i)%Z then mret tt
          else try_fallback i tool_name;; fallback_loop (i + 1) rest
      end.

    (** [el => (el.innerText && el.innerText.includes(target)) ||
               (el.textContent && el.textContent.includes(target))] *)
Definition text_includes (el : DomElement) : bool :=
      (opt_truthy (innerText el) && Str.contains (default EmptyString (innerText el)) target)
      || (opt_truthy (textContent el)
          && Str.contains (default EmptyString (textContent el)) target).

    (** The element the last-resort script settles on: by id, else by
        [querySelector] (a selector it rejects counts as no match), else
        the first element whose text includes the target. *)
Definition js_direct_click_target (allElements : list DomElement)
        : option (nat * DomElement) :=
      let element :=
        if Str.truthy target
        then list_find (λ el, el_id el = target) allElements
        else None in
      let element :=
        match element with
        | Some _ => element
        | None =>
            match d_query_selector drv allElements target with
            | Gives (Some i) => (λ el, (i, el)) <$> allElements !! i
            | _ => None
            end
        end in
      match element with
      | Some _ => element
      | None => list_find (λ el, text_includes el = true) allElements
      end.

Definition with_world (f : W → W) (s : State W) : State W :=
      {| ext := {| world := f (world (ext s)); pages := pages (ext s);
                   ticks := ticks (ext s); trace := trace (ext s) |};
         frame := frame s |}.

Definition touch (f : W → W) : M (State W) unit := λ s,
      (Ok tt, with_world f s).

(** [await page.evaluate(script, target)] for the last-resort script. *)
Definition js_direct_click_script (page : Page) : M (State W) dict :=
      allElements ← call (EEvaluate page "js_direct_click") (d_document drv page);
      match js_direct_click_target allElements with
      | Some (i, element) =>
          if has_click element then
            touch (d_js_click drv page i);;
            mret {[ "success" := VBool true;
                    "elementInfo" := VDict {[ "tagName" := VStr (tagName element);
                                              "id" := VStr (el_id element);
                                              "className" := VStr (className element) ]} ]}
          else raise "TypeError: element.click is not a function"
      | None =>
          mret {[ "success" := VBool false; "message" := VStr "Element not found" ]}
      end.

Definition js_direct_click (page : Page) : M (State W) unit :=
      attempt ← new_dict {[ "strategy" := VStr "js_direct_click"; "target" := VStr target ]};
      try_except (
        result ← js_direct_click_script page;
        if truthy (get result "success") then
          record_success attempt;;
          screenshot_path ← take_screenshot page capture_screenshot
                                            "js_direct_click_" time_time;
          return_ {[ "status" := VStr "success";
                     "message" := VStr "Clicked element via direct JavaScript as last resort";
                     "tool_used" := VStr "js_direct_click";
                     "element_info" := get result "elementInfo";
                     "screenshot" := VOptStr screenshot_path ]}
        else
          record_result attempt "failed" (message_of result))
      (λ e, record_result attempt "error" (VStr e)).

Definition auto_execute_body : M (State W) dict :=
      page ← _get_page page_index;
      match page with
      | None => return_ (err "Invalid page index")
      | Some page =>
          try_except (
            let tool_names := tool_names_for action in
            try_primary (default EmptyString (head tool_names));;
            fallback_loop 1 (tail tool_names);;
            when (String.eqb (Str.lower action) "click") (js_direct_click page);;
            debug_screenshot ← take_screenshot page capture_screenshot
                                               "auto_execute_failed_" time_time;
            attempts ← read_attempts;
            return_ {[ "status" := VStr "error";
                       "message" := VStr ("Failed to perform " +:+ action +:+ " on " +:+ target
                                          +:+ " after " +:+ pretty (length attempts)
                                          +:+ " attempts");
                       "attempts" := VDicts attempts;
                       "debug_screenshot" := VOptStr debug_screenshot;
                       "suggestion" := VStr "Try a more specific target or a different approach" ]})
          (λ e, return_ (err e))
      end.

Definition playwright_auto_execute : Tool W := fn auto_execute_body.

End Dispatch.

  (** *** The methods of the integrated class

      [PlaywrightTools] inherits every tool class, so the names of the
      dispatcher's chains resolve to the tools above.  Each method binds
      its keyword arguments as Python does: a keyword that is not a
      parameter is a [TypeError] unless the method takes [**kwargs], and
      so is a missing required parameter.  Arguments are taken to have
      the annotated types. *)

Definition get_opt_str (args : dict) (k : string) : option string :=
    match args !! k with Some (VStr s) => Some s | _ => None end.

Definition get_strs (args : dict) (k : string) : option (list string) :=
    match args !! k with
    | Some (VList l) => Some (omap (λ v, match v with VStr s => Some s | _ => None end) l)
    | _ => None
    end.

Definition unexpected (allowed : list string) (args : dict) : option string :=
    head (filter (λ k, k ∉ allowed) (fst <$> map_to_list args)).

Definition missing (required : list string) (args : dict) : option string :=
    head (filter (λ k, args !! k = None) required).

Definition throws (e : Exn) : Tool W := λ s, (Throws e, s).

Definition bind_keywords (name : string) (required allowed : list string)
      (var_keyword : bool) (args : dict) (t : Tool W) : Tool W :=
    match (if var_keyword then None else unexpected allowed args) with
    | Some k => throws (name +:+ "() got an unexpected keyword argument '" +:+ k +:+ "'")
    | None =>
        match missing required args with
        | Some k => throws (name +:+ "() missing 1 required positional argument: '"
                            +:+ k +:+ "'")
        | None => t
        end
    end.

Definition smart_click_method (args : dict) : Tool W :=
    playwright_smart_click (get_opt_str args "text") (get_opt_str args "selector")
      (default "any" (get_opt_str args "element_type")) (get_int args "page_index" 0)
      (get_bool args "capture_screenshot" false) (get_bool args "optional" false)
      (get_opt_str args "description").

Definition multi_strategy_locate_method (args : dict) : Tool W :=
    playwright_multi_strategy_locate (get_opt_str args "description")
      (get_strs args "selectors") (default "click" (get_opt_str args "action"))
      (default EmptyString (get_opt_str args "text_input")) (get_int args "page_index" 0)
      (get_bool args "capture_screenshot" false) (get_bool args "optional" false).

Definition js_locate_method (args : dict) : Tool W :=
    bind_keywords "playwright_js_locate" ["description"]
      ["description"; "action"; "text_input"; "page_index"] false args
      (playwright_js_locate (get_opt_str args "description")
         (default "find" (get_opt_str args "action"))
         (default EmptyString (get_opt_str args "text_input")) (get_int args "page_index" 0)).

Definition fill_method (args : dict) : Tool W :=
    bind_keywords "playwright_fill" ["selector"; "text"]
      ["selector"; "text"; "page_index"] false args
      (playwright_fill (default EmptyString (get_opt_str args "selector"))
         (default EmptyString (get_opt_str args "text")) (get_int args "page_index" 0)).

Definition select_method (args : dict) : Tool W :=
    bind_keywords "playwright_select" ["selector"; "value"]
      ["selector"; "value"; "page_index"] false args
      (playwright_select (default EmptyString (get_opt_str args "selector"))
         (default EmptyString (get_opt_str args "value")) (get_int args "page_index" 0)).

Definition hover_method (args : dict) : Tool W :=
    bind_keywords "playwright_hover" ["selector"]
      ["selector"; "page_index"; "capture_screenshot"] false args
      (playwright_hover (default EmptyString (get_opt_str args "selector"))
         (get_int args "page_index" 0) (get_bool args "capture_screenshot" false)).

Definition navigate_method (args : dict) : Tool W :=
    bind_keywords "playwright_navigate" ["url"]
      ["url"; "wait_for_load"; "capture_screenshot"; "page_index"] false args
      (playwright_navigate (default EmptyString (get_opt_str args "url"))
         (get_bool args "wait_for_load" true) (get_bool args "capture_screenshot" false)
         (get_int args "page_index" 0)).

  (** An instance of [PlaywrightTools], as far as the dispatcher looks. *)
Definition PlaywrightTools : gmap string Attr :=
    {[ "playwright_smart_click" := Method smart_click_method;
       "playwright_multi_strategy_locate" := Method multi_strategy_locate_method;
       "playwright_js_locate" := Method js_locate_method;
       "playwright_fill" := Method fill_method;
       "playwright_select" := Method select_method;
       "playwright_hover" := Method hover_method;
       "playwright_navigate" := Method navigate_method ]}.

  (** An instance of [DebugTools] alone: the class defines the dispatcher
      but none of the tools its chains name. *)
Definition DebugTools : gmap string Attr := ∅.

End Tools.

Arguments Method {W} f.
Arguments NotCallable {W} type_name.

(** ** A table-driven page, for running the tools on concrete pages

    The world is the list of elements clicked so far: a handle clicked
    through the driver, or [1000 + n] for the n-th element of the document
    clicked by a script. *)

Module Sim.

Record Config := {
    resolves : list (string * option Handle);
    matches_all : list (string * list Handle);
    click_fails : list Handle;
    shot_fails : string → bool;
    handles : list (Handle * DomElement);
    document : list DomElement;
    css : list (string * nat);
    tree : option A11yNode;
    body : string;
    close_fails : bool
  }.

Definition lookup {A} (k : string) (l : list (string * A)) : option A :=
    snd <$> list_find (λ kv, kv.1 = k) l ≫= λ kv, Some kv.2.

Definition wait (c : Config) (sel : string) : Answer (option Handle) :=
    match lookup sel (resolves c) with
    | Some r => Gives r
    | None => Throws "Timeout exceeded"
    end.

Definition click (c : Config) (h : Handle) (w : list nat) : Answer unit * list nat :=
    if bool_decide (h ∈ click_fails c) then (Throws "Element is not attached to the DOM", w)
    else (Gives tt, w ++ [h]).

Definition driver (c : Config) : Driver (list nat) := {|
    d_wait_for_selector _ sel _ w := (wait c sel, w);
    d_query_selector_all _ sel w := (Gives (default [] (lookup sel (matches_all c))), w);
    d_page_click _ sel w :=
      match wait c sel with
      | Gives (Some h) => click c h w
      | _ => (Throws "Timeout exceeded", w)
      end;
    d_page_fill _ _ _ w := (Gives tt, w);
    d_page_hover _ _ w := (Gives tt, w);
    d_page_select_option _ _ _ w := (Gives tt, w);
    d_goto _ _ _ _ w := (Gives tt, w);
    d_click h w := click c h w;
    d_fill _ _ w := (Gives tt, w);
    d_hover _ w := (Gives tt, w);
    d_select_option _ _ w := (Gives tt, w);
    d_bounding_box _ w := (Gives None, w);
    d_screenshot _ path w :=
      (if shot_fails c path then Throws "screenshot failed" else Gives tt, w);
    d_element _ h w :=
      (match list_find (λ kv, kv.1 = h) (handles c) with
       | Some (_, (_, el)) => Gives el
       | None => Throws "Element is not attached to the DOM"
       end, w);
    d_document _ w := (Gives (document c), w);
    d_query_selector _ sel := Gives (lookup sel (css c));
    d_js_click _ n w := w ++ [(1000 + n)%nat];
    d_body_text _ w := (Gives (body c), w);
    d_snapshot _ w := (Gives (tree c), w);
    d_title _ w := (Gives "Test page", w);
    d_url _ _ := "https://example.test/";
    d_close _ w := (if close_fails c then Throws "Target closed" else Gives tt, w)
  |}.

  (** A page on which nothing resolves. *)
Definition blank : Config := {|
    resolves := []; matches_all := []; click_fails := []; shot_fails := λ _, false;
    handles := []; document := []; css := []; tree := None;
    body := EmptyString; close_fails := false
  |}.

Definition clock : Clock := {|
    time_time n := pretty (1700000000 + N.of_nat n)%N;
    loop_time n := pretty n
  |}.

  (** A session with the given pages, nothing done yet. *)
Definition session (ps : list Page) : Ext (list nat) :=
    {| world := []; pages := ps; ticks := 0; trace := [] |}.

Definition element (tag id : string) (text : string)
      (attrs : gmap string string) : DomElement := {|
    tagName := tag; el_id := id; classList := []; className := EmptyString;
    innerText := Some text; textContent := Some text; el_value := None;
    el_attributes := attrs; has_click := true; prev_siblings := []; ancestors := []
  |}.

End Sim.

(** ** What the outcomes say *)

(** The outcome reports an element found and acted on. *)
Definition hit (o : dict) : Prop :=
  is_Some (o !! "strategy_used") ∨ is_Some (o !! "selector_used")
  ∨ get o "element_found" = VBool true.

(** The outcome reports that nothing was found and keeps what was tried
    or what went wrong. *)
Definition soft_failure (o : dict) : Prop :=
  get o "element_found" = VBool false ∧
  (is_Some (o !! "detailed_attempts") ∨ is_Some (o !! "tried_selectors")
   ∨ is_Some (o !! "error")).

(** An outcome of an optional action: never an error. *)
Definition downgraded (o : dict) : Prop :=
  get o "status" = VStr "success" ∧ (hit o ∨ soft_failure o).

(** ** Reasoning about programs

    [wp m Q R E s]: run from [s], the program [m] ends normally in a value
    and state satisfying [Q], or returns a dictionary in a state
    satisfying [R], or raises an exception in a state satisfying [E]. *)

Definition wp {S A} (m : M S A) (Q : A → S → Prop) (R : dict → S → Prop)
    (E : Exn → S → Prop) (s : S) : Prop :=
  match m s with
  | (Ok a, s') => Q a s'
  | (Return o, s') => R o s'
  | (Raise e, s') => E e s'
  end.

(** ** Scores and ranking, as stated *)

(** The order of a list sorted by decreasing key. *)
Definition descending {A} (key : A → Z) : relation A := λ a b, (key b ≤ key a)%Z.

Definition attribute_matches (keywords : list string) (kv : string * string) : bool :=
  Str.truthy kv.2 && any_keyword_in keywords kv.2.

Definition scan_attribute_matches (descLower : string) (el : DomElement) (attr : string) : bool :=
  match el_attributes el !! attr with
  | Some value => Str.contains (Str.lower value) descLower
  | None => false
  end.

(** A candidate kept by [playwright_find_element]: built from some tag,
    text and attributes, with their score, which is positive. *)
Definition scored (keywords : list string) (i : ElementInfo) : Prop :=
  ∃ tag text attributes,
    i = {| ei_tag := tag;
           ei_text := if Str.truthy text then Str.take 100 text else EmptyString;
           ei_attributes := attributes;
           ei_relevance := relevance keywords text attributes |}
    ∧ (0 < relevance keywords text attributes)%Z.

(** The score as the specification words it: 10 for a text that contains a
    keyword, 5 for each attribute of the fixed set whose value contains a
    keyword. *)
Definition spec_score (keywords : list string) (text : string)
    (attributes : gmap string string) : Z :=
  ((if any_keyword_in keywords text then 10 else 0)
   + 5 * Z.of_nat (length (filter
       (λ attr, from_option (any_keyword_in keywords) false (attributes !! attr) = true)
       scan_attributes)))%Z.

(** A page with one button that has no text and mentions submit in its
    class only. *)
Definition class_only_page : Sim.Config := {|
  Sim.resolves := []; Sim.matches_all := [("button", [1%nat])];
  Sim.click_fails := []; Sim.shot_fails := λ _, false;
  Sim.handles := [(1%nat, Sim.element "BUTTON" EmptyString EmptyString
                            {[ "class" := "primary submit" ]})];
  Sim.document := []; Sim.css := []; Sim.tree := None;
  Sim.body := EmptyString; Sim.close_fails := false
|}.

Definition candidate (relevance : Z) : ElementInfo :=
  {| ei_tag := "button"; ei_text := EmptyString; ei_attributes := ∅;
     ei_relevance := relevance |}.

(* definitions *)
(** ** The local objects of the dispatcher *)

(** The strategy named by each attempt dictionary created so far. *)
Definition strategies {W} (s : State W) : list (option Val) :=
  (λ d : dict, d !! "strategy") <$> dicts (frame s).

(** What one attempt block does to the local objects: it creates one
    dictionary, for the strategy [n], appends it to [attempts] once or
    twice, and awaits at most one method, of position [i] and name [n]. *)
Record block {W} (i : Z) (n : string) (s0 s' : State W) : Prop := {
  block_strategies : strategies s' = strategies s0 ++ [Some (VStr n)];
  block_attempts :
    attempts (frame s') = attempts (frame s0) ++ [length (strategies s0)]
    ∨ attempts (frame s')
      = (attempts (frame s0) ++ [length (strategies s0)]) ++ [length (strategies s0)];
  block_called :
    called (frame s') = called (frame s0)
    ∨ called (frame s') = called (frame s0) ++ [(i, n)]
}.

(** Every address in [attempts] is that of a dictionary. *)
Definition wf {W} (s : State W) : Prop :=
  Forall (λ a, a < length (strategies s))%nat (attempts (frame s)).

(** An attempt for the strategy [name] is in [attempts]. *)
Definition recorded {W} (s : State W) (name : string) : Prop :=
  ∃ a, a ∈ attempts (frame s) ∧ strategies s !! a = Some (Some (VStr name)).

Definition calls_recorded {W} (s : State W) : Prop :=
  ∀ i name, (i, name) ∈ called (frame s) → recorded s name.

(** The number of fallback tools awaited. *)
Definition fallback_calls {W} (s : State W) : nat :=
  length (filter (λ c, (1 ≤ c.1)%Z) (called (frame s))).

(** What holds of the local objects of the dispatcher whenever it ends. *)
Definition dispatched {W} (max_attempts : Z) (s : State W) : Prop :=
  wf s ∧ calls_recorded s ∧ (fallback_calls s ≤ Z.to_nat (max_attempts - 1))%nat.

(** The last-resort script has been evaluated on the page. *)
Definition evaluated {W} (page : Page) (s : State W) : Prop :=
  EEvaluate page "js_direct_click" ∈ trace (ext s).

(** A tool reports failure: its status is not success, or it raises. *)
Definition reports_failure (a : Answer dict) : Prop :=
  match a with
  | Gives r => is_str (get r "status") "success" = false
  | Throws _ => True
  end.

(** The attempts the dispatcher records. *)
Definition failed_attempt (tool_name target : string) (a : Answer dict) : dict :=
  <["error" := match a with Gives r => message_of r | Throws x => VStr x end]>
    (<["result" := VStr (match a with Gives _ => "failed" | Throws _ => "error" end)]>
       {[ "strategy" := VStr tool_name; "target" := VStr target ]}).

Definition successful_attempt (tool_name target : string) : dict :=
  <["result" := VStr "success"]>
    {[ "strategy" := VStr tool_name; "target" := VStr target ]}.

Definition missing_attempt (tool_name target : string) : dict :=
  <["error" := VStr ("Tool " +:+ tool_name +:+ " does not exist")]>
    (<["result" := VStr "error"]>
       {[ "strategy" := VStr tool_name; "target" := VStr target ]}).

(** No evaluation of the last-resort script beyond those in [seen]. *)
Definition quiet_ext {W} (seen : list Event) (e : Ext W) : Prop :=
  ∀ p, EEvaluate p "js_direct_click" ∈ trace e → EEvaluate p "js_direct_click" ∈ seen.

Definition quiet {W} (seen : list Event) (s : State W) : Prop := quiet_ext seen (ext s).

(** ** Pages used as examples *)

(** A page whose only element that resolves is a button reading
    Click Target. *)
Definition button_page : Sim.Config := {|
  Sim.resolves := [("button:has-text('Click Target')", Some 4%nat)];
  Sim.matches_all := []; Sim.click_fails := []; Sim.shot_fails := λ _, false;
  Sim.handles := []; Sim.document := []; Sim.css := []; Sim.tree := None;
  Sim.body := EmptyString; Sim.close_fails := false
|}.

(** What a tool answered, and the world it left. *)
Definition outcome_of {W} (r : Answer dict * Ext W) : dict :=
  match r.1 with Gives o => o | Throws _ => ∅ end.

(** A page on which only the first template of
    [playwright_multi_strategy_locate] for Submit resolves. *)
Definition text_page : Sim.Config := {|
  Sim.resolves := [("text=Submit", Some 3%nat)];
  Sim.matches_all := []; Sim.click_fails := []; Sim.shot_fails := λ _, false;
  Sim.handles := []; Sim.document := []; Sim.css := []; Sim.tree := None;
  Sim.body := EmptyString; Sim.close_fails := false
|}.

(** A page on which no selector resolves and whose only element has the
    id go and no text. *)
Definition id_only_page : Sim.Config := {|
  Sim.resolves := []; Sim.matches_all := []; Sim.click_fails := [];
  Sim.shot_fails := λ _, false; Sim.handles := [];
  Sim.document := [Sim.element "DIV" "go" EmptyString ∅];
  Sim.css := []; Sim.tree := None;
  Sim.body := EmptyString; Sim.close_fails := false
|}.

(** What the two first tools of the click chain answer on [text_page]. *)
Definition c5_primary : Answer dict * Ext (list nat) :=
  smart_click_method (Sim.driver text_page) Sim.clock
    (primary_args "playwright_smart_click" "click" "Submit" EmptyString 0 false ∅)
    (Sim.session [7]).

Definition c5_fallback : Answer dict * Ext (list nat) :=
  multi_strategy_locate_method (Sim.driver text_page) Sim.clock
    (fallback_args "playwright_multi_strategy_locate" "click" "Submit" EmptyString 0
       false ∅)
    c5_primary.2.

(** ** The local objects of the locator *)

(** An attempt dictionary as it was created, before its result was set. *)
Definition plain (d : dict) : dict := delete "result" (delete "error" d).

Definition created {W} (s : State W) : list dict := plain <$> dicts (frame s).

Definition selector_attempt (selector : string) : dict :=
  {[ "strategy" := VStr "standard_selector"; "selector" := VStr selector ]}.

(** The attempts of a whole chain, in the order of the code. *)
Definition plan (description : option string) (standard_selectors : list string)
    : list dict :=
  (selector_attempt <$> standard_selectors)
  ++ [ {[ "strategy" := VStr "accessibility_tree"; "description" := VOptStr description ]};
       {[ "strategy" := VStr "vision_location"; "text" := VOptStr description ]};
       {[ "strategy" := VStr "javascript"; "description" := VOptStr description ]} ].

(** From [s0] to [s'] the attempts [ds] were created, in this order, and
    what was appended to [attempts] are their addresses, in order of
    creation. *)
Record ran {W} (ds : list dict) (s0 s' : State W) : Prop := {
  ran_created : created s' = created s0 ++ ds;
  ran_attempts : ∃ new,
    attempts (frame s') = attempts (frame s0) ++ new
    ∧ StronglySorted le new
    ∧ Forall (λ a, length (created s0) ≤ a < length (created s0) + length ds)%nat new
}.

(** The last entry of [attempts] is the attempt created last, and it reads
    success. *)
Definition succeeded {W} (s : State W) : Prop :=
  ∃ a d, last (attempts (frame s)) = Some a
         ∧ S a = length (dicts (frame s))
         ∧ dicts (frame s) !! a = Some d
         ∧ d !! "result" = Some (VStr "success").

(** The outcome [o] is a success that names the strategy of the attempt
    [d]; the outcome of the visible-text strategy calls it
    [vision_locator]. *)
Definition names (o d : dict) : Prop :=
  get o "status" = VStr "success"
  ∧ get o "strategy_used"
    = (if is_str (get d "strategy") "vision_location" then VStr "vision_locator"
       else get d "strategy")
  ∧ o !! "selector_used" = d !! "selector".

(** The chain got to the attempt at position [k] of the plan [pl], which
    succeeded and which the outcome names. *)
Definition hit_at {W} (pl : list dict) (s0 : State W) (o : dict) (s' : State W) : Prop :=
  ∃ k d, pl !! k = Some d ∧ ran (take (S k) pl) s0 s' ∧ succeeded s' ∧ names o d.

(** A page whose only element that resolves is the one behind [#go];
    its screenshots fail or not. *)
Definition go_page (shots_fail : bool) : Sim.Config := {|
  Sim.resolves := [("#go", Some 1%nat)];
  Sim.matches_all := []; Sim.click_fails := []; Sim.shot_fails := λ _, shots_fail;
  Sim.handles := []; Sim.document := []; Sim.css := []; Sim.tree := None;
  Sim.body := EmptyString; Sim.close_fails := false
|}.

(** ** Code generation sessions ([Tools/CodeGeneration/codegen.py])

    The readings of [asyncio.get_event_loop().time()] are values of a type
    [T]; [now n] is the n-th reading made. *)

Module CodeGen.

(** What the dictionaries answered by these tools hold. *)
Inductive CVal (T : Type) : Type :=
| CStr (s : string)
| CTime (t : T)
| CDict (d : gmap string (CVal T)).
Arguments CStr {T} s.
Arguments CTime {T} t.
Arguments CDict {T} d.

(** [class CodeGenSession] *)
Record CodeGenSession (T : Type) := {
  session_id : string;
  name : string;
  language : string;
  code : string;
  created_at : T;
  updated_at : T
}.
Arguments session_id {T}. Arguments name {T}. Arguments language {T}.
Arguments code {T}. Arguments created_at {T}. Arguments updated_at {T}.

(** [class CodeGenerationTools]: the map [self.codegen_sessions], and the
    number of clock readings made so far. *)
Record Tools (T : Type) := {
  codegen_sessions : gmap string (CodeGenSession T);
  readings : nat
}.
Arguments codegen_sessions {T}. Arguments readings {T}.

Section WithClock.
Context {T : Type} (now : nat → T).

(** [CodeGenSession.__init__]: one reading, kept twice. *)
Definition new_session (id session_name lang : string) (n : nat) : CodeGenSession T :=
  {| session_id := id; name := session_name; language := lang; code := EmptyString;
     created_at := now n; updated_at := now n |}.

(** [CodeGenSession.update] *)
Definition update (s : CodeGenSession T) (c : string) (n : nat) : CodeGenSession T :=
  {| session_id := session_id s; name := name s; language := language s; code := c;
     created_at := created_at s; updated_at := now n |}.

(** [CodeGenSession.to_dict] *)
Definition to_dict (s : CodeGenSession T) : gmap string (CVal T) :=
  {[ "session_id" := CStr (session_id s);
     "name" := CStr (name s);
     "language" := CStr (language s);
     "code" := CStr (code s);
     "created_at" := CTime (created_at s);
     "updated_at" := CTime (updated_at s) ]}.

(** [CodeGenerationTools.__init__] *)
Definition init : Tools T := {| codegen_sessions := ∅; readings := 0 |}.

Definition not_found (id : string) : gmap string (CVal T) :=
  {[ "status" := CStr "error"; "message" := CStr ("Session not found: " +:+ id) ]}.

Definition next_id (self : Tools T) : string :=
  "session_" +:+ pretty (size (codegen_sessions self) + 1)%nat.

Definition start_codegen_session (session_name lang : string) (self : Tools T)
    : gmap string (CVal T) * Tools T :=
  let id := next_id self in
  let session := new_session id session_name lang (readings self) in
  ({[ "status" := CStr "success";
      "message" := CStr ("Code generation session started: " +:+ session_name);
      "session" := CDict (to_dict session) ]},
   {| codegen_sessions := <[id := session]> (codegen_sessions self);
      readings := S (readings self) |}).

Definition end_codegen_session (id : string) (self : Tools T)
    : gmap string (CVal T) * Tools T :=
  match codegen_sessions self !! id with
  | None => (not_found id, self)
  | Some session =>
      ({[ "status" := CStr "success";
          "message" := CStr ("Code generation session ended: " +:+ name session);
          "session" := CDict (to_dict session) ]},
       {| codegen_sessions := delete id (codegen_sessions self);
          readings := readings self |})
  end.

Definition get_codegen_session (id : string) (self : Tools T)
    : gmap string (CVal T) * Tools T :=
  match codegen_sessions self !! id with
  | None => (not_found id, self)
  | Some session =>
      ({[ "status" := CStr "success"; "session" := CDict (to_dict session) ]}, self)
  end.

Definition clear_codegen_session (id : string) (self : Tools T)
    : gmap string (CVal T) * Tools T :=
  match codegen_sessions self !! id with
  | None => (not_found id, self)
  | Some session =>
      let session := update session EmptyString (readings self) in
      ({[ "status" := CStr "success";
          "message" := CStr ("Code generation session cleared: " +:+ name session);
          "session" := CDict (to_dict session) ]},
       {| codegen_sessions := <[id := session]> (codegen_sessions self);
          readings := S (readings self) |})
  end.

(** A call of one of the four tools. *)
Inductive Call : Type :=
| Start (session_name lang : string)
| End_ (id : string)
| Get (id : string)
| Clear (id : string).

Definition call (c : Call) : Tools T → gmap string (CVal T) * Tools T :=
  match c with
  | Start session_name lang => start_codegen_session session_name lang
  | End_ id => end_codegen_session id
  | Get id => get_codegen_session id
  | Clear id => clear_codegen_session id
  end.

(** The tools after a sequence of calls. *)
Definition after (calls : list Call) (self : Tools T) : Tools T :=
  foldl (λ self c, (call c self).2) self calls.

(** The ids are [session_1] to [session_n], [n] the number of sessions:
    what holds as long as no session was ended. *)
Definition dense (self : Tools T) : Prop :=
  ∀ id, is_Some (codegen_sessions self !! id)
        ↔ ∃ k, (1 ≤ k ≤ size (codegen_sessions self))%nat ∧ id = "session_" +:+ pretty k.

End WithClock.

End CodeGen.

(** ** The tool class as a whole ([Tools/__init__.py]) *)

Section Integration.
Context {W : Type} (drv : Driver W).

(** [PlaywrightTools.METHOD_MAP] *)
Definition METHOD_MAP : gmap string string :=
  list_to_map
    [ ("playwright_navigate", "playwright_navigate");
      ("playwright_go_back", "playwright_go_back");
      ("playwright_go_forward", "playwright_go_forward");
      ("playwright_close", "playwright_close");
      ("playwright_screenshot", "playwright_screenshot");
      ("playwright_save_as_pdf", "playwright_save_as_pdf");
      ("playwright_get_visible_text", "playwright_get_visible_text");
      ("playwright_get_visible_html", "playwright_get_visible_html");
      ("playwright_click", "playwright_click");
      ("playwright_iframe_click", "playwright_iframe_click");
      ("playwright_hover", "playwright_hover");
      ("playwright_fill", "playwright_fill");
      ("playwright_select", "playwright_select");
      ("playwright_drag", "playwright_drag");
      ("playwright_press_key", "playwright_press_key");
      ("playwright_expect_response", "playwright_expect_response");
      ("playwright_assert_response", "playwright_assert_response");
      ("playwright_custom_user_agent", "playwright_custom_user_agent");
      ("playwright_evaluate", "playwright_evaluate");
      ("playwright_console_logs", "playwright_console_logs");
      ("playwright_smart_click", "playwright_smart_click");
      ("playwright_multi_strategy_locate", "playwright_multi_strategy_locate");
      ("playwright_debug_info", "playwright_debug_info");
      ("start_codegen_session", "start_codegen_session");
      ("end_codegen_session", "end_codegen_session");
      ("get_codegen_session", "get_codegen_session");
      ("clear_codegen_session", "clear_codegen_session") ].

(** [PlaywrightTools.dispatch_method]: [self] as [getattr] sees it. *)
Definition dispatch_method (self : gmap string (@Attr W)) (method_name : string)
    (kwargs : dict) : Tool W :=
  fn (let actual_method_name := default method_name (METHOD_MAP !! method_name) in
      match self !! actual_method_name with
      | Some (Method method) =>
          try_except (
            result ← invoke (method kwargs);
            return_ result)
          (λ e, return_ (err ("Error in " +:+ method_name +:+ ": " +:+ e)))
      | _ => return_ (err ("Method not found: " +:+ method_name))
      end).

(** [PlaywrightTools.cleanup] *)
Definition cleanup : Tool W :=
  fn (try_except (
        ps ← gets (λ s, pages (ext s));
        for_each ps (λ page, call (EClosePage page) (d_close drv page));;
        set_pages [];;
        return_ {[ "status" := VStr "success";
                   "message" := VStr "Cleaned up pages while preserving browser session" ]})
      (λ e, return_ (err e))).

End Integration.

(** A page collection whose second page cannot be closed. *)
Definition stuck_driver : Driver (list nat) := {|
  d_wait_for_selector := d_wait_for_selector (Sim.driver Sim.blank);
  d_query_selector_all := d_query_selector_all (Sim.driver Sim.blank);
  d_page_click := d_page_click (Sim.driver Sim.blank);
  d_page_fill := d_page_fill (Sim.driver Sim.blank);
  d_page_hover := d_page_hover (Sim.driver Sim.blank);
  d_page_select_option := d_page_select_option (Sim.driver Sim.blank);
  d_goto := d_goto (Sim.driver Sim.blank);
  d_click := d_click (Sim.driver Sim.blank);
  d_fill := d_fill (Sim.driver Sim.blank);
  d_hover := d_hover (Sim.driver Sim.blank);
  d_select_option := d_select_option (Sim.driver Sim.blank);
  d_bounding_box := d_bounding_box (Sim.driver Sim.blank);
  d_screenshot := d_screenshot (Sim.driver Sim.blank);
  d_element := d_element (Sim.driver Sim.blank);
  d_document := d_document (Sim.driver Sim.blank);
  d_query_selector := d_query_selector (Sim.driver Sim.blank);
  d_js_click := d_js_click (Sim.driver Sim.blank);
  d_body_text := d_body_text (Sim.driver Sim.blank);
  d_snapshot := d_snapshot (Sim.driver Sim.blank);
  d_title := d_title (Sim.driver Sim.blank);
  d_url := d_url (Sim.driver Sim.blank);
  d_close page w := if Nat.eqb page 8 then (Throws "Target closed", w) else (Gives tt, w)
|}.

(** The attempt the dispatcher records for a tool that raised [msg]. *)
Definition error_attempt (tool_name target : string) (msg : Exn) : dict :=
  <["error" := VStr msg]>
    (<["result" := VStr "error"]>
       {[ "strategy" := VStr tool_name; "target" := VStr target ]}).

(** ** Clicks, screenshots and scripts
    ([Tools/ElementInteraction/interaction.py],
    [Tools/ContentExtraction/extraction.py],
    [Tools/AdvancedBrowser/advanced.py]) *)

(** [s.endswith(suffix)]: some tail of [s] is [suffix]. *)
Fixpoint ends_with (s suffix : string) : bool :=
  if String.eqb s suffix then true
  else match s with
       | EmptyString => false
       | String _ s' => ends_with s' suffix
       end.

(** [if not name.endswith(ext): name += ext] *)
Definition with_extension (ext name : string) : string :=
  if ends_with name ext then name else name +:+ ext.

(** A value of JSON that is neither a list nor an object, its numbers
    being integers. *)
Inductive Scalar : Type :=
| SNone
| SBool (b : bool)
| SInt (z : Z)
| SStr (s : string).

(** The state of an element as the script of
    [playwright_assert_element_state] answers it. *)
Record ActualState := {
  as_visible : bool;
  as_text : option string;
  as_value : Scalar;
  as_disabled : Scalar;
  as_checked : Scalar;
  as_attributes : gmap string string;
  as_cssProperties : gmap string string
}.

(** What these tools ask of the driver beyond [Driver].  Of these
    operations only the screenshots of a page and the click by script are
    logged in [trace]. *)
Record PageDriver (W : Type) := {
  (** [page.query_selector(selector)] *)
  d_page_query_selector : Page → string → W → Answer (option Handle) * W;
  (** [page.evaluate("(element) => element.click()", element)] *)
  d_evaluate_click : Page → Handle → W → Answer unit * W;
  (** [page.wait_for_selector(selector, state="visible")] *)
  d_wait_visible : Page → string → W → Answer (option Handle) * W;
  (** [element.screenshot(path=path)] *)
  d_element_screenshot : Handle → string → W → Answer unit * W;
  (** [page.screenshot(path=path, full_page=full_page)] *)
  d_page_screenshot : Page → string → bool → W → Answer unit * W;
  (** [page.pdf(path=path)] *)
  d_pdf : Page → string → W → Answer unit * W;
  (** [page.evaluate(script, element)] for the script of
      [playwright_assert_element_state] *)
  d_element_state : Page → Handle → W → Answer ActualState * W
}.
Arguments d_page_query_selector {W}. Arguments d_evaluate_click {W}.
Arguments d_wait_visible {W}. Arguments d_element_screenshot {W}.
Arguments d_page_screenshot {W}. Arguments d_pdf {W}. Arguments d_element_state {W}.

Section PageTools.
Context {W : Type} (drv : Driver W) (pd : PageDriver W) (clk : Clock).

(** A driver operation that is not logged. *)
Definition perform {A} (op : W → Answer A * W) : M (State W) A := λ s,
  let '(r, w') := op (world (ext s)) in
  match r with
  | Gives a => (Ok a, with_world (λ _, w') s)
  | Throws x => (Raise x, with_world (λ _, w') s)
  end.

(** [if capture_screenshot: ...; result["screenshot"] = screenshot_path] *)
Definition with_screenshot (result : dict) (shot : option string) : dict :=
  match shot with
  | Some path => <["screenshot" := VStr path]> result
  | None => result
  end.

(** [playwright_click] *)
Definition playwright_click (selector : string) (page_index : Z)
    (capture_screenshot fallback : bool) : Tool W :=
  fn (page ← _get_page page_index;
      match page with
      | None => return_ (err "Invalid page index")
      | Some page =>
          try_except (
            call (EPageClick page selector) (d_page_click drv page selector);;
            let result : dict :=
              {[ "status" := VStr "success";
                 "message" := VStr ("Clicked element: " +:+ selector) ]} in
            shot ← take_screenshot drv clk page capture_screenshot "click_" time_time;
            return_ (with_screenshot result shot))
          (λ e,
            if negb fallback then return_ (err e)
            else
              try_except (
                element ← perform (d_page_query_selector pd page selector);
                match element with
                | None => return_ (err ("Element not found: " +:+ selector))
                | Some element =>
                    call (EEvaluate page "(element) => element.click()")
                         (d_evaluate_click pd page element);;
                    let result : dict :=
                      {[ "status" := VStr "success";
                         "message" := VStr ("Clicked element with JavaScript fallback: "
                                            +:+ selector);
                         "fallback_used" := VBool true ]} in
                    shot ← take_screenshot drv clk page capture_screenshot
                                           "click_fallback_" time_time;
                    return_ (with_screenshot result shot)
                end)
              (λ fallback_error,
                return_ (err ("Click failed: " +:+ e +:+ ". Fallback error: "
                              +:+ fallback_error))))
      end).

(** [playwright_screenshot] *)
Definition playwright_screenshot (filename : option string) (selector : string)
    (page_index : Z) (path : option string) (full_page : bool)
    (output_path : option string) : Tool W :=
  fn (page ← _get_page page_index;
      match page with
      | None => return_ (err "Invalid page index")
      | Some page =>
          try_except (
            let actual_filename :=
              if opt_truthy output_path then output_path
              else if opt_truthy path then path else filename in
            actual_filename ←
              (if opt_truthy actual_filename then mret (default EmptyString actual_filename)
               else t ← read_clock clk time_time;
                    mret ("screenshot_" +:+ t +:+ ".png"));
            let actual_filename := with_extension ".png" actual_filename in
            (if Str.truthy selector then
               element ← perform (d_wait_visible pd page selector);
               match element with
               | None => return_ (err ("Element not found: " +:+ selector))
               | Some element => perform (d_element_screenshot pd element actual_filename)
               end
             else
               call (EScreenshot page actual_filename)
                    (d_page_screenshot pd page actual_filename full_page));;
            return_ {[ "status" := VStr "success";
                       "message" := VStr ("Screenshot saved to " +:+ actual_filename);
                       "filename" := VStr actual_filename ]})
          (λ e, return_ (err e))
      end).

(** [playwright_save_as_pdf] *)
Definition playwright_save_as_pdf (filename : string) (page_index : Z) : Tool W :=
  fn (page ← _get_page page_index;
      match page with
      | None => return_ (err "Invalid page index")
      | Some page =>
          try_except (
            let filename := with_extension ".pdf" filename in
            perform (d_pdf pd page filename);;
            return_ {[ "status" := VStr "success";
                       "message" := VStr ("Saved page as PDF: " +:+ filename);
                       "filename" := VStr filename ]})
          (λ e, return_ (err e))
      end).

(** The script [playwright_evaluate] sends to the page: one with a
    [return] and no sign of a function is wrapped in an arrow function. *)
Definition evaluate_script (script : string) : string :=
  if Str.contains script "return "
     && negb (Str.contains script "() =>" || Str.contains script "function")
  then "() => { " +:+ script +:+ " }"
  else script.

End PageTools.

(** The page driver of a table-driven page: a script clicks the element
    behind the handle [h] as [2000 + h]; screenshots of elements and PDFs
    fail as those of pages do; every element is visible, enabled and not
    a form control. *)
Definition sim_page_driver (c : Sim.Config) : PageDriver (list nat) := {|
  d_page_query_selector _ sel w :=
    (Gives (default None (Sim.lookup sel (Sim.resolves c))), w);
  d_evaluate_click _ h w := (Gives tt, w ++ [(2000 + h)%nat]);
  d_wait_visible _ sel w := (Sim.wait c sel, w);
  d_element_screenshot _ path w :=
    (if Sim.shot_fails c path then Throws "screenshot failed" else Gives tt, w);
  d_page_screenshot _ path _ w :=
    (if Sim.shot_fails c path then Throws "screenshot failed" else Gives tt, w);
  d_pdf _ path w :=
    (if Sim.shot_fails c path then Throws "screenshot failed" else Gives tt, w);
  d_element_state _ h w :=
    (match list_find (λ kv, kv.1 = h) (Sim.handles c) with
     | Some (_, (_, el)) =>
         Gives {| as_visible := true; as_text := textContent el; as_value := SNone;
                  as_disabled := SBool false; as_checked := SNone;
                  as_attributes := el_attributes el; as_cssProperties := ∅ |}
     | None => Throws "Element is not attached to the DOM"
     end, w)
|}.

(** ** Assertions on elements ([playwright_assert_element_state] of
    [Tools/Debug/debug.py]) *)

(** A value of [expected_state]: a scalar, or a dictionary of scalars with
    its items in the order of insertion. *)
Inductive Expected : Type :=
| EScalar (v : Scalar)
| EDict (items : list (string * Scalar)).

(** [a == b] of Python on scalars: [True] and [False] are the integers 1
    and 0. *)
Definition py_eq (a b : Scalar) : bool :=
  match a, b with
  | SNone, SNone => true
  | SBool x, SBool y => Bool.eqb x y
  | SInt x, SInt y => (x =? y)%Z
  | SStr x, SStr y => String.eqb x y
  | SBool x, SInt y => (Z.b2z x =? y)%Z
  | SInt x, SBool y => (x =? Z.b2z y)%Z
  | _, _ => false
  end.

(** [expected != actual]: a dictionary never equals a scalar. *)
Definition differs (expected : Expected) (actual : Scalar) : bool :=
  match expected with
  | EScalar v => negb (py_eq v actual)
  | EDict _ => true
  end.

Definition type_name (v : Expected) : string :=
  match v with
  | EScalar SNone => "NoneType"
  | EScalar (SBool _) => "bool"
  | EScalar (SInt _) => "int"
  | EScalar (SStr _) => "str"
  | EDict _ => "dict"
  end.

(** The [AttributeError] of a method call on a value without it. *)
Definition no_attribute (v : Expected) (attr : string) : Exn :=
  "'" +:+ type_name v +:+ "' object has no attribute '" +:+ attr +:+ "'".

(** An entry of [failures]. *)
Record Failure := {
  assertion : string;
  expected : Expected;
  actual : Scalar
}.

(** [s[1:-1]] *)
Definition middle (s : string) : string :=
  match s with
  | EmptyString => EmptyString
  | String _ s' => Str.take (String.length s' - 1) s'
  end.

Definition opt_scalar (x : option string) : Scalar :=
  match x with Some s => SStr s | None => SNone end.

(** [if key in expected_state and expected_state[key] != actual: ...], the
    check of [visible], [value], [disabled] and [checked]. *)
Definition check_scalar (key : string) (expected_state : gmap string Expected)
    (actual_value : Scalar) : list Failure :=
  match expected_state !! key with
  | Some v =>
      if differs v actual_value
      then [ {| assertion := key; expected := v; actual := actual_value |} ]
      else []
  | None => []
  end.

(** The check of [text]. *)
Definition check_text (expected_state : gmap string Expected)
    (actual_text : option string) : Answer (list Failure) :=
  match expected_state !! "text" with
  | None => Gives []
  | Some (EScalar (SStr expected_text)) =>
      if Str.starts_with "*" expected_text && ends_with expected_text "*" then
        let expected_substring := middle expected_text in
        match actual_text with
        | None => Throws "argument of type 'NoneType' is not iterable"
        | Some t =>
            Gives (if negb (Str.contains t expected_substring)
                   then [ {| assertion := "text_contains";
                             expected := EScalar (SStr expected_substring);
                             actual := SStr t |} ]
                   else [])
        end
      else
        Gives (if negb (py_eq (SStr expected_text) (opt_scalar actual_text))
               then [ {| assertion := "text_exact";
                         expected := EScalar (SStr expected_text);
                         actual := opt_scalar actual_text |} ]
               else [])
  | Some v => Throws (no_attribute v "startswith")
  end.

(** The loops over [expected_state["attributes"].items()] and
    [expected_state["cssProperties"].items()]. *)
Definition check_items (key prefix : string) (expected_state : gmap string Expected)
    (actual_items : gmap string string) : Answer (list Failure) :=
  match expected_state !! key with
  | None => Gives []
  | Some (EDict items) =>
      Gives (foldl (λ failures '(item_name, expected_value),
                      let actual_value := opt_scalar (actual_items !! item_name) in
                      if negb (py_eq expected_value actual_value)
                      then failures ++ [ {| assertion := prefix +:+ item_name;
                                            expected := EScalar expected_value;
                                            actual := actual_value |} ]
                      else failures)
                   [] items)
  | Some v => Throws (no_attribute v "items")
  end.

(** The checks, in the order of the code. *)
Definition check_state (expected_state : gmap string Expected) (actual_state : ActualState)
    : Answer (list Failure) :=
  let visible := check_scalar "visible" expected_state (SBool (as_visible actual_state)) in
  text ← check_text expected_state (as_text actual_state);
  let value := check_scalar "value" expected_state (as_value actual_state) in
  let disabled := check_scalar "disabled" expected_state (as_disabled actual_state) in
  let checked := check_scalar "checked" expected_state (as_checked actual_state) in
  attributes ← check_items "attributes" "attribute_" expected_state
                           (as_attributes actual_state);
  cssProperties ← check_items "cssProperties" "css_" expected_state
                              (as_cssProperties actual_state);
  mret (visible ++ text ++ value ++ disabled ++ checked ++ attributes ++ cssProperties).

Definition scalar_val (v : Scalar) : Val :=
  match v with
  | SNone => VNone
  | SBool b => VBool b
  | SInt z => VInt z
  | SStr s => VStr s
  end.

Definition expected_val (v : Expected) : Val :=
  match v with
  | EScalar v => scalar_val v
  | EDict items => VDict (list_to_map (prod_map id scalar_val <$> rev items))
  end.

Definition failure_dict (f : Failure) : dict :=
  {[ "assertion" := VStr (assertion f);
     "expected" := expected_val (expected f);
     "actual" := scalar_val (actual f) ]}.

Section Assertions.
Context {W : Type} (drv : Driver W) (pd : PageDriver W) (clk : Clock).

Definition playwright_assert_element_state (selector : string)
    (expected_state : gmap string Expected) (page_index : Z) : Tool W :=
  fn (page ← _get_page page_index;
      match page with
      | None => return_ (err "Invalid page index")
      | Some page =>
          try_except (
            element ← perform (d_page_query_selector pd page selector);
            match element with
            | None =>
                return_ {[ "status" := VStr "failed";
                           "message" := VStr ("Element not found: " +:+ selector);
                           "assertion" := VStr "exists";
                           "expected" := VBool true;
                           "actual" := VBool false ]}
            | Some element =>
                actual_state ← perform (d_element_state pd page element);
                failures ← answer (check_state expected_state actual_state);
                match failures with
                | _ :: _ =>
                    screenshot_path ← take_screenshot drv clk page true
                                                      "assertion_failure_" time_time;
                    return_ {[ "status" := VStr "failed";
                               "message" := VStr ("Element state assertion failed for "
                                                  +:+ selector);
                               "failures" := VDicts (failure_dict <$> failures);
                               "screenshot" := VOptStr screenshot_path ]}
                | [] =>
                    return_ {[ "status" := VStr "success";
                               "message" := VStr ("Element state assertions passed for "
                                                  +:+ selector) ]}
                end
            end)
          (λ e, return_ (err e))
      end).

End Assertions.

(** A page with a heading that reads Welcome back. *)
Definition heading_page : Sim.Config := {|
  Sim.resolves := [("h1", Some 1%nat)];
  Sim.matches_all := []; Sim.click_fails := []; Sim.shot_fails := λ _, false;
  Sim.handles := [(1%nat, Sim.element "H1" "title" "Welcome back" {[ "class" := "hero" ]})];
  Sim.document := []; Sim.css := []; Sim.tree := None;
  Sim.body := EmptyString; Sim.close_fails := false
|}.

(** A page with a menu entry found by its text and a submit button in the
    accessibility tree. *)
Definition menu_page : Sim.Config := {|
  Sim.resolves := [("text='Menu' >> visible=true", Some 5%nat);
                   ("[role='button'][name='Submit']", Some 2%nat)];
  Sim.matches_all := []; Sim.click_fails := []; Sim.shot_fails := λ _, false;
  Sim.handles := []; Sim.document := []; Sim.css := [];
  Sim.tree := Some (ANode (Some "Page") (Some "WebArea")
                      [ANode (Some "Submit") (Some "button") []]);
  Sim.body := EmptyString; Sim.close_fails := false
|}.

(** ** New tabs ([playwright_click_and_switch_tab] of
    [Tools/ElementInteraction/interaction.py]) *)

Record TabDriver (W : Type) := {
  (** [async with page.expect_popup() as popup_info: await page.click(selector)]
      followed by [await popup_info.value]: the page that opened *)
  d_click_expect_popup : Page → string → W → Answer Page * W;
  (** [page.wait_for_load_state(state)] *)
  d_wait_for_load_state : Page → string → W → Answer unit * W
}.
Arguments d_click_expect_popup {W}. Arguments d_wait_for_load_state {W}.

Section Tabs.
Context {W : Type} (drv : Driver W) (td : TabDriver W) (clk : Clock).

Definition playwright_click_and_switch_tab (selector : string) (page_index : Z)
    (capture_screenshot : bool) : Tool W :=
  fn (page ← _get_page page_index;
      match page with
      | None => return_ (err "Invalid page index")
      | Some page =>
          try_except (
            new_page ← perform (d_click_expect_popup td page selector);
            ps ← gets (λ s, pages (ext s));
            set_pages (ps ++ [new_page]);;
            ps ← gets (λ s, pages (ext s));
            let new_page_index := (Z.of_nat (length ps) - 1)%Z in
            perform (d_wait_for_load_state td new_page "domcontentloaded");;
            new_page_url ← gets (λ s, d_url drv new_page (world (ext s)));
            new_page_title ← call (ETitle new_page) (d_title drv new_page);
            let result : dict :=
              {[ "status" := VStr "success";
                 "message" := VStr ("Clicked element and switched to new tab: "
                                    +:+ selector);
                 "original_page_index" := VInt page_index;
                 "new_page_index" := VInt new_page_index;
                 "new_page_url" := VStr new_page_url;
                 "new_page_title" := VStr new_page_title ]} in
            shot ← take_screenshot drv clk new_page capture_screenshot "new_tab_" time_time;
            return_ (with_screenshot result shot))
          (λ e, return_ (err e))
      end).

End Tabs.

(** A tab driver whose click opens the page 9, which loads or not. *)
Definition sim_tab_driver (loads : bool) : TabDriver (list nat) := {|
  d_click_expect_popup _ _ w := (Gives 9%nat, w);
  d_wait_for_load_state _ _ w :=
    (if loads then Gives tt else Throws "Timeout 30000ms exceeded", w)
|}.

(** ** What an optional request keeps *)

(** The selectors a request is run with: the list given when it is not
    empty, the templates of the description otherwise. *)
Definition standard_selectors_of (description : option string)
    (selectors : option (list string)) : list string :=
  match selectors with
  | Some ((_ :: _) as selectors) => selectors
  | _ => template_selectors (default EmptyString description)
  end.

(** An entry of the trail that reads failed and keeps its error. *)
Definition failed_entry (d : dict) : Prop :=
  d !! "result" = Some (VStr "failed") ∧ ∃ msg, d !! "error" = Some (VStr msg).

(** Every address in [attempts] is that of a dictionary, and every entry
    of the trail is a failure. *)
Definition all_failed {W} (s : State W) : Prop :=
  Forall (λ a, a < length (dicts (frame s)))%nat (attempts (frame s))
  ∧ Forall failed_entry (trail (frame s)).

(** The session [e'] is the one left by a click of the driver that went
    through, or by the screenshot taken after it. *)
Definition clicked {W} (drv : Driver W) (page : Page) (e' : Ext W) : Prop :=
  ∃ w w', ((∃ selector, d_page_click drv page selector w = (Gives tt, w'))
           ∨ (∃ element, d_click drv element w = (Gives tt, w')))
          ∧ (world e' = w'
             ∨ ∃ path, d_screenshot drv page path w' = (Gives tt, world e')).

(** The trail keeps [k] entries at least, all of them failures. *)
Definition kept {W} (k : nat) (s : State W) : Prop :=
  all_failed s ∧ (k ≤ length (trail (frame s)))%nat.

(** The outcome of a smart click for the text [text] that found nothing:
    it says so and keeps the first five selectors tried. *)
Definition nothing_clicked (element_type text : string) (o : dict) : Prop :=
  get o "element_found" = VBool false
  ∧ get o "tried_selectors" = VStrs (take 5 (smart_click_selectors element_type text))
  ∧ get o "fallbacks_tried"
    = VStrs ["accessibility_locator"; "vision_locator"; "js_locate"].

(** The screenshot of [page] raised [x]. *)
Definition screenshot_raised {W} (drv : Driver W) (page : Page) (x : Exn) : Prop :=
  ∃ path w w', d_screenshot drv page path w = (Throws x, w').

(** ** The elements of a page that is read *)

(** The texts and the attribute values of the element are ASCII text. *)
Definition ascii_element (el : DomElement) : bool :=
  forallb Str.ascii_only (omap id [innerText el; textContent el; el_value el])
  && forallb (λ kv, Str.ascii_only kv.2) (map_to_list (el_attributes el)).

(** What [playwright_find_element] adds to [found_elements] for an element
    that the page answers with [el]. *)
Definition found_of (keywords : list string) (el : DomElement) : list ElementInfo :=
  score_candidate keywords (Str.lower (tagName el))
    (js_or [innerText el; textContent el; el_value el]) (el_attributes el).

(** A page with three buttons: the second has a matching title besides
    its text, the first and the third match by their text only. *)
Definition ties_page : Sim.Config := {|
  Sim.resolves := []; Sim.matches_all := [("button", [1%nat; 2%nat; 3%nat])];
  Sim.click_fails := []; Sim.shot_fails := λ _, false;
  Sim.handles := [(1%nat, Sim.element "BUTTON" "a" "Submit" ∅);
                  (2%nat, Sim.element "BUTTON" "b" "Submit order"
                            {[ "title" := "Submit the order" ]});
                  (3%nat, Sim.element "BUTTON" "c" "submit again" ∅)];
  Sim.document := []; Sim.css := []; Sim.tree := None;
  Sim.body := EmptyString; Sim.close_fails := false
|}.



(** ** Lemmas *)

Section Logic.
Context {S : Type}.
Implicit Types (s : S) (R : dict → S → Prop) (E : Exn → S → Prop).

Lemma wp_ret {A} (a : A) (Q : A → S → Prop) R E s :
  Q a s → wp (mret a) Q R E s.
Proof. done. Qed.

Lemma wp_return {A} o (Q : A → S → Prop) R E s :
  R o s → wp (return_ o) Q R E s.
Proof. done. Qed.

Lemma wp_raise {A} e (Q : A → S → Prop) R E s :
  E e s → wp (raise e) Q R E s.
Proof. done. Qed.

Lemma wp_bind {A B} (m : M S A) (f : A → M S B) (Q : B → S → Prop) R E s :
  wp m (λ a s', wp (f a) Q R E s') R E s → wp (m ≫= f) Q R E s.
Proof.
  unfold wp, mbind, M_bind. by destruct (m s) as [[a|o|e] s'].
Qed.

Lemma wp_try {A} (m : M S A) (h : Exn → M S A) (Q : A → S → Prop) R E s :
  wp m Q R (λ e s', wp (h e) Q R E s') s → wp (try_except m h) Q R E s.
Proof.
  unfold wp, try_except. by destruct (m s) as [[a|o|e] s'].
Qed.

Lemma wp_mono {A} (m : M S A) (Q Q' : A → S → Prop) R R' E E' s :
  wp m Q R E s →
  (∀ a s', Q a s' → Q' a s') → (∀ o s', R o s' → R' o s') →
  (∀ e s', E e s' → E' e s') →
  wp m Q' R' E' s.
Proof.
  unfold wp. destruct (m s) as [[a|o|e] s']; eauto.
Qed.

Lemma wp_gets {A} (f : S → A) (Q : A → S → Prop) R E s :
  Q (f s) s → wp (gets f) Q R E s.
Proof. done. Qed.

Lemma wp_when (b : bool) (m : M S unit) (Q : unit → S → Prop) R E s :
  (b = true → wp m Q R E s) → (b = false → Q tt s) → wp (when b m) Q R E s.
Proof. destruct b; simpl; intros H1 H2; [by apply H1|by apply wp_ret, H2]. Qed.

Lemma wp_answer {A} (r : Answer A) (Q : A → S → Prop) R E s :
  match r with Gives a => Q a s | Throws e => E e s end →
  wp (answer r) Q R E s.
Proof. by destruct r. Qed.

(** A loop keeps an invariant that each turn of its body keeps. *)
Lemma wp_for_each {A} (l : list A) (body : A → M S unit) (I : S → Prop) R E s :
  I s →
  (∀ x s', x ∈ l → I s' → wp (body x) (λ _, I) R E s') →
  wp (for_each l body) (λ _, I) R E s.
Proof.
  revert s. induction l as [|x l IH]; intros s Hs Hbody; [done|].
  simpl. apply wp_bind.
  eapply wp_mono; [apply Hbody; [left|done]| |done|done].
  intros [] s' Hs'. apply IH; [done|].
  intros y s'' Hy. apply Hbody. by right.
Qed.

Lemma wp_then {A B} (m : M S A) (f : A → M S B) (Q : B → S → Prop) R E s :
  wp m (λ _ _, True) R E s → (∀ a s', wp (f a) Q R E s') → wp (m ≫= f) Q R E s.
Proof. intros Hm Hf. apply wp_bind. eapply wp_mono; eauto. Qed.

Lemma wp_for_each_any {A} (l : list A) (body : A → M S unit) R E s :
  (∀ x s', wp (body x) (λ _ _, True) R E s') →
  wp (for_each l body) (λ _ _, True) R E s.
Proof. intros H. apply (wp_for_each _ _ (λ _, True)); [done|]. intros. apply H. Qed.

End Logic.

Section ToolLogic.
Context {W : Type} (drv : Driver W) (clk : Clock).
Implicit Types (s : State W) (R : dict → State W → Prop) (E : Exn → State W → Prop).

Lemma wp_call {A} ev (op : W → Answer A * W) (Q : A → State W → Prop) R E s :
  match op (world (ext s)) with
  | (Gives a, w) => Q a (after_call ev w s)
  | (Throws x, w) => E x (after_call ev w s)
  end →
  wp (call ev op) Q R E s.
Proof.
  unfold wp, call, after_call.
  by destruct (op (world (ext s))) as [[a|x] w].
Qed.

Lemma wp_invoke (t : Tool W) (Q : dict → State W → Prop) R E s :
  match t (ext s) with
  | (Gives o, e) => Q o (with_ext e s)
  | (Throws x, e) => E x (with_ext e s)
  end →
  wp (invoke t) Q R E s.
Proof.
  unfold wp, invoke. by destruct (t (ext s)) as [[o|x] e].
Qed.

End ToolLogic.

(** *** Steps of the tools *)

Section Steps.
Context {W : Type} (drv : Driver W) (clk : Clock).
Implicit Types (s : State W) (R : dict → State W → Prop) (E : Exn → State W → Prop).

Lemma wp_any {A} (m : M (State W) A) s :
  wp m (λ _ _, True) (λ _ _, True) (λ _ _, True) s.
Proof. unfold wp. by destruct (m s) as [[a|o|e] s']. Qed.

Lemma wp_read_clock f (Q : string → State W → Prop) R E s :
  (∀ s', Q (f clk (ticks (ext s))) s') → wp (read_clock clk f) Q R E s.
Proof. intros H. apply H. Qed.

Lemma wp_new_dict d (Q : nat → State W → Prop) R E s :
  (∀ a s', Q a s') → wp (new_dict d) Q R E s.
Proof. intros H. apply H. Qed.

Lemma wp_unit (m : M (State W) unit) (Q : unit → State W → Prop) R E s :
  (∃ s', m s = (Ok tt, s')) → (∀ s', Q tt s') → wp m Q R E s.
Proof. intros [s' Hm] H. unfold wp. rewrite Hm. apply H. Qed.

End Steps.

(** One step of a proof that every way a program ends is acceptable, when
    the states do not matter. *)
Ltac wp_step :=
  lazymatch goal with
  | |- wp (mbind _ _) _ _ _ _ => apply wp_bind
  | |- wp (mret _) _ _ _ _ => apply wp_ret
  | |- wp (return_ _) _ _ _ _ => apply wp_return
  | |- wp (raise _) _ _ _ _ => apply wp_raise
  | |- wp (try_except _ _) _ _ _ _ => apply wp_try
  | |- wp (try_pass _) _ _ _ _ => unfold try_pass; apply wp_try
  | |- wp (call _ ?op) _ _ _ ?s =>
      apply wp_call; destruct (op (world (ext s))) as [[?|?] ?]
  | |- wp (invoke ?t) _ _ _ ?s =>
      apply wp_invoke; destruct (t (ext s)) as [[?|?] ?]
  | |- wp (answer ?r) _ _ _ _ => apply wp_answer; destruct r
  | |- wp (gets _) _ _ _ _ => apply wp_gets
  | |- wp (read_clock _ _) _ _ _ _ => apply wp_read_clock; intros ?
  | |- wp (new_dict _) _ _ _ _ => apply wp_new_dict; intros ? ?
  | |- wp (set_key _ _ _) _ _ _ _ => apply wp_unit; [by eexists|intros ?]
  | |- wp (append_attempt _) _ _ _ _ => apply wp_unit; [by eexists|intros ?]
  | |- wp (mark_called _ _) _ _ _ _ => apply wp_unit; [by eexists|intros ?]
  | |- wp (touch _) _ _ _ _ => apply wp_unit; [by eexists|intros ?]
  | |- wp (set_pages _) _ _ _ _ => apply wp_unit; [by eexists|intros ?]
  | |- wp (if ?b then _ else _) _ _ _ _ => destruct b eqn:?
  | |- wp (match ?x with _ => _ end) _ _ _ _ => destruct x eqn:?
  end.

(** *** Running programs step by step *)

Section Run.
Context {S : Type}.

Lemma run_bind {A B} (m : M S A) (f : A → M S B) s :
  (m ≫= f) s = match m s with
               | (Ok a, s') => f a s'
               | (Return o, s') => (Return o, s')
               | (Raise e, s') => (Raise e, s')
               end.
Proof. done. Qed.

Lemma run_try {A} (m : M S A) (h : Exn → M S A) s :
  try_except m h s = match m s with
                     | (Raise e, s') => h e s'
                     | r => r
                     end.
Proof. done. Qed.

Lemma run_ret {A} (a : A) (s : S) : (mret a : M S A) s = (Ok a, s).
Proof. done. Qed.

Lemma run_return {A} o (s : S) : (return_ o : M S A) s = (Return o, s).
Proof. done. Qed.

Lemma run_raise {A} e (s : S) : (raise e : M S A) s = (Raise e, s).
Proof. done. Qed.

Lemma run_gets {A} (f : S → A) s : gets f s = (Ok (f s), s).
Proof. done. Qed.

End Run.

Section RunTools.
Context {W : Type} (drv : Driver W) (clk : Clock).
Implicit Types s : State W.

Lemma run_call {A} ev (op : W → Answer A * W) s :
  call ev op s = match op (world (ext s)) with
                 | (Gives a, w) => (Ok a, after_call ev w s)
                 | (Throws x, w) => (Raise x, after_call ev w s)
                 end.
Proof. unfold call. by destruct (op _) as [[?|?] ?]. Qed.

Lemma run_invoke (t : Tool W) s :
  invoke t s = match t (ext s) with
               | (Gives o, e) => (Ok o, with_ext e s)
               | (Throws x, e) => (Raise x, with_ext e s)
               end.
Proof. unfold invoke. by destruct (t _) as [[?|?] ?]. Qed.

Lemma run_read_clock f s :
  read_clock clk f s = (Ok (f clk (ticks (ext s))), after_tick s).
Proof. done. Qed.

Lemma run_new_dict d s : new_dict d s = (Ok (length (dicts (frame s))), with_dict d s).
Proof. done. Qed.

Lemma run_set_key a k v s : set_key a k v s = (Ok tt, with_key a k v s).
Proof. done. Qed.

Lemma run_append_attempt a s : append_attempt a s = (Ok tt, with_attempt a s).
Proof. done. Qed.

Lemma run_mark_called i n s : mark_called i n s = (Ok tt, with_called i n s).
Proof. done. Qed.

Lemma run_touch (f : W → W) s : touch f s = (Ok tt, with_world f s).
Proof. done. Qed.

End RunTools.

Ltac exec_step :=
  first
    [ rewrite run_bind | rewrite run_try | rewrite run_ret | rewrite run_return
    | rewrite run_raise | rewrite run_gets | rewrite run_call | rewrite run_invoke
    | rewrite run_read_clock | rewrite run_new_dict | rewrite run_set_key
    | rewrite run_append_attempt | rewrite run_mark_called | rewrite run_touch
    | progress cbn [fst snd ext frame world pages ticks trace dicts attempts called
                    start after_call after_tick with_dict with_key with_attempt
                    with_called with_ext with_world with_pages] ].

Ltac exec := repeat exec_step.

(** *** Tools never raise *)

Section Totality.
Context {W : Type} (drv : Driver W) (clk : Clock).

Lemma fn_total (body : M (State W) dict) :
  (∀ s, wp body (λ _ _, True) (λ _ _, True) (λ _ _, False) s) →
  ∀ e, ∃ o e', fn body e = (Gives o, e').
Proof.
  intros H e. specialize (H (start e)). unfold wp in H. unfold fn, run.
  destruct (body (start e)) as [[o|o|x] s]; [by eauto..|done].
Qed.

Lemma fn_returns (body : M (State W) dict) (P : dict → Prop) e :
  wp body (λ o _, P o) (λ o _, P o) (λ _ _, False) (start e) →
  ∃ o e', fn body e = (Gives o, e') ∧ P o.
Proof.
  unfold wp, fn, run.
  destruct (body (start e)) as [[o|o|x] s]; [by eauto..|done].
Qed.

(** A body that is one [try] whose handler returns cannot raise. *)
Lemma wp_guarded (m : M (State W) dict) (h : Exn → dict) (P : dict → Prop) s :
  wp m (λ o _, P o) (λ o _, P o) (λ e _, P (h e)) s →
  wp (try_except m (λ e, return_ (h e))) (λ o _, P o) (λ o _, P o) (λ _ _, False) s.
Proof. intros H. apply wp_try. eapply wp_mono; eauto. Qed.

Lemma multi_strategy_locate_total description selectors action text_input
    page_index capture_screenshot optional e :
  ∃ o e', playwright_multi_strategy_locate drv clk description selectors action
            text_input page_index capture_screenshot optional e = (Gives o, e').
Proof.
  apply fn_total. intros s. unfold multi_strategy_body.
  apply wp_bind, wp_gets. destruct (page_at _ _); [|done].
  apply (wp_guarded _ _ (λ _, True)), wp_any.
Qed.

Lemma auto_execute_total self action target value page_index max_attempts
    capture_screenshot kwargs e :
  ∃ o e', playwright_auto_execute drv clk self action target value page_index
            max_attempts capture_screenshot kwargs e = (Gives o, e').
Proof.
  apply fn_total. intros s. unfold auto_execute_body.
  apply wp_bind, wp_gets. destruct (page_at _ _); [|done].
  apply (wp_guarded _ _ (λ _, True)), wp_any.
Qed.

Lemma smart_click_total text selector element_type page_index capture_screenshot
    optional description e :
  ∃ o e', playwright_smart_click drv clk text selector element_type page_index
            capture_screenshot optional description e = (Gives o, e').
Proof.
  apply fn_total. intros s. unfold smart_click_body.
  apply wp_bind, wp_gets. destruct (page_at _ _); [|done].
  apply (wp_guarded _ _ (λ _, True)), wp_any.
Qed.

End Totality.

(** *** Validation of the request *)

Section Validation.
Context {W : Type} (drv : Driver W) (clk : Clock).

Lemma multi_strategy_invalid_page description selectors action text_input
    page_index capture_screenshot optional (e : Ext W) :
  page_at e page_index = None →
  run (multi_strategy_body drv clk description selectors action text_input
         page_index capture_screenshot optional) e
  = (Return (err "Invalid page index"), start e).
Proof.
  intros H. unfold run, multi_strategy_body, _get_page, gets, mbind, M_bind.
  cbv beta. change (ext (start e)) with e. by rewrite H.
Qed.

Lemma multi_strategy_no_target description selectors action text_input
    page_index capture_screenshot optional (e : Ext W) page :
  page_at e page_index = Some page →
  opt_truthy description = false →
  selectors = None ∨ selectors = Some [] →
  run (multi_strategy_body drv clk description selectors action text_input
         page_index capture_screenshot optional) e
  = (Return (err "Either description or selectors must be provided"), start e).
Proof.
  intros H Hd Hs. unfold run, multi_strategy_body, _get_page, gets, mbind, M_bind.
  cbv beta. change (ext (start e)) with e. rewrite H.
  unfold try_except. by destruct Hs as [-> | ->]; rewrite Hd.
Qed.

Lemma auto_execute_invalid_page self action target value page_index max_attempts
    capture_screenshot kwargs (e : Ext W) :
  page_at e page_index = None →
  run (auto_execute_body drv clk self action target value page_index max_attempts
         capture_screenshot kwargs) e
  = (Return (err "Invalid page index"), start e).
Proof.
  intros H. unfold run, auto_execute_body, _get_page, gets, mbind, M_bind.
  cbv beta. change (ext (start e)) with e. by rewrite H.
Qed.

End Validation.

(** C7: [playwright_multi_strategy_locate] and [playwright_auto_execute]
    never raise to their caller, whatever the driver and the named tools
    do: every call yields an outcome.  A request whose page index
    addresses no page, or that has neither a description nor a selector,
    is answered by an error outcome at once: the run ends in the state it
    started in, with no attempt recorded and no driver operation made. *)
Theorem C7_failures_are_outcomes {W} (drv : Driver W) (clk : Clock) :
  (∀ description selectors action text_input page_index capture_screenshot optional e,
     ∃ o e', playwright_multi_strategy_locate drv clk description selectors action
               text_input page_index capture_screenshot optional e = (Gives o, e')) ∧
  (∀ self action target value page_index max_attempts capture_screenshot kwargs e,
     ∃ o e', playwright_auto_execute drv clk self action target value page_index
               max_attempts capture_screenshot kwargs e = (Gives o, e')) ∧
  (∀ description selectors action text_input page_index capture_screenshot optional e,
     page_at e page_index = None →
     run (multi_strategy_body drv clk description selectors action text_input
            page_index capture_screenshot optional) e
     = (Return (err "Invalid page index"), start e)) ∧
  (∀ description selectors action text_input page_index capture_screenshot optional e page,
     page_at e page_index = Some page →
     opt_truthy description = false →
     selectors = None ∨ selectors = Some [] →
     run (multi_strategy_body drv clk description selectors action text_input
            page_index capture_screenshot optional) e
     = (Return (err "Either description or selectors must be provided"), start e)) ∧
  (∀ self action target value page_index max_attempts capture_screenshot kwargs e,
     page_at e page_index = None →
     run (auto_execute_body drv clk self action target value page_index max_attempts
            capture_screenshot kwargs) e
     = (Return (err "Invalid page index"), start e)).
Proof.
  split; [intros; apply multi_strategy_locate_total|].
  split; [intros; apply auto_execute_total|].
  split; [intros; by apply multi_strategy_invalid_page|].
  split; [intros; by eapply multi_strategy_no_target|].
  intros; by apply auto_execute_invalid_page.
Qed.

Lemma C7_witness :
  run (multi_strategy_body (Sim.driver Sim.blank) Sim.clock (Some "Submit") None
         "click" EmptyString 3 true true) (Sim.session [7])
  = (Return (err "Invalid page index"), start (Sim.session [7]))
  ∧ run (multi_strategy_body (Sim.driver Sim.blank) Sim.clock None (Some [])
           "click" EmptyString 0 false false) (Sim.session [7])
    = (Return (err "Either description or selectors must be provided"),
       start (Sim.session [7]))
  ∧ run (auto_execute_body (Sim.driver Sim.blank) Sim.clock
           (PlaywrightTools (Sim.driver Sim.blank) Sim.clock) "click" "Submit"
           EmptyString (-1) 3 true ∅) (Sim.session [7])
    = (Return (err "Invalid page index"), start (Sim.session [7])).
Proof.
  destruct (C7_failures_are_outcomes (Sim.driver Sim.blank) Sim.clock)
    as (_ & _ & Hpage & Htarget & Hauto).
  split; [apply Hpage; reflexivity|].
  split; [apply (Htarget _ _ _ _ _ _ _ _ 7%nat); [reflexivity|reflexivity|by right]|].
  apply Hauto. reflexivity.
Defined.


(** *** Closing a page *)

Lemma close_unfold {W} (drv : Driver W) (k : Z) (e : Ext W) :
  playwright_close drv k e =
  if ((k <? 0) || (Z.of_nat (length (pages e)) <=? k))%Z
  then (Gives (err "Invalid page index"), e)
  else match pages e !! Z.to_nat k with
       | Some page =>
           match d_close drv page (world e) with
           | (Gives _, w) =>
               (Gives {[ "status" := VStr "success";
                         "message" := VStr ("Closed page at index " +:+ pretty k);
                         "pages_count" :=
                           VInt (Z.of_nat (length (delete (Z.to_nat k) (pages e)))) ]},
                {| world := w; pages := delete (Z.to_nat k) (pages e);
                   ticks := ticks e; trace := trace e ++ [EClosePage page] |})
           | (Throws x, w) =>
               (Gives (err x),
                {| world := w; pages := pages e; ticks := ticks e;
                   trace := trace e ++ [EClosePage page] |})
           end
       | None => (Gives (err "list index out of range"), e)
       end.
Proof.
  unfold playwright_close, fn, run, mbind, M_bind, gets, try_except, call, set_pages.
  cbv beta. change (ext (start e)) with e.
  destruct (_ || _); [done|].
  destruct (pages e !! Z.to_nat k) as [page|]; [|done].
  cbn. destruct (d_close drv page (world e)) as [[[]|x] w]; done.
Qed.

(** C9: [playwright_close] at index [k].  When [0 <= k < len(pages)] and the
    driver closes the page, the page at [k] leaves the collection, the
    pages before [k] keep their index and every later page moves down by
    one; when the driver raises instead, the outcome is an error and the
    collection is as it was.  For every other [k] the outcome is an error
    and the session is unchanged.  So the collection changes exactly when
    [k] is in range and the close succeeds. *)
Theorem C9_close {W} (drv : Driver W) (k : Z) (e : Ext W) :
  let r := playwright_close drv k e in
  if bool_decide (0 ≤ k < Z.of_nat (length (pages e)))%Z then
    ∃ page, pages e !! Z.to_nat k = Some page ∧
      match d_close drv page (world e) with
      | (Gives _, w) =>
          r.1 = Gives {[ "status" := VStr "success";
                         "message" := VStr ("Closed page at index " +:+ pretty k);
                         "pages_count" := VInt (Z.of_nat (length (pages e)) - 1) ]}
          ∧ pages r.2 = delete (Z.to_nat k) (pages e)
          ∧ ∀ i : nat, pages r.2 !! i
                 = if decide (i < Z.to_nat k)%nat then pages e !! i else pages e !! S i
      | (Throws x, w) => r.1 = Gives (err x) ∧ pages r.2 = pages e
      end
  else r = (Gives (err "Invalid page index"), e).
Proof.
  intros r. subst r. rewrite close_unfold.
  case_bool_decide as Hk.
  - assert (((k <? 0) || (Z.of_nat (length (pages e)) <=? k))%Z = false) as ->.
    { apply orb_false_iff. split; [apply Z.ltb_ge|apply Z.leb_gt]; lia. }
    destruct (lookup_lt_is_Some_2 (pages e) (Z.to_nat k)) as [page Hpage]; [lia|].
    exists page. split; [done|]. rewrite Hpage.
    destruct (d_close drv page (world e)) as [[[]|x] w]; cbn [fst snd pages].
    + split; [|split; [done|]].
      * rewrite length_delete; [|done].
        by replace (Z.of_nat (length (pages e) - 1)) with (Z.of_nat (length (pages e)) - 1)%Z by lia.
      * intros i. case_decide.
        -- by rewrite list_lookup_delete_lt.
        -- rewrite list_lookup_delete_ge; [done|lia].
    + done.
  - assert (((k <? 0) || (Z.of_nat (length (pages e)) <=? k))%Z = true) as ->.
    { apply orb_true_iff. destruct (Z.ltb_spec k 0); [by left|right]. apply Z.leb_le. lia. }
    done.
Qed.


(** *** Optional actions *)

Section Optional.
Context {W : Type} (drv : Driver W) (clk : Clock).

Lemma on_exception_downgraded e : downgraded (on_exception true e).
Proof. split; [done|]. right. split; [done|]. right; right. by eexists. Qed.

Lemma not_located_downgraded description attempts page_info debug_screenshot :
  downgraded (not_located true description attempts page_info debug_screenshot).
Proof. split; [done|]. right. split; [done|]. left. by eexists. Qed.

Lemma smart_click_not_found_downgraded text selectors debug_screenshot :
  downgraded (smart_click_not_found true text selectors debug_screenshot).
Proof. split; [done|]. right. split; [done|]. right; left. by eexists. Qed.

Lemma try_standard_selector_downgraded page action text_input cs selector s :
  wp (try_standard_selector drv clk page action text_input cs selector)
     (λ _ _, True) (λ o _, downgraded o) (λ _ _, True) s.
Proof.
  unfold try_standard_selector, perform_action, record_failure, take_screenshot.
  repeat wp_step; try done.
  all: split; [done|left; left; by eexists].
Qed.

Lemma try_locator_downgraded page cs attempt0 tool miss found s :
  (∀ r p, downgraded (found r p)) →
  wp (try_locator drv clk page cs attempt0 tool miss found)
     (λ _ _, True) (λ o _, downgraded o) (λ _ _, True) s.
Proof.
  intros Hfound.
  unfold try_locator, record_failure, take_screenshot.
  repeat wp_step; done.
Qed.

Lemma multi_strategy_chain_downgraded page description standard_selectors action
    text_input page_index cs s :
  wp (multi_strategy_chain drv clk page description standard_selectors action
        text_input page_index cs true)
     (λ o _, downgraded o) (λ o _, downgraded o) (λ _ _, True) s.
Proof.
  unfold multi_strategy_chain.
  apply wp_then; [apply wp_for_each_any; intros; apply try_standard_selector_downgraded|].
  intros _ s1.
  apply wp_then; [apply try_locator_downgraded|].
  { intros. split; [done|left; left; by eexists]. }
  intros _ s2.
  apply wp_then; [apply try_locator_downgraded|].
  { intros. split; [done|left; left; by eexists]. }
  intros _ s3.
  apply wp_then; [apply try_locator_downgraded|].
  { intros. split; [done|left; left; by eexists]. }
  intros _ s4.
  unfold take_screenshot, read_attempts.
  repeat wp_step; try done; apply not_located_downgraded.
Qed.

Lemma multi_strategy_locate_downgraded description selectors action text_input
    page_index cs e page :
  page_at e page_index = Some page →
  opt_truthy description = true ∨ (∃ sel rest, selectors = Some (sel :: rest)) →
  ∃ o e', playwright_multi_strategy_locate drv clk description selectors action
            text_input page_index cs true e = (Gives o, e')
          ∧ downgraded o.
Proof.
  intros Hpage Htarget.
  apply fn_returns.
  unfold multi_strategy_body. apply wp_bind, wp_gets.
  change (ext (start e)) with e. rewrite Hpage.
  apply (wp_guarded _ _ downgraded).
  apply wp_bind.
  assert (∃ l, (match selectors with
                | Some ((_ :: _) as selectors) => mret selectors
                | _ => if opt_truthy description
                       then mret (template_selectors (default EmptyString description))
                       else return_ (err "Either description or selectors must be provided")
                end : M (State W) (list string)) = mret l) as [l ->].
  { destruct Htarget as [Hd|(sel & rest & ->)]; [|by eexists].
    rewrite Hd. destruct selectors as [[|??]|]; by eexists. }
  apply wp_ret.
  eapply wp_mono; [apply multi_strategy_chain_downgraded|done|done|].
  intros. apply on_exception_downgraded.
Qed.

Lemma text_or_fallback_truthy text description :
  Str.truthy (text_or_fallback text description) = true.
Proof.
  unfold text_or_fallback.
  destruct text as [[|??]|]; simpl; try done; destruct description as [[|??]|]; done.
Qed.

Lemma smart_click_try_downgraded page text cs selector s :
  wp (smart_click_try drv clk page text cs selector)
     (λ _ _, True) (λ o _, downgraded o) (λ _ _, True) s.
Proof.
  unfold smart_click_try, take_screenshot.
  repeat wp_step; try done.
  all: split; [done|left; right; left; by eexists].
Qed.

Lemma smart_click_direct_downgraded page selector cs s :
  wp (smart_click_direct drv clk page selector cs)
     (λ _ _, False) (λ o _, downgraded o) (λ _ _, True) s.
Proof.
  unfold smart_click_direct, take_screenshot.
  repeat wp_step; try done.
  all: split; [done|left; right; left; by eexists].
Qed.

Lemma smart_click_cascade_downgraded page text element_type cs s :
  wp (smart_click_cascade drv clk page text element_type cs true)
     (λ o _, downgraded o) (λ o _, downgraded o) (λ _ _, True) s.
Proof.
  unfold smart_click_cascade.
  apply wp_then; [apply wp_for_each_any; intros; apply smart_click_try_downgraded|].
  intros _ s1.
  apply wp_then.
  { repeat wp_step; try done. split; [done|]. by left; right; right. }
  intros _ s2. unfold take_screenshot.
  repeat wp_step; try done; apply smart_click_not_found_downgraded.
Qed.

Lemma smart_click_downgraded text selector element_type page_index cs description e page :
  page_at e page_index = Some page →
  opt_truthy text = true ∨ opt_truthy selector = true →
  ∃ o e', playwright_smart_click drv clk text selector element_type page_index cs
            true description e = (Gives o, e')
          ∧ downgraded o.
Proof.
  intros Hpage Htarget.
  apply fn_returns.
  unfold smart_click_body. apply wp_bind, wp_gets.
  change (ext (start e)) with e. rewrite Hpage.
  apply (wp_guarded _ _ downgraded).
  apply wp_bind.
  apply (wp_mono _ (λ t _, opt_truthy t = true) _ (λ o _, downgraded o) _
                 (λ _ _, True)).
  - destruct (opt_truthy selector && negb (opt_truthy text)) eqn:Hc.
    + apply wp_try, wp_bind.
      eapply wp_mono; [apply smart_click_direct_downgraded|by intros ?? []|done|].
      intros _ s' _. apply wp_ret. apply text_or_fallback_truthy.
    + apply wp_ret. destruct Htarget as [Ht|Hs]; [done|].
      rewrite Hs in Hc. by destruct (opt_truthy text).
  - intros t s' Ht. rewrite Ht. cbn [negb].
    eapply wp_mono; [apply smart_click_cascade_downgraded|done|done|].
    intros. apply on_exception_downgraded.
  - done.
  - intros. apply on_exception_downgraded.
Qed.

End Optional.


(** *** The selector-only smart click *)

Section SmartClick.
Context {W : Type} (drv : Driver W) (clk : Clock).

Lemma smart_click_body_fallback text selector element_type page_index
    capture_screenshot optional description (e : Ext W) page x w :
  page_at e page_index = Some page →
  Str.truthy selector = true →
  opt_truthy text = false →
  d_page_click drv page selector (world e) = (Throws x, w) →
  smart_click_body drv clk text (Some selector) element_type page_index
    capture_screenshot optional description (start e)
  = try_except
      (smart_click_cascade drv clk page (text_or_fallback text description)
         element_type capture_screenshot optional)
      (λ e, return_ (on_exception optional e))
      (after_call (EPageClick page selector) w (start e)).
Proof.
  intros Hpage Hsel Htext Hclick.
  unfold smart_click_body, _get_page.
  exec. rewrite Hpage. exec.
  cbn [opt_truthy default]. rewrite Hsel, Htext. cbn [andb negb].
  unfold smart_click_direct, id.
  exec. rewrite Hclick. exec.
  cbn [opt_truthy]. by rewrite text_or_fallback_truthy.
Qed.

Lemma smart_click_body_text text element_type page_index capture_screenshot
    optional description (e : Ext W) page :
  page_at e page_index = Some page →
  Str.truthy text = true →
  smart_click_body drv clk (Some text) None element_type page_index
    capture_screenshot optional description (start e)
  = try_except
      (smart_click_cascade drv clk page text element_type capture_screenshot optional)
      (λ e, return_ (on_exception optional e))
      (start e).
Proof.
  intros Hpage Htext.
  unfold smart_click_body, _get_page.
  exec. rewrite Hpage. exec.
  cbn [opt_truthy default andb]. exec. cbn [opt_truthy]. by rewrite Htext.
Qed.

End SmartClick.

(** C10: a smart click given a selector and no text, whose direct click
    on the selector raises, does not end there: from the state the failed
    click left, it behaves exactly as a smart click given as text the
    description when there is one, and the words Click Target otherwise.
    So it may click an element that has nothing to do with the selector:
    on a page where [#missing] matches nothing and a button reads Click
    Target, the call clicks that button and reports success. *)
Theorem C10_selector_only_falls_back_to_text :
  (∀ W (drv : Driver W) (clk : Clock) text selector element_type page_index
     capture_screenshot optional description (e : Ext W) page x w,
     page_at e page_index = Some page →
     Str.truthy selector = true →
     opt_truthy text = false →
     d_page_click drv page selector (world e) = (Throws x, w) →
     playwright_smart_click drv clk text (Some selector) element_type page_index
       capture_screenshot optional description e
     = playwright_smart_click drv clk
         (Some (if opt_truthy description then default EmptyString description
                else "Click Target"))
         None element_type page_index capture_screenshot optional description
         {| world := w; pages := pages e; ticks := ticks e;
            trace := trace e ++ [EPageClick page selector] |}) ∧
  (let r := playwright_smart_click (Sim.driver button_page) Sim.clock None
              (Some "#missing") "any" 0 false false None (Sim.session [7]) in
   get (outcome_of r) "status" = VStr "success"
   ∧ get (outcome_of r) "selector_used" = VStr "button:has-text('Click Target')"
   ∧ world r.2 = [4%nat]).
Proof.
  split; [|by vm_compute].
  intros W drv clk text selector element_type page_index cs optional description
    e page x w Hpage Hsel Htext Hclick.
  unfold playwright_smart_click, fn, run.
  erewrite smart_click_body_fallback by done.
  assert (text_or_fallback text description
          = if opt_truthy description then default EmptyString description
            else "Click Target") as <-.
  { unfold text_or_fallback. by rewrite Htext. }
  erewrite smart_click_body_text;
    [reflexivity|exact Hpage|apply text_or_fallback_truthy].
Qed.

Lemma C10_witness :
  playwright_smart_click (Sim.driver button_page) Sim.clock None (Some "#missing")
    "any" 0 false false None (Sim.session [7])
  = playwright_smart_click (Sim.driver button_page) Sim.clock (Some "Click Target")
      None "any" 0 false false None
      {| world := []; pages := [7%nat]; ticks := 0;
         trace := [EPageClick 7%nat "#missing"] |}.
Proof.
  exact (proj1 C10_selector_only_falls_back_to_text (list nat)
           (Sim.driver button_page) Sim.clock None "#missing" "any" 0%Z false false
           None (Sim.session [7]) 7%nat "Timeout exceeded" []
           eq_refl eq_refl eq_refl eq_refl).
Defined.

(** *** The stable descending sort *)

Section SortFacts.
Context {A : Type} (key : A → Z).
Implicit Types (x : A) (l : list A).

Lemma insert_desc_perm x l : insert_desc key x l ≡ₚ x :: l.
Proof.
  induction l as [|y l IH]; simpl; [done|].
  destruct (key x <? key y)%Z; [|done].
  by rewrite IH, Permutation_swap.
Qed.

Lemma sort_desc_perm l : sort_desc key l ≡ₚ l.
Proof.
  induction l as [|x l IH]; simpl; [done|].
  by rewrite insert_desc_perm, IH.
Qed.

Lemma insert_desc_sorted x l :
  StronglySorted (descending key) l → StronglySorted (descending key) (insert_desc key x l).
Proof.
  induction l as [|y l IH]; simpl; intros Hl.
  - repeat constructor.
  - apply StronglySorted_cons in Hl as [Hy Hl].
    destruct (Z.ltb_spec (key x) (key y)).
    + apply StronglySorted_cons. split; [|by apply IH].
      rewrite insert_desc_perm. constructor; [unfold descending; lia|done].
    + apply StronglySorted_cons. split; [|by apply StronglySorted_cons].
      constructor; [done|].
      eapply Forall_impl; [exact Hy|]. unfold descending. intros; lia.
Qed.

Lemma sort_desc_sorted l : StronglySorted (descending key) (sort_desc key l).
Proof.
  induction l as [|x l IH]; simpl; [constructor|by apply insert_desc_sorted].
Qed.

(** Stability: among the elements of one key the order is the original. *)
Lemma insert_desc_stable (k : Z) x l :
  filter (λ a, key a = k) (insert_desc key x l) = filter (λ a, key a = k) (x :: l).
Proof.
  induction l as [|y l IH]; simpl; [done|].
  destruct (Z.ltb_spec (key x) (key y)); [|done].
  rewrite filter_cons, IH, !filter_cons.
  repeat case_decide; try done; lia.
Qed.

Lemma sort_desc_stable (k : Z) l :
  filter (λ a, key a = k) (sort_desc key l) = filter (λ a, key a = k) l.
Proof.
  induction l as [|x l IH]; simpl; [done|].
  by rewrite insert_desc_stable, !filter_cons, IH.
Qed.

Lemma sorted_lookup (R : relation A) l i j a b :
  StronglySorted R l → l !! i = Some a → l !! j = Some b → (i < j)%nat → R a b.
Proof.
  intros Hl Hi Hj Hij.
  rewrite <- (take_drop_middle l i a Hi) in Hl.
  apply StronglySorted_app in Hl as (_ & _ & Hl).
  apply StronglySorted_cons in Hl as [Hl _].
  eapply Forall_forall in Hl; [done|].
  apply list_elem_of_lookup. exists (j - S i)%nat.
  rewrite lookup_drop. by replace (S i + (j - S i))%nat with j by lia.
Qed.

(** In a prefix of the sorted list a strictly greater key comes strictly
    earlier. *)
Lemma sort_desc_take_rank n l i j a b :
  take n (sort_desc key l) !! i = Some a →
  take n (sort_desc key l) !! j = Some b →
  (key b < key a)%Z → (i < j)%nat.
Proof.
  intros Hi Hj Hab.
  destruct (decide (i < j)%nat) as [|Hge]; [done|exfalso].
  assert (StronglySorted (descending key) (take n (sort_desc key l))) as Hs.
  { pose proof (sort_desc_sorted l) as Hs.
    rewrite <- (take_drop n (sort_desc key l)) in Hs.
    by apply StronglySorted_app_1_l in Hs. }
  destruct (decide (i = j)) as [->|Hne].
  - rewrite Hi in Hj. injection Hj as ->. lia.
  - assert (j < i)%nat as Hji by lia.
    pose proof (sorted_lookup _ _ _ _ _ _ Hs Hj Hi Hji) as H. unfold descending in H. lia.
Qed.

(** An element of the list with a key above that of an element of the
    prefix is in the prefix too. *)
Lemma sort_desc_take_keeps n l j a b :
  a ∈ l →
  take n (sort_desc key l) !! j = Some b →
  (key b < key a)%Z →
  ∃ i, take n (sort_desc key l) !! i = Some a ∧ (i < j)%nat.
Proof.
  intros Ha Hj Hab.
  rewrite <- sort_desc_perm in Ha.
  apply list_elem_of_lookup in Ha as [i Hi].
  assert (j < n)%nat as Hjn.
  { apply lookup_lt_Some in Hj. rewrite length_take in Hj. lia. }
  rewrite lookup_take_lt in Hj by done.
  assert (i < j)%nat as Hij.
  { destruct (decide (i < j)%nat) as [|Hge]; [done|exfalso].
    destruct (decide (i = j)) as [->|Hne].
    - rewrite Hi in Hj. injection Hj as ->. lia.
    - assert (j < i)%nat as Hji by lia.
      pose proof (sorted_lookup _ _ _ _ _ _ (sort_desc_sorted l) Hj Hi Hji) as H.
      unfold descending in H. lia. }
  exists i. split; [|done]. rewrite lookup_take_lt; [done|lia].
Qed.

End SortFacts.

Lemma py_take_nonneg {A} (n : Z) (l : list A) :
  (0 ≤ n)%Z → py_take n l = take (Z.to_nat n) l.
Proof. intros Hn. unfold py_take. by destruct (Z.leb_spec 0 n); [|lia]. Qed.

Lemma py_take_length {A} (n : Z) (l : list A) :
  (0 ≤ n)%Z → (Z.of_nat (length (py_take n l)) ≤ n)%Z.
Proof. intros Hn. rewrite py_take_nonneg, length_take by done. lia. Qed.

(** *** Scores and ranking *)

Section Scores.

Lemma foldl_add5 {A} (f : Z → A → Z) (p : A → bool) (l : list A) (z : Z) :
  (∀ score x, f score x = if p x then (score + 5)%Z else score) →
  foldl f z l = (z + 5 * Z.of_nat (length (filter (λ x, p x = true) l)))%Z.
Proof.
  intros Hf. revert z. induction l as [|x l IH]; intros z; simpl; [lia|].
  rewrite IH, Hf, filter_cons. destruct (p x); case_decide; simpl; try done; lia.
Qed.

Lemma relevance_formula keywords text attributes :
  relevance keywords text attributes
  = ((if Str.truthy text && any_keyword_in keywords text then 10 else 0)
     + 5 * Z.of_nat (length (filter (λ kv, attribute_matches keywords kv = true)
                                    (map_to_list attributes))))%Z.
Proof.
  unfold relevance.
  rewrite (foldl_add5 _ (attribute_matches keywords)); [|by intros score [attr value]].
  by destruct (_ && _).
Qed.

Lemma js_score_formula descLower el :
  js_score descLower el
  = ((if Str.contains (Str.lower (js_or [innerText el; textContent el])) descLower
      then 10 else 0)
     + 5 * Z.of_nat (length (filter (λ attr, scan_attribute_matches descLower el attr = true)
                                    scan_attributes)))%Z.
Proof.
  unfold js_score.
  rewrite (foldl_add5 _ (scan_attribute_matches descLower el)).
  - by destruct (Str.contains _ _).
  - intros score attr. unfold scan_attribute_matches.
    by destruct (el_attributes el !! attr).
Qed.

Lemma score_candidate_scored keywords tag text attributes :
  Forall (scored keywords) (score_candidate keywords tag text attributes).
Proof.
  unfold score_candidate. destruct (Z.ltb_spec 0 (relevance keywords text attributes)).
  - repeat constructor. by exists tag, text, attributes.
  - constructor.
Qed.

Lemma js_candidate_spec descLower el :
  js_candidate descLower el
  = if (0 <? js_score descLower el)%Z
    then [ {| jm_tag := Str.lower (tagName el); jm_id := el_id el;
              jm_classes := classList el;
              jm_text := Str.take 100 (js_or [innerText el; textContent el]);
              jm_score := js_score descLower el; jm_xpath := getXPath el |} ]
    else [].
Proof. done. Qed.

End Scores.

Section FindElement.
Context {W : Type} (drv : Driver W) (clk : Clock).

Lemma wp_fold_m {S A B} (f : B → A → M S B) (I : B → Prop) (l : list A) (b : B)
    (R : dict → S → Prop) (E : Exn → S → Prop) s :
  I b →
  (∀ b x s', I b → wp (f b x) (λ b' _, I b') R E s') →
  wp (fold_m f l b) (λ b' _, I b') R E s.
Proof.
  intros Hb Hf. revert b s Hb. induction l as [|x l IH]; intros b s Hb; simpl.
  - by apply wp_ret.
  - apply wp_bind. eapply wp_mono; [by apply Hf| |done|done].
    intros b' s' Hb'. by apply IH.
Qed.

Lemma inspect_element_scored page keywords found element R s :
  Forall (scored keywords) found →
  wp (inspect_element drv page keywords found element)
     (λ found' _, Forall (scored keywords) found') R (λ _ _, True) s.
Proof.
  intros Hfound. unfold inspect_element, evaluate_on.
  repeat wp_step; try done.
  apply Forall_app. split; [done|apply score_candidate_scored].
Qed.

Lemma find_element_ranked description page_index max_results e :
  ∃ o e', playwright_find_element drv description page_index max_results e = (Gives o, e')
    ∧ (get o "status" = VStr "success" →
       ∃ found, Forall (scored (Str.split (Str.lower description))) found
                ∧ o !! "elements"
                  = Some (VDicts (element_info_dict <$> rank max_results found))).
Proof.
  apply fn_returns. unfold find_element_body.
  apply wp_bind, wp_gets. destruct (page_at _ _) as [page|]; [|by apply wp_return].
  apply wp_guarded. apply wp_bind.
  eapply wp_mono;
    [apply (wp_fold_m _ (Forall (scored (Str.split (Str.lower description)))) _ _
              (λ _ _, False) (λ _ _, True)); [apply Forall_nil_2|]| |done|].
  - intros found selector s' Hfound. apply wp_bind. wp_step; [|done].
    apply wp_fold_m; [done|]. intros. by apply inspect_element_scored.
  - cbv beta. intros found s' Hfound. apply wp_return. intros _. by exists found.
  - done.
Qed.

End FindElement.


Lemma js_scan_positive description allElements :
  ∃ found, js_scan (Some description) allElements = Gives found
    ∧ found = take 5 (sort_desc jm_score
                        (allElements ≫= js_candidate (Str.lower description)))
    ∧ Forall (λ m, ∃ el, el ∈ allElements
                         ∧ jm_score m = js_score (Str.lower description) el
                         ∧ (0 < jm_score m)%Z) found
    ∧ (length found ≤ 5)%nat.
Proof.
  eexists. split; [done|]. split; [done|]. split.
  - apply Forall_forall. intros m Hm.
    apply subseteq_take in Hm. rewrite sort_desc_perm in Hm.
    apply list_elem_of_bind in Hm as (el & Hm & Hel).
    exists el. split; [done|]. unfold js_candidate in Hm.
    destruct (Z.ltb_spec 0 (js_score (Str.lower description) el)) as [Hpos|];
      [|by apply elem_of_nil in Hm].
    apply list_elem_of_singleton in Hm as ->. done.
  - rewrite length_take. lia.
Qed.


(** C4 fails as stated: for the description "submit button" a button
    without text whose class mentions submit is returned with score 5,
    where the fixed attribute set gives it score 0 and would leave it
    out; and [max_results = -1] returns two of three candidates. *)
Lemma C4_counterexample :
  let r := playwright_find_element (Sim.driver class_only_page) "submit button" 0 5
             (Sim.session [7]) in
  get (outcome_of r) "elements"
  = VDicts [ element_info_dict
               {| ei_tag := "button"; ei_text := EmptyString;
                  ei_attributes := {[ "class" := "primary submit" ]};
                  ei_relevance := 5 |} ]
  ∧ spec_score ["submit"; "button"] EmptyString {[ "class" := "primary submit" ]} = 0%Z
  ∧ length (rank (-1) [candidate 10; candidate 20; candidate 15]) = 2%nat.
Proof. by vm_compute. Qed.

(** *** The attempt blocks of the dispatcher *)

Section Exact.
Context {W : Type} (drv : Driver W) (clk : Clock).
Implicit Types (s : State W) (R : dict → State W → Prop) (E : Exn → State W → Prop).

Lemma wpx_read_clock f (Q : string → State W → Prop) R E s :
  Q (f clk (ticks (ext s))) (after_tick s) → wp (read_clock clk f) Q R E s.
Proof. done. Qed.

Lemma wpx_new_dict d (Q : nat → State W → Prop) R E s :
  Q (length (dicts (frame s))) (with_dict d s) → wp (new_dict d) Q R E s.
Proof. done. Qed.

Lemma wpx_set_key a k v (Q : unit → State W → Prop) R E s :
  Q tt (with_key a k v s) → wp (set_key a k v) Q R E s.
Proof. done. Qed.

Lemma wpx_append_attempt a (Q : unit → State W → Prop) R E s :
  Q tt (with_attempt a s) → wp (append_attempt a) Q R E s.
Proof. done. Qed.

Lemma wpx_mark_called i n (Q : unit → State W → Prop) R E s :
  Q tt (with_called i n s) → wp (mark_called i n) Q R E s.
Proof. done. Qed.

Lemma wpx_touch (f : W → W) (Q : unit → State W → Prop) R E s :
  Q tt (with_world f s) → wp (touch f) Q R E s.
Proof. done. Qed.

End Exact.

Ltac wpx_step :=
  lazymatch goal with
  | |- wp (mbind _ _) _ _ _ _ => apply wp_bind
  | |- wp (mret _) _ _ _ _ => apply wp_ret
  | |- wp (return_ _) _ _ _ _ => apply wp_return
  | |- wp (raise _) _ _ _ _ => apply wp_raise
  | |- wp (try_except _ _) _ _ _ _ => apply wp_try
  | |- wp (call _ ?op) _ _ _ ?s =>
      apply wp_call; destruct (op (world (ext s))) as [[?|?] ?]
  | |- wp (invoke ?t) _ _ _ ?s =>
      apply wp_invoke; destruct (t (ext s)) as [[?|?] ?]
  | |- wp (answer ?r) _ _ _ _ => apply wp_answer; destruct r
  | |- wp (gets _) _ _ _ _ => apply wp_gets
  | |- wp (read_clock _ _) _ _ _ _ => apply wpx_read_clock
  | |- wp (new_dict _) _ _ _ _ => apply wpx_new_dict
  | |- wp (set_key _ _ _) _ _ _ _ => apply wpx_set_key
  | |- wp (append_attempt _) _ _ _ _ => apply wpx_append_attempt
  | |- wp (mark_called _ _) _ _ _ _ => apply wpx_mark_called
  | |- wp (touch _) _ _ _ _ => apply wpx_touch
  | |- wp (if ?b then _ else _) _ _ _ _ => destruct b eqn:?
  | |- wp (match ?x with _ => _ end) _ _ _ _ => destruct x eqn:?
  end.


Section Frames.
Context {W : Type}.
Implicit Types s : State W.

Lemma strategies_with_dict d s : strategies (with_dict d s) = strategies s ++ [d !! "strategy"].
Proof. unfold strategies. cbn. by rewrite fmap_app. Qed.

Lemma strategies_with_key a k v s :
  k ≠ "strategy" → strategies (with_key a k v s) = strategies s.
Proof.
  intros Hk. unfold strategies. cbn.
  rewrite (list_fmap_alter _ _ id).
  - by rewrite list_alter_id.
  - apply Forall_forall. intros d _. simpl. by rewrite lookup_insert_ne.
Qed.

Lemma strategies_with_attempt a s : strategies (with_attempt a s) = strategies s.
Proof. done. Qed.
Lemma strategies_with_called i n s : strategies (with_called i n s) = strategies s.
Proof. done. Qed.
Lemma strategies_with_ext e s : strategies (with_ext e s) = strategies s.
Proof. done. Qed.
Lemma strategies_after_call ev (w : W) s : strategies (after_call ev w s) = strategies s.
Proof. done. Qed.
Lemma strategies_after_tick s : strategies (after_tick s) = strategies s.
Proof. done. Qed.
Lemma strategies_with_world (f : W → W) s : strategies (with_world f s) = strategies s.
Proof. done. Qed.

Lemma strategies_length s : length (strategies s) = length (dicts (frame s)).
Proof. unfold strategies. by rewrite length_fmap. Qed.

Lemma block_wf i n s0 s' : block i n s0 s' → wf s0 → wf s'.
Proof.
  intros [Hs Ha _] Hwf. unfold wf in *. rewrite Hs, length_app. simpl.
  assert (Forall (λ a, a < length (strategies s0) + 1)%nat (attempts (frame s0))) as H0.
  { eapply Forall_impl; [done|]. intros; simpl in *; lia. }
  destruct Ha as [-> | ->]; repeat (apply Forall_app; split); try done;
    apply Forall_singleton; lia.
Qed.

Lemma block_recorded i n s0 s' : block i n s0 s' → recorded s' n.
Proof.
  intros [Hs Ha _]. exists (length (strategies s0)). split.
  - destruct Ha as [-> | ->]; set_solver.
  - rewrite Hs. by rewrite list_lookup_middle.
Qed.

Lemma block_keeps_recorded i n s0 s' name :
  block i n s0 s' → recorded s0 name → recorded s' name.
Proof.
  intros [Hs Ha _] (a & Ha0 & Hlook). exists a. split.
  - destruct Ha as [-> | ->]; set_solver.
  - rewrite Hs. by apply lookup_app_l_Some.
Qed.

Lemma block_calls_recorded i n s0 s' :
  block i n s0 s' → calls_recorded s0 → calls_recorded s'.
Proof.
  intros Hb Hrec j name Hin. destruct (block_called _ _ _ _ Hb) as [Hc|Hc];
    rewrite Hc in Hin.
  - eapply block_keeps_recorded; [done|]. by eapply Hrec.
  - apply elem_of_app in Hin as [Hin|Hin].
    + eapply block_keeps_recorded; [done|]. by eapply Hrec.
    + apply list_elem_of_singleton in Hin. injection Hin as -> ->.
      by eapply block_recorded.
Qed.

Lemma block_fallback_calls i n s0 s' :
  block i n s0 s' →
  (fallback_calls s' ≤ fallback_calls s0 + (if decide (1 ≤ i)%Z then 1 else 0))%nat.
Proof.
  intros [_ _ Hc]. unfold fallback_calls. destruct Hc as [-> | ->]; [lia|].
  rewrite filter_app, length_app, filter_cons, filter_nil. simpl.
  case_decide; simpl; lia.
Qed.

Lemma block_no_fallback_call n s0 s' :
  block 0 n s0 s' → fallback_calls s' = fallback_calls s0.
Proof.
  intros [_ _ Hc]. unfold fallback_calls. destruct Hc as [-> | ->]; [done|].
  rewrite filter_app, length_app, filter_cons, filter_nil.
  case_decide; simpl in *; lia.
Qed.

Lemma block_intro i n s0 s' :
  strategies s' = strategies s0 ++ [Some (VStr n)] →
  attempts (frame s') = attempts (frame s0) ++ [length (dicts (frame s0))]
  ∨ attempts (frame s')
    = (attempts (frame s0) ++ [length (dicts (frame s0))]) ++ [length (dicts (frame s0))] →
  called (frame s') = called (frame s0)
  ∨ called (frame s') = called (frame s0) ++ [(i, n)] →
  block i n s0 s'.
Proof. intros. split; rewrite ?strategies_length; done. Qed.

End Frames.

Ltac strategies_simpl :=
  repeat first
    [ rewrite strategies_with_attempt | rewrite strategies_with_called
    | rewrite strategies_with_ext | rewrite strategies_after_call
    | rewrite strategies_after_tick | rewrite strategies_with_world
    | rewrite strategies_with_key by done ].

Ltac solve_block :=
  apply block_intro;
  [ strategies_simpl; rewrite strategies_with_dict; by rewrite lookup_insert_eq
  | first [left; reflexivity | right; reflexivity]
  | first [left; reflexivity | right; reflexivity] ].

Section Blocks.
Context {W : Type} (drv : Driver W) (clk : Clock).
Context (self : gmap string (@Attr W)).
Context (action target value : string) (page_index max_attempts : Z)
        (capture_screenshot : bool) (kwargs : dict).

Lemma try_fallback_block i tool_name s0 :
  wp (try_fallback self action target value page_index capture_screenshot kwargs
        i tool_name)
     (λ _ s', block i tool_name s0 s')
     (λ o s', block i tool_name s0 s' ∧ get o "status" = VStr "success")
     (λ _ _, False) s0.
Proof.
  unfold try_fallback, call_method, record_result, record_success.
  repeat wpx_step.
  all: try (split; [|done]).
  all: solve_block.
Qed.

Lemma try_primary_block tool_name s0 :
  wp (try_primary self action target value page_index capture_screenshot kwargs
        tool_name)
     (λ _ s', block 0 tool_name s0 s')
     (λ o s', block 0 tool_name s0 s' ∧ get o "status" = VStr "success")
     (λ _ _, False) s0.
Proof.
  unfold try_primary, call_method, record_result, record_success.
  repeat wpx_step.
  all: try (split; [|done]).
  all: solve_block.
Qed.

Lemma js_direct_click_block page s0 :
  wp (js_direct_click drv clk target capture_screenshot page)
     (λ _ s', block 0 "js_direct_click" s0 s' ∧ evaluated page s')
     (λ o s', block 0 "js_direct_click" s0 s' ∧ get o "status" = VStr "success")
     (λ _ _, False) s0.
Proof.
  unfold js_direct_click, js_direct_click_script, take_screenshot,
    record_result, record_success.
  repeat wpx_step.
  all: split; [solve_block|]; try done.
  all: unfold evaluated;
    cbn [ext trace with_attempt with_key with_dict with_world after_call after_tick];
    set_solver.
Qed.

Lemma dispatched_frame (s s' : State W) :
  frame s' = frame s → dispatched max_attempts s → dispatched max_attempts s'.
Proof.
  unfold dispatched, wf, calls_recorded, recorded, fallback_calls, strategies.
  by intros ->.
Qed.

Lemma fallback_loop_dispatched tool_names : ∀ i s,
  (1 ≤ i)%Z →
  wf s → calls_recorded s →
  (fallback_calls s ≤ Z.to_nat (Z.min i max_attempts - 1))%nat →
  wp (fallback_loop self action target value page_index max_attempts
        capture_screenshot kwargs i tool_names)
     (λ _ s', dispatched max_attempts s')
     (λ o s', dispatched max_attempts s' ∧ get o "status" = VStr "success")
     (λ _ _, False) s.
Proof.
  induction tool_names as [|tool_name rest IH]; intros i s Hi Hwf Hrec Hcalls; simpl.
  - apply wp_ret. repeat split; [done..|lia].
  - destruct (Z.leb_spec max_attempts i) as [Hbreak|Hgo].
    + apply wp_ret. repeat split; [done..|lia].
    + apply wp_bind.
      eapply wp_mono; [apply try_fallback_block| | |done]; cbv beta.
      * intros _ s' Hb.
        pose proof (block_fallback_calls _ _ _ _ Hb) as Hn.
        destruct (decide (1 ≤ i)%Z); [|lia].
        apply IH; [lia|by eapply block_wf|by eapply block_calls_recorded|lia].
      * intros o s' [Hb Ho]. split; [|done].
        pose proof (block_fallback_calls _ _ _ _ Hb) as Hn.
        destruct (decide (1 ≤ i)%Z); [|lia].
        repeat split; [by eapply block_wf|by eapply block_calls_recorded|lia].
Qed.

Lemma start_dispatched (e : Ext W) : dispatched max_attempts (start e).
Proof.
  repeat split.
  - constructor.
  - intros i name Hin. by apply elem_of_nil in Hin.
  - cbn. lia.
Qed.

Lemma auto_execute_body_dispatched e :
  wp (auto_execute_body drv clk self action target value page_index max_attempts
        capture_screenshot kwargs)
     (λ _ s, dispatched max_attempts s) (λ _ s, dispatched max_attempts s)
     (λ _ _, False) (start e).
Proof.
  unfold auto_execute_body. apply wp_bind, wp_gets.
  destruct (page_at _ _) as [page|]; [|apply wp_return, start_dispatched].
  apply wp_try.
  apply (wp_mono _ (λ _ s, dispatched max_attempts s) _
                 (λ _ s, dispatched max_attempts s) _
                 (λ _ s, dispatched max_attempts s)); [|done|done|by intros; apply wp_return].
  destruct (start_dispatched e) as (Hwf & Hrec & Hcalls).
  apply wp_bind.
  eapply wp_mono; [apply try_primary_block| | |done]; cbv beta.
  2: { intros o s' [Hb _].
       repeat split; [by eapply block_wf|by eapply block_calls_recorded|].
       rewrite (block_no_fallback_call _ _ _ Hb). done. }
  intros _ s1 Hb.
  pose proof (block_no_fallback_call _ _ _ Hb) as H0.
  change (fallback_calls (start e)) with 0%nat in H0.
  apply wp_bind.
  eapply wp_mono;
    [apply fallback_loop_dispatched;
       [lia|by eapply block_wf|by eapply block_calls_recorded|lia]
    | |by intros ?? []|done]; cbv beta.
  intros _ s2 Hs2.
  apply wp_bind.
  apply (wp_mono _ (λ _ s, dispatched max_attempts s) _
                 (λ _ s, dispatched max_attempts s) _ (λ _ _, False)).
  - apply wp_when; [|done]. intros _.
    destruct Hs2 as (Hwf2 & Hrec2 & Hcalls2).
    eapply wp_mono; [apply js_direct_click_block| | |done]; cbv beta.
    + intros _ s3 [Hb3 _].
      repeat split; [by eapply block_wf|by eapply block_calls_recorded|].
      by rewrite (block_no_fallback_call _ _ _ Hb3).
    + intros o s3 [Hb3 _].
      repeat split; [by eapply block_wf|by eapply block_calls_recorded|].
      by rewrite (block_no_fallback_call _ _ _ Hb3).
  - intros _ s3 Hs3. unfold take_screenshot, read_attempts.
    repeat wpx_step; try (eapply dispatched_frame; [|exact Hs3]; done).
  - done.
  - done.
Qed.

Lemma recorded_trail (s : State W) name :
  recorded s name →
  ∃ d, d ∈ trail (frame s) ∧ d !! "strategy" = Some (VStr name).
Proof.
  intros (a & Ha & Hlook). unfold strategies in Hlook.
  apply list_lookup_fmap_Some in Hlook as (d & Hd & Hlook).
  exists d. split; [|done]. unfold trail. apply list_elem_of_omap. eauto.
Qed.

End Blocks.

Section Scenario.
Context {W : Type} (drv : Driver W) (clk : Clock).

Lemma tool_names_click action :
  Str.lower action = "click" →
  tool_names_for action
  = ["playwright_smart_click"; "playwright_multi_strategy_locate"; "playwright_js_locate"].
Proof. intros H. unfold tool_names_for. by rewrite H. Qed.

Lemma first_fallback_succeeds (self : gmap string (@Attr W)) action target value page_index
    max_attempts capture_screenshot kwargs (e : Ext W) page f1 a1 e1 f2 r2 e2 :
  Str.lower action = "click" →
  (2 ≤ max_attempts)%Z →
  page_at e page_index = Some page →
  self !! "playwright_smart_click" = Some (Method f1) →
  f1 (primary_args "playwright_smart_click" action target value page_index
        capture_screenshot kwargs) e = (a1, e1) →
  reports_failure a1 →
  self !! "playwright_multi_strategy_locate" = Some (Method f2) →
  f2 (fallback_args "playwright_multi_strategy_locate" action target value page_index
        capture_screenshot kwargs) e1 = (Gives r2, e2) →
  is_str (get r2 "status") "success" = true →
  ∃ s, run (auto_execute_body drv clk self action target value page_index max_attempts
              capture_screenshot kwargs) e
       = (Return {[ "status" := VStr "success";
                    "message" := VStr ("Action '" +:+ action
                                       +:+ "' completed successfully with fallback tool");
                    "tool_used" := VStr "playwright_multi_strategy_locate";
                    "fallback_attempt" := VInt 1;
                    "details" := VDict r2 ]}, s)
    ∧ trail (frame s)
      = [ failed_attempt "playwright_smart_click" target a1;
          successful_attempt "playwright_multi_strategy_locate" target ]
    ∧ called (frame s)
      = [ (0%Z, "playwright_smart_click"); (1%Z, "playwright_multi_strategy_locate") ]
    ∧ ext s = e2.
Proof.
  intros Hlow Hmax Hpage H1 Hf1 Hfail H2 Hf2 Hok.
  unfold run, auto_execute_body, _get_page.
  exec. rewrite Hpage, (tool_names_click _ Hlow). cbn [head tail default from_option id].
  unfold try_primary. exec. rewrite H1. unfold call_method. exec.
  rewrite Hf1.
  destruct a1 as [r1|x]; cbn in Hfail.
  - exec. rewrite Hfail. unfold record_result. exec.
    cbn [fallback_loop].
    assert ((max_attempts <=? 1)%Z = false) as -> by lia.
    unfold try_fallback. exec. rewrite H2. unfold call_method. exec.
    rewrite Hf2. exec. rewrite Hok. unfold record_success. exec.
    eexists. split; [reflexivity|]. by repeat split.
  - exec. unfold record_result. exec.
    cbn [fallback_loop].
    assert ((max_attempts <=? 1)%Z = false) as -> by lia.
    unfold try_fallback. exec. rewrite H2. unfold call_method. exec.
    rewrite Hf2. exec. rewrite Hok. unfold record_success. exec.
    eexists. split; [reflexivity|]. by repeat split.
Qed.

Lemma missing_primary_recorded_twice (self : gmap string (@Attr W)) action target value
    page_index capture_screenshot kwargs primary_tool_name (e : Ext W) :
  self !! primary_tool_name = None →
  ∃ s, try_primary self action target value page_index capture_screenshot kwargs
         primary_tool_name (start e) = (Ok tt, s)
       ∧ trail (frame s) = [ missing_attempt primary_tool_name target;
                             missing_attempt primary_tool_name target ]
       ∧ ext s = e.
Proof.
  intros Hmissing. unfold try_primary. exec. rewrite Hmissing.
  unfold record_result. exec.
  eexists. split; [reflexivity|]. split; [|done].
  reflexivity.
Qed.

Lemma missing_fallback_recorded_once (self : gmap string (@Attr W)) action target value
    page_index capture_screenshot kwargs i tool_name (e : Ext W) :
  self !! tool_name = None →
  ∃ s, try_fallback self action target value page_index capture_screenshot kwargs
         i tool_name (start e) = (Ok tt, s)
       ∧ trail (frame s) = [ missing_attempt tool_name target ]
       ∧ ext s = e.
Proof.
  intros Hmissing. unfold try_fallback. exec. rewrite Hmissing.
  unfold record_result. exec.
  eexists. split; [reflexivity|]. by split.
Qed.

End Scenario.

Lemma dispatch_budget {W} (drv : Driver W) (clk : Clock) self action target value
    page_index max_attempts capture_screenshot kwargs (e : Ext W) :
  let s := (run (auto_execute_body drv clk self action target value page_index
                   max_attempts capture_screenshot kwargs) e).2 in
  (fallback_calls s ≤ Z.to_nat (max_attempts - 1))%nat
  ∧ ∀ i name, (i, name) ∈ called (frame s) →
      ∃ d, d ∈ trail (frame s) ∧ d !! "strategy" = Some (VStr name).
Proof.
  intros s. subst s.
  pose proof (auto_execute_body_dispatched drv clk self action target value page_index
                max_attempts capture_screenshot kwargs e) as H.
  unfold wp, run in *.
  destruct (auto_execute_body _ _ _ _ _ _ _ _ _ _ _) as [[o|o|x] s]; [| |done];
    destruct H as (_ & Hrec & Hcalls); (split; [done|]);
    intros i name Hin; eapply recorded_trail, Hrec; done.
Qed.

(** C5: a dispatch of click (whatever the case of the verb) with a budget
    of at least 2, in which the primary tool [playwright_smart_click]
    reports failure (a status other than success, or an exception) and the
    first fallback [playwright_multi_strategy_locate] reports success,
    returns success naming the fallback as [tool_used], with exactly two
    attempts recorded, two methods awaited, and the session left as the
    fallback left it: neither [playwright_js_locate] nor the last-resort
    script ran.  In every dispatch the number of fallback tools awaited is
    at most [max_attempts - 1], and every method awaited has an attempt
    recorded under its name. *)
Theorem C5_fallback_budget :
  (∀ W (drv : Driver W) (clk : Clock) (self : gmap string (@Attr W)) action target
     value page_index max_attempts capture_screenshot kwargs (e : Ext W) page
     f1 a1 e1 f2 r2 e2,
     Str.lower action = "click" →
     (2 ≤ max_attempts)%Z →
     page_at e page_index = Some page →
     self !! "playwright_smart_click" = Some (Method f1) →
     f1 (primary_args "playwright_smart_click" action target value page_index
           capture_screenshot kwargs) e = (a1, e1) →
     reports_failure a1 →
     self !! "playwright_multi_strategy_locate" = Some (Method f2) →
     f2 (fallback_args "playwright_multi_strategy_locate" action target value page_index
           capture_screenshot kwargs) e1 = (Gives r2, e2) →
     is_str (get r2 "status") "success" = true →
     ∃ s, run (auto_execute_body drv clk self action target value page_index
                 max_attempts capture_screenshot kwargs) e
          = (Return {[ "status" := VStr "success";
                       "message" := VStr ("Action '" +:+ action
                                          +:+ "' completed successfully with fallback tool");
                       "tool_used" := VStr "playwright_multi_strategy_locate";
                       "fallback_attempt" := VInt 1;
                       "details" := VDict r2 ]}, s)
       ∧ trail (frame s)
         = [ failed_attempt "playwright_smart_click" target a1;
             successful_attempt "playwright_multi_strategy_locate" target ]
       ∧ called (frame s)
         = [ (0%Z, "playwright_smart_click"); (1%Z, "playwright_multi_strategy_locate") ]
       ∧ ext s = e2) ∧
  (∀ W (drv : Driver W) (clk : Clock) (self : gmap string (@Attr W)) action target
     value page_index max_attempts capture_screenshot kwargs (e : Ext W),
     let s := (run (auto_execute_body drv clk self action target value page_index
                      max_attempts capture_screenshot kwargs) e).2 in
     (fallback_calls s ≤ Z.to_nat (max_attempts - 1))%nat
     ∧ ∀ i name, (i, name) ∈ called (frame s) →
         ∃ d, d ∈ trail (frame s) ∧ d !! "strategy" = Some (VStr name)).
Proof.
  split.
  - intros. by eapply first_fallback_succeeds.
  - intros. apply dispatch_budget.
Qed.

Lemma C5_witness :
  ∃ s, run (auto_execute_body (Sim.driver text_page) Sim.clock
              (PlaywrightTools (Sim.driver text_page) Sim.clock)
              "click" "Submit" EmptyString 0 3 false ∅) (Sim.session [7])
       = (Return {[ "status" := VStr "success";
                    "message" := VStr ("Action '" +:+ "click"
                                       +:+ "' completed successfully with fallback tool");
                    "tool_used" := VStr "playwright_multi_strategy_locate";
                    "fallback_attempt" := VInt 1;
                    "details" := VDict (outcome_of c5_fallback) ]}, s)
    ∧ trail (frame s)
      = [ failed_attempt "playwright_smart_click" "Submit" c5_primary.1;
          successful_attempt "playwright_multi_strategy_locate" "Submit" ]
    ∧ called (frame s)
      = [ (0%Z, "playwright_smart_click"); (1%Z, "playwright_multi_strategy_locate") ]
    ∧ ext s = c5_fallback.2.
Proof.
  apply (proj1 C5_fallback_budget (list nat) (Sim.driver text_page) Sim.clock
           (PlaywrightTools (Sim.driver text_page) Sim.clock)
           "click" "Submit" EmptyString 0%Z 3%Z false ∅ (Sim.session [7]) 7%nat
           (smart_click_method (Sim.driver text_page) Sim.clock)
           c5_primary.1 c5_primary.2
           (multi_strategy_locate_method (Sim.driver text_page) Sim.clock)
           (outcome_of c5_fallback) c5_fallback.2).
  - reflexivity.
  - lia.
  - reflexivity.
  - reflexivity.
  - reflexivity.
  - by vm_compute.
  - reflexivity.
  - by vm_compute.
  - by vm_compute.
Defined.

(** C6 at a failing input: on an instance of [DebugTools] alone none of the
    tools of the click chain exists.  The dispatch goes through the chain
    and ends in an error outcome, but its attempt list holds two entries
    for the missing primary tool [playwright_smart_click], against one for
    each missing fallback tool. *)
Theorem C6_missing_primary_twice :
  let r := playwright_auto_execute (Sim.driver Sim.blank) Sim.clock DebugTools
             "click" "Submit" EmptyString 0 3 false ∅ (Sim.session [7]) in
  get (outcome_of r) "attempts"
  = VDicts [ missing_attempt "playwright_smart_click" "Submit";
             missing_attempt "playwright_smart_click" "Submit";
             missing_attempt "playwright_multi_strategy_locate" "Submit";
             missing_attempt "playwright_js_locate" "Submit";
             <["error" := VStr "Element not found"]>
               (<["result" := VStr "failed"]>
                  {[ "strategy" := VStr "js_direct_click"; "target" := VStr "Submit" ]}) ].
Proof. by vm_compute. Qed.

(** *** The last-resort script click *)

Section LastResort.
Context {W : Type} (drv : Driver W) (clk : Clock).
Context (self : gmap string (@Attr W)).
Context (action target value : string) (page_index max_attempts : Z)
        (capture_screenshot : bool) (kwargs : dict).

Lemma fn_post (body : M (State W) dict) (P : dict → Ext W → Prop) e :
  wp body (λ o s, P o (ext s)) (λ o s, P o (ext s)) (λ _ _, False) (start e) →
  ∀ o e', fn body e = (Gives o, e') → P o e'.
Proof.
  unfold wp, fn, run.
  destruct (body (start e)) as [[o|o|x] s]; [| |done]; intros H o' e' [= <- <-]; done.
Qed.

Lemma fallback_loop_succeeds_or_goes_on tool_names : ∀ i s,
  wp (fallback_loop self action target value page_index max_attempts
        capture_screenshot kwargs i tool_names)
     (λ _ _, True) (λ o _, get o "status" = VStr "success") (λ _ _, False) s.
Proof.
  induction tool_names as [|tool_name rest IH]; intros i s; simpl; [done|].
  destruct (max_attempts <=? i)%Z; [done|].
  apply wp_bind.
  eapply wp_mono; [apply (try_fallback_block self)| | |done]; cbv beta.
  - intros. apply IH.
  - by intros o s' [_ Ho].
Qed.

(** A dispatch of a click that does not end in success has evaluated the
    last-resort script. *)
Lemma failed_click_evaluated_script (e : Ext W) page :
  Str.lower action = "click" →
  page_at e page_index = Some page →
  ∀ o e', playwright_auto_execute drv clk self action target value page_index
            max_attempts capture_screenshot kwargs e = (Gives o, e') →
          get o "status" ≠ VStr "success" →
          EEvaluate page "js_direct_click" ∈ trace e'.
Proof.
  intros Hlow Hpage.
  apply (fn_post _ (λ o e', get o "status" ≠ VStr "success" →
                            EEvaluate page "js_direct_click" ∈ trace e')).
  unfold auto_execute_body. apply wp_bind, wp_gets.
  change (ext (start e)) with e. rewrite Hpage.
  apply wp_try.
  apply (wp_mono _ (λ _ _, False) _ (λ o s, get o "status" ≠ VStr "success" →
                                            evaluated page s)
                 _ (λ _ s, evaluated page s)); [|done|done|by intros; apply wp_return].
  apply wp_bind.
  eapply wp_mono; [apply (try_primary_block self)| | |done]; cbv beta;
    [|by intros o s' [_ ->]].
  intros _ s1 _. apply wp_bind.
  eapply wp_mono; [apply fallback_loop_succeeds_or_goes_on| | |done]; cbv beta;
    [|by intros o s' ->].
  intros _ s2 _. apply wp_bind. rewrite Hlow. cbn [String.eqb Ascii.eqb Bool.eqb when].
  eapply wp_mono; [apply js_direct_click_block| | |done]; cbv beta;
    [|by intros o s' [_ ->]].
  intros _ s3 [_ Hev]. unfold take_screenshot, read_attempts.
  repeat wpx_step; try done; try (intros _);
    unfold evaluated in *;
    cbn [ext trace after_call after_tick]; set_solver.
Qed.

(** The element the last-resort script settles on. *)
Lemma js_direct_click_by_id allElements i el :
  Str.truthy target = true →
  list_find (λ el, el_id el = target) allElements = Some (i, el) →
  js_direct_click_target drv target allElements = Some (i, el).
Proof. intros Ht Hid. unfold js_direct_click_target. by rewrite Ht, Hid. Qed.

Lemma js_direct_click_by_selector allElements i el :
  (Str.truthy target = false
   ∨ list_find (λ el, el_id el = target) allElements = None) →
  d_query_selector drv allElements target = Gives (Some i) →
  allElements !! i = Some el →
  js_direct_click_target drv target allElements = Some (i, el).
Proof.
  intros Hid Hsel Hel. unfold js_direct_click_target.
  rewrite Hsel, Hel. by destruct Hid as [-> | Hid]; [|destruct (Str.truthy target); rewrite ?Hid].
Qed.

Lemma js_direct_click_by_text allElements :
  (Str.truthy target = false
   ∨ list_find (λ el, el_id el = target) allElements = None) →
  (∀ i, d_query_selector drv allElements target = Gives (Some i) →
        allElements !! i = None) →
  js_direct_click_target drv target allElements
  = list_find (λ el, text_includes target el = true) allElements.
Proof.
  intros Hid Hsel. unfold js_direct_click_target.
  assert ((if Str.truthy target
           then list_find (λ el, el_id el = target) allElements else None) = None) as ->.
  { destruct Hid as [-> | Hid]; [done|]. by destruct (Str.truthy target). }
  destruct (d_query_selector drv allElements target) as [[i|]|x]; [|done..].
  by rewrite (Hsel i eq_refl).
Qed.

(** The script clicks the element it settles on. *)
Lemma js_direct_click_script_clicks page (s : State W) allElements w i el :
  d_document drv page (world (ext s)) = (Gives allElements, w) →
  js_direct_click_target drv target allElements = Some (i, el) →
  has_click el = true →
  ∃ result, js_direct_click_script drv target page s
            = (Ok result,
               with_world (d_js_click drv page i)
                 (after_call (EEvaluate page "js_direct_click") w s))
            ∧ get result "success" = VBool true.
Proof.
  intros Hdoc Htarget Hclick. unfold js_direct_click_script.
  exec. rewrite Hdoc. exec. rewrite Htarget, Hclick. exec.
  by eexists.
Qed.

End LastResort.

Ltac solve_quiet :=
  unfold quiet, quiet_ext in *; intros ?;
  cbn [ext trace after_call after_tick with_dict with_key with_attempt with_called
       with_ext with_world];
  rewrite ?elem_of_app, ?list_elem_of_singleton; naive_solver.

Section Quiet.
Context {W : Type} (drv : Driver W) (clk : Clock).
Implicit Types (s : State W) (seen : list Event).

Lemma fn_quiet (body : M (State W) dict) seen :
  (∀ s, quiet seen s →
        wp body (λ _ s', quiet seen s') (λ _ s', quiet seen s') (λ _ s', quiet seen s') s) →
  ∀ e a e', fn body e = (a, e') → quiet_ext seen e → quiet_ext seen e'.
Proof.
  intros H e a e' Hfn He. specialize (H (start e) He).
  unfold wp, fn, run in *.
  destruct (body (start e)) as [[o|o|x] s]; by injection Hfn as <- <-.
Qed.

Lemma wp_invoke_quiet (t : Tool W) seen (Q : dict → State W → Prop) R
    (E : Exn → State W → Prop) s :
  (∀ e a e', t e = (a, e') → quiet_ext seen e → quiet_ext seen e') →
  quiet seen s →
  (∀ o s', quiet seen s' → Q o s') →
  (∀ x s', quiet seen s' → E x s') →
  wp (invoke t) Q R E s.
Proof.
  intros Ht Hs HQ HE. apply wp_invoke.
  destruct (t (ext s)) as [[o|x] e'] eqn:Heq; [apply HQ|apply HE];
    by eapply Ht.
Qed.

Lemma accessibility_locator_quiet description action text_input page_index seen e a e' :
  playwright_accessibility_locator drv description action text_input page_index e = (a, e') →
  quiet_ext seen e → quiet_ext seen e'.
Proof.
  apply fn_quiet. intros s Hs.
  unfold accessibility_locator_body, a11y_find_element, _get_page.
  repeat wpx_step; solve_quiet.
Qed.

Lemma vision_locator_quiet text exact action text_input page_index seen e a e' :
  playwright_vision_locator drv text exact action text_input page_index e = (a, e') →
  quiet_ext seen e → quiet_ext seen e'.
Proof.
  apply fn_quiet. intros s Hs.
  unfold vision_locator_body, _get_page.
  repeat wpx_step; solve_quiet.
Qed.

Lemma js_locate_quiet description action text_input page_index seen e a e' :
  playwright_js_locate drv description action text_input page_index e = (a, e') →
  quiet_ext seen e → quiet_ext seen e'.
Proof.
  apply fn_quiet. intros s Hs.
  unfold js_locate_body, _get_page.
  repeat wpx_step; solve_quiet.
Qed.

Lemma try_standard_selector_quiet page action text_input cs selector seen s :
  quiet seen s →
  wp (try_standard_selector drv clk page action text_input cs selector)
     (λ _ s', quiet seen s') (λ _ s', quiet seen s') (λ _ s', quiet seen s') s.
Proof.
  intros Hs.
  unfold try_standard_selector, perform_action, record_failure, take_screenshot.
  repeat wpx_step; solve_quiet.
Qed.

Lemma try_locator_quiet page cs attempt0 tool miss found seen s :
  (∀ e a e', tool e = (a, e') → quiet_ext seen e → quiet_ext seen e') →
  quiet seen s →
  wp (try_locator drv clk page cs attempt0 tool miss found)
     (λ _ s', quiet seen s') (λ _ s', quiet seen s') (λ _ s', quiet seen s') s.
Proof.
  intros Htool Hs. unfold try_locator, record_failure, take_screenshot.
  apply wp_bind, wpx_new_dict. apply wp_try, wp_bind.
  apply (wp_invoke_quiet _ seen); [done|solve_quiet|..].
  - intros o s' Hs'. repeat wpx_step; solve_quiet.
  - intros x s' Hs'. repeat wpx_step; solve_quiet.
Qed.

Lemma wp_quiet_then {A B} (m : M (State W) A) (f : A → M (State W) B) seen s :
  wp m (λ _ s', quiet seen s') (λ _ s', quiet seen s') (λ _ s', quiet seen s') s →
  (∀ a s', quiet seen s' →
           wp (f a) (λ _ s', quiet seen s') (λ _ s', quiet seen s')
              (λ _ s', quiet seen s') s') →
  wp (m ≫= f) (λ _ s', quiet seen s') (λ _ s', quiet seen s') (λ _ s', quiet seen s') s.
Proof. intros Hm Hf. apply wp_bind. eapply wp_mono; eauto. Qed.

Lemma multi_strategy_locate_quiet description selectors action text_input page_index
    cs optional seen e a e' :
  playwright_multi_strategy_locate drv clk description selectors action text_input
    page_index cs optional e = (a, e') →
  quiet_ext seen e → quiet_ext seen e'.
Proof.
  apply fn_quiet. intros s Hs.
  unfold multi_strategy_body, _get_page.
  apply wp_bind, wp_gets. destruct (page_at _ _) as [page|]; [|by apply wp_return].
  apply wp_try.
  apply (wp_mono _ (λ _ s', quiet seen s') _ (λ _ s', quiet seen s') _
                 (λ _ s', quiet seen s')); [|done|done|by intros; apply wp_return].
  apply wp_quiet_then; [repeat wpx_step; done|].
  intros standard_selectors s1 Hs1. unfold multi_strategy_chain.
  apply wp_quiet_then.
  { apply (wp_for_each _ _ (quiet seen)); [done|].
    intros. by apply try_standard_selector_quiet. }
  intros _ s2 Hs2. apply wp_quiet_then.
  { apply try_locator_quiet; [apply accessibility_locator_quiet|done]. }
  intros _ s3 Hs3. apply wp_quiet_then.
  { apply try_locator_quiet; [apply vision_locator_quiet|done]. }
  intros _ s4 Hs4. apply wp_quiet_then.
  { apply try_locator_quiet; [apply js_locate_quiet|done]. }
  intros _ s5 Hs5. unfold take_screenshot, read_attempts.
  repeat wpx_step; solve_quiet.
Qed.

End Quiet.

(** C2, as the code has it.  The last-resort script click belongs to the
    dispatcher: every dispatch of click by [playwright_auto_execute] on an
    existing page that does not end in success has evaluated the
    last-resort script on that page before it returns.  The script settles
    on the element whose id is the target, else on the one the target
    selects as a selector, else on the first whose text includes the
    target, and clicks it.  [playwright_multi_strategy_locate] never
    evaluates that script. *)
Theorem C2_last_resort_in_dispatcher :
  (∀ W (drv : Driver W) (clk : Clock) (self : gmap string (@Attr W)) action target value
     page_index max_attempts capture_screenshot kwargs (e : Ext W) page o e',
     Str.lower action = "click" →
     page_at e page_index = Some page →
     playwright_auto_execute drv clk self action target value page_index
       max_attempts capture_screenshot kwargs e = (Gives o, e') →
     get o "status" ≠ VStr "success" →
     EEvaluate page "js_direct_click" ∈ trace e') ∧
  (∀ W (drv : Driver W) target allElements i el,
     Str.truthy target = true →
     list_find (λ el, el_id el = target) allElements = Some (i, el) →
     js_direct_click_target drv target allElements = Some (i, el)) ∧
  (∀ W (drv : Driver W) target allElements i el,
     (Str.truthy target = false
      ∨ list_find (λ el, el_id el = target) allElements = None) →
     d_query_selector drv allElements target = Gives (Some i) →
     allElements !! i = Some el →
     js_direct_click_target drv target allElements = Some (i, el)) ∧
  (∀ W (drv : Driver W) target allElements,
     (Str.truthy target = false
      ∨ list_find (λ el, el_id el = target) allElements = None) →
     (∀ i, d_query_selector drv allElements target = Gives (Some i) →
           allElements !! i = None) →
     js_direct_click_target drv target allElements
     = list_find (λ el, text_includes target el = true) allElements) ∧
  (∀ W (drv : Driver W) target page (s : State W) allElements w i el,
     d_document drv page (world (ext s)) = (Gives allElements, w) →
     js_direct_click_target drv target allElements = Some (i, el) →
     has_click el = true →
     ∃ result, js_direct_click_script drv target page s
               = (Ok result,
                  with_world (d_js_click drv page i)
                    (after_call (EEvaluate page "js_direct_click") w s))
               ∧ get result "success" = VBool true) ∧
  (∀ W (drv : Driver W) (clk : Clock) description selectors action text_input page_index
     capture_screenshot optional (e : Ext W) a e' p,
     playwright_multi_strategy_locate drv clk description selectors action text_input
       page_index capture_screenshot optional e = (a, e') →
     EEvaluate p "js_direct_click" ∈ trace e' →
     EEvaluate p "js_direct_click" ∈ trace e).
Proof.
  split; [intros; by eapply failed_click_evaluated_script|].
  split; [intros; by apply js_direct_click_by_id|].
  split; [intros; by apply js_direct_click_by_selector|].
  split; [intros; by apply js_direct_click_by_text|].
  split; [intros; by eapply js_direct_click_script_clicks|].
  intros W drv clk description selectors action text_input page_index cs optional
    e a e' p Hrun Hin.
  apply (multi_strategy_locate_quiet drv clk _ _ _ _ _ _ _ (trace e) e a e' Hrun);
    [by intros ?|done].
Qed.

(** On a page where nothing resolves the dispatch of click fails after the
    three named tools, and has evaluated the last-resort script; on
    [id_only_page] that script settles on the element whose id is go. *)
Lemma C2_witness :
  EEvaluate 7%nat "js_direct_click"
  ∈ trace (playwright_auto_execute (Sim.driver Sim.blank) Sim.clock
             (PlaywrightTools (Sim.driver Sim.blank) Sim.clock)
             "click" "Submit" EmptyString 0 3 false ∅ (Sim.session [7])).2
  ∧ js_direct_click_target (Sim.driver id_only_page) "go" (Sim.document id_only_page)
    = Some (0%nat, Sim.element "DIV" "go" EmptyString ∅).
Proof.
  destruct C2_last_resort_in_dispatcher as (Hfail & Hid & _).
  split.
  - apply (Hfail (list nat) (Sim.driver Sim.blank) Sim.clock
             (PlaywrightTools (Sim.driver Sim.blank) Sim.clock)
             "click" "Submit" EmptyString 0%Z 3%Z false ∅ (Sim.session [7]) 7%nat
             (outcome_of (playwright_auto_execute (Sim.driver Sim.blank) Sim.clock
                (PlaywrightTools (Sim.driver Sim.blank) Sim.clock)
                "click" "Submit" EmptyString 0 3 false ∅ (Sim.session [7])))).
    + reflexivity.
    + reflexivity.
    + by vm_compute.
    + by vm_compute.
  - apply Hid; reflexivity.
Defined.

(** C2 fails as stated: on a page where the four strategies fail for the
    description go and an element has the id go, so that the last-resort
    script would click it, [playwright_multi_strategy_locate] reports the
    failure after its four strategies, without evaluating the script and
    without a click; the dispatcher on the same page does click it. *)
Lemma C2_counterexample :
  let r := playwright_multi_strategy_locate (Sim.driver id_only_page) Sim.clock
             (Some "go") None "click" EmptyString 0 false false (Sim.session [7]) in
  let d := playwright_auto_execute (Sim.driver id_only_page) Sim.clock
             (PlaywrightTools (Sim.driver id_only_page) Sim.clock)
             "click" "go" EmptyString 0 3 false ∅ (Sim.session [7]) in
  get (outcome_of r) "status" = VStr "error"
  ∧ get (outcome_of r) "attempted_strategies"
    = VStrs (replicate 7 "standard_selector"
             ++ ["accessibility_tree"; "vision_location"; "javascript"])
  ∧ Forall (λ ev, ev ≠ EEvaluate 7%nat "js_direct_click") (trace r.2)
  ∧ world r.2 = []
  ∧ js_direct_click_target (Sim.driver id_only_page) "go" (Sim.document id_only_page)
    = Some (0%nat, Sim.element "DIV" "go" EmptyString ∅)
  ∧ get (outcome_of d) "tool_used" = VStr "js_direct_click"
  ∧ world d.2 = [1000%nat].
Proof.
  cbv zeta. split; [by vm_compute|]. split; [by vm_compute|].
  split; [|by vm_compute].
  vm_compute. repeat constructor; discriminate.
Qed.

Section Order.
Context {W : Type}.
Implicit Types s : State W.

Lemma plain_insert_result v d : plain (<["result" := v]> d) = plain d.
Proof.
  unfold plain. rewrite delete_insert_ne by done. by rewrite delete_insert_eq.
Qed.

Lemma plain_insert_error v d : plain (<["error" := v]> d) = plain d.
Proof. unfold plain. by rewrite delete_insert_eq. Qed.

Lemma plain_id d : d !! "result" = None → d !! "error" = None → plain d = d.
Proof.
  intros Hr He. unfold plain. rewrite (delete_id _ "error") by done. by apply delete_id.
Qed.

Lemma created_with_dict d s : created (with_dict d s) = created s ++ [plain d].
Proof. unfold created. cbn. by rewrite fmap_app. Qed.

Lemma created_with_key a k v s :
  k = "result" ∨ k = "error" → created (with_key a k v s) = created s.
Proof.
  intros Hk. unfold created. cbn. rewrite (list_fmap_alter _ _ id).
  - by rewrite list_alter_id.
  - apply Forall_forall. intros d _. simpl.
    destruct Hk as [-> | ->]; [apply plain_insert_result|apply plain_insert_error].
Qed.

Lemma created_with_attempt a s : created (with_attempt a s) = created s.
Proof. done. Qed.
Lemma created_with_ext e s : created (with_ext e s) = created s.
Proof. done. Qed.
Lemma created_after_call ev (w : W) s : created (after_call ev w s) = created s.
Proof. done. Qed.
Lemma created_after_tick s : created (after_tick s) = created s.
Proof. done. Qed.

Lemma created_length s : length (created s) = length (dicts (frame s)).
Proof. unfold created. by rewrite length_fmap. Qed.

Lemma ran_nil s : ran [] s s.
Proof.
  split; [by rewrite app_nil_r|]. exists []. rewrite app_nil_r.
  repeat split; constructor.
Qed.

Lemma ran_app ds1 ds2 s0 s1 s2 : ran ds1 s0 s1 → ran ds2 s1 s2 → ran (ds1 ++ ds2) s0 s2.
Proof.
  intros [Hc1 (n1 & Ha1 & Hs1 & Hb1)] [Hc2 (n2 & Ha2 & Hs2 & Hb2)].
  assert (length (created s1) = length (created s0) + length ds1)%nat as Hlen
    by (by rewrite Hc1, length_app).
  split.
  - by rewrite Hc2, Hc1, app_assoc.
  - exists (n1 ++ n2). split; [by rewrite Ha2, Ha1, app_assoc|]. split.
    + apply StronglySorted_app_2; [|done..].
      intros x1 x2 H1 H2.
      rewrite Forall_forall in Hb1, Hb2. specialize (Hb1 _ H1). specialize (Hb2 _ H2). lia.
    + rewrite length_app. apply Forall_app. split.
      * eapply Forall_impl; [done|]. intros; simpl in *; lia.
      * eapply Forall_impl; [done|]. intros; simpl in *; lia.
Qed.

(** One block: one attempt created, its address appended [n] times. *)
Lemma ran_one d n s0 s' :
  created s' = created s0 ++ [d] →
  attempts (frame s') = attempts (frame s0) ++ replicate n (length (dicts (frame s0))) →
  ran [d] s0 s'.
Proof.
  intros Hc Ha. split; [done|]. exists (replicate n (length (dicts (frame s0)))).
  split; [done|]. rewrite created_length. split.
  - clear. induction n as [|n IH]; simpl; constructor; [done|].
    apply Forall_forall. intros x Hx. by apply elem_of_replicate_inv in Hx as ->.
  - apply Forall_forall. intros x Hx. apply elem_of_replicate_inv in Hx as ->.
    simpl. lia.
Qed.

End Order.

Ltac created_simpl :=
  repeat first
    [ rewrite created_with_attempt | rewrite created_with_ext
    | rewrite created_after_call | rewrite created_after_tick
    | rewrite created_with_key by (first [by left | by right]) ].

Section Chain.
Context {W : Type} (drv : Driver W) (clk : Clock).
Implicit Types s : State W.

Lemma succeeded_intro d s0 s' :
  frame s' = frame (with_attempt (length (dicts (frame s0)))
                      (with_key (length (dicts (frame s0))) "result" (VStr "success")
                         (with_dict d s0))) →
  succeeded s'.
Proof.
  intros Hf. exists (length (dicts (frame s0))), (<["result" := VStr "success"]> d).
  rewrite Hf. cbn. split_and!.
  - apply last_snoc.
  - by rewrite length_alter, length_app, Nat.add_1_r.
  - by rewrite list_lookup_alter_eq, list_lookup_middle.
  - apply lookup_insert_eq.
Qed.

Ltac solve_ran_with d n :=
  apply (ran_one d n);
  [ created_simpl; rewrite created_with_dict;
    rewrite plain_id by first [reflexivity | assumption]; reflexivity
  | cbn; rewrite <- ?app_assoc, ?app_nil_r; reflexivity ].

Ltac solve_ran d :=
  first [ solve_ran_with d 0%nat | solve_ran_with d 1%nat | solve_ran_with d 2%nat ].

Lemma try_standard_selector_ran page action text_input capture_screenshot selector s0 :
  wp (try_standard_selector drv clk page action text_input capture_screenshot selector)
     (λ _ s', ran [selector_attempt selector] s0 s')
     (λ o s', ran [selector_attempt selector] s0 s' ∧ succeeded s'
              ∧ names o (selector_attempt selector))
     (λ _ _, False) s0.
Proof.
  unfold try_standard_selector, perform_action, record_failure, take_screenshot.
  repeat wpx_step.
  all: try (split_and!;
            [|eapply (succeeded_intro _ s0); reflexivity
             |unfold names; split_and!; reflexivity]).
  all: solve_ran (selector_attempt selector).
Qed.

Lemma try_locator_ran page capture_screenshot attempt0 tool miss hit s0 :
  attempt0 !! "result" = None → attempt0 !! "error" = None →
  wp (try_locator drv clk page capture_screenshot attempt0 tool miss hit)
     (λ _ s', ran [attempt0] s0 s')
     (λ o s', ran [attempt0] s0 s' ∧ succeeded s'
              ∧ ∃ result screenshot_path, o = hit result screenshot_path)
     (λ _ _, False) s0.
Proof.
  intros Hr He. unfold try_locator, record_failure, take_screenshot.
  repeat wpx_step.
  all: try (split_and!; [|eapply (succeeded_intro _ s0); reflexivity|by eauto]).
  all: solve_ran attempt0.
Qed.

(** A block run at position [k] of a plan. *)
Lemma wp_stage (pl : list dict) k d (m : M (State W) unit) s0 s :
  pl !! k = Some d →
  ran (take k pl) s0 s →
  wp m (λ _ s', ran [d] s s') (λ o s', ran [d] s s' ∧ succeeded s' ∧ names o d)
     (λ _ _, False) s →
  wp m (λ _ s', ran (take (S k) pl) s0 s') (hit_at pl s0) (λ _ _, False) s.
Proof.
  intros Hk Hran Hm. eapply wp_mono; [exact Hm| | |done].
  - intros [] s' Hd. rewrite (take_S_r _ _ _ Hk). by eapply ran_app.
  - intros o s' (Hd & Hs & Hn). exists k, d. split_and!; [done| |done..].
    rewrite (take_S_r _ _ _ Hk). by eapply ran_app.
Qed.

Lemma selectors_in_order (pl : list dict) page action text_input capture_screenshot s0 :
  ∀ standard_selectors k s,
    (∀ i selector, standard_selectors !! i = Some selector →
                   pl !! (k + i)%nat = Some (selector_attempt selector)) →
    ran (take k pl) s0 s →
    wp (for_each standard_selectors
          (try_standard_selector drv clk page action text_input capture_screenshot))
       (λ _ s', ran (take (k + length standard_selectors) pl) s0 s')
       (hit_at pl s0) (λ _ _, False) s.
Proof.
  induction standard_selectors as [|selector rest IH]; intros k s Hpl Hran.
  - simpl. apply wp_ret. by rewrite Nat.add_0_r.
  - simpl. apply wp_bind.
    eapply wp_mono;
      [apply (wp_stage pl k (selector_attempt selector)); [|done|]| |done|done].
    + specialize (Hpl 0%nat selector eq_refl). by rewrite Nat.add_0_r in Hpl.
    + apply try_standard_selector_ran.
    + intros [] s' Hs'. simpl in Hs'.
      replace (k + S (length rest))%nat with (S k + length rest)%nat by lia.
      apply IH; [|done]. intros i sel Hi.
      replace (S k + i)%nat with (k + S i)%nat by lia. by apply Hpl.
Qed.

Lemma names_a11y action result screenshot_path description :
  names (a11y_hit action result screenshot_path)
        {[ "strategy" := VStr "accessibility_tree"; "description" := VOptStr description ]}.
Proof. unfold names. split_and!; reflexivity. Qed.

Lemma names_vision action result screenshot_path description :
  names (vision_hit action result screenshot_path)
        {[ "strategy" := VStr "vision_location"; "text" := VOptStr description ]}.
Proof. unfold names. split_and!; reflexivity. Qed.

Lemma names_js action result screenshot_path description :
  names (js_hit action result screenshot_path)
        {[ "strategy" := VStr "javascript"; "description" := VOptStr description ]}.
Proof. unfold names. split_and!; reflexivity. Qed.

Lemma plan_selector description standard_selectors i selector :
  standard_selectors !! i = Some selector →
  plan description standard_selectors !! i = Some (selector_attempt selector).
Proof.
  intros Hi. unfold plan. apply lookup_app_l_Some. by rewrite list_lookup_fmap, Hi.
Qed.

Lemma plan_locator description standard_selectors j d :
  [ {[ "strategy" := VStr "accessibility_tree"; "description" := VOptStr description ]};
    {[ "strategy" := VStr "vision_location"; "text" := VOptStr description ]};
    ({[ "strategy" := VStr "javascript"; "description" := VOptStr description ]} : dict) ]
    !! j = Some d →
  plan description standard_selectors !! (length standard_selectors + j)%nat = Some d.
Proof.
  intros Hj. unfold plan. rewrite lookup_app_r by (rewrite length_fmap; lia).
  rewrite length_fmap. by replace (_ + j - _)%nat with j by lia.
Qed.

Lemma plan_length description standard_selectors :
  length (plan description standard_selectors) = (length standard_selectors + 3)%nat.
Proof. unfold plan. by rewrite length_app, length_fmap. Qed.

(** The chain creates its attempts in the order of the plan.  It returns
    at the first attempt that succeeds, with an outcome that names it, or
    after the whole plan, with the outcome of a failure; it raises only
    after the whole plan. *)
Lemma multi_strategy_chain_in_order page description standard_selectors action text_input
    page_index capture_screenshot optional s0 :
  let pl := plan description standard_selectors in
  wp (multi_strategy_chain drv clk page description standard_selectors action text_input
        page_index capture_screenshot optional)
     (λ _ _, False)
     (λ o s', hit_at pl s0 o s'
              ∨ (ran pl s0 s'
                 ∧ ∃ page_info debug_screenshot,
                     o = not_located optional description (trail (frame s')) page_info
                           debug_screenshot))
     (λ _ s', ran pl s0 s') s0.
Proof.
  intros pl. unfold multi_strategy_chain.
  set (n := length standard_selectors).
  assert (∀ (m : M (State W) unit) (rest : M (State W) dict) k d s Q R,
    pl !! k = Some d → ran (take k pl) s0 s →
    wp m (λ _ s', ran [d] s s') (λ o s', ran [d] s s' ∧ succeeded s' ∧ names o d)
       (λ _ _, False) s →
    (∀ s', ran (take (S k) pl) s0 s' → wp rest Q (λ o s', hit_at pl s0 o s' ∨ R o s')
                                           (λ _ s', ran pl s0 s') s') →
    wp (m ;; rest) Q (λ o s', hit_at pl s0 o s' ∨ R o s') (λ _ s', ran pl s0 s') s)
    as Hstage.
  { intros m rest k d s Q R Hk Hran Hm Hrest. apply wp_bind.
    eapply wp_mono; [by apply (wp_stage pl k d m s0 s)| |by left|done].
    intros [] s' Hs'. by apply Hrest. }
  apply wp_bind.
  eapply wp_mono;
    [apply (selectors_in_order pl _ _ _ _ s0 standard_selectors 0 s0)| |by left|done].
  { intros i selector Hi. by apply plan_selector. }
  { apply ran_nil. }
  intros [] s1 Hs1. simpl in Hs1. fold n in Hs1.
  eapply (Hstage _ _ n); [|done| |].
  { replace n with (n + 0)%nat by lia. by apply (plan_locator _ _ 0). }
  { eapply wp_mono; [by apply try_locator_ran|done| |done].
    intros o s' (? & ? & result & path & ->). split_and!; [done..|]. apply names_a11y. }
  intros s2 Hs2.
  eapply (Hstage _ _ (S n)); [|done| |].
  { replace (S n) with (n + 1)%nat by lia. by apply (plan_locator _ _ 1). }
  { eapply wp_mono; [by apply try_locator_ran|done| |done].
    intros o s' (? & ? & result & path & ->). split_and!; [done..|]. apply names_vision. }
  intros s3 Hs3.
  eapply (Hstage _ _ (S (S n))); [|done| |].
  { replace (S (S n)) with (n + 2)%nat by lia. by apply (plan_locator _ _ 2). }
  { eapply wp_mono; [by apply try_locator_ran|done| |done].
    intros o s' (? & ? & result & path & ->). split_and!; [done..|]. apply names_js. }
  intros s4 Hs4.
  rewrite take_ge in Hs4 by (unfold pl; rewrite plan_length; lia).
  unfold take_screenshot.
  assert (∀ s', frame s' = frame s4 → ran pl s0 s4 → ran pl s0 s') as Hframe.
  { intros s' Hf [Hc Ha]. split; unfold created in *; rewrite Hf; done. }
  repeat wpx_step.
  all: try (right; split; [|by eauto]).
  all: by apply Hframe.
Qed.

End Chain.

(** X1 ([playwright_multi_strategy_locate], the chain inside the outer
    [try]).  The attempt dictionaries are created in one fixed order: one
    for each selector, in list order, then the accessibility tree, the
    visible text and the script scan; [attempts] holds their addresses in
    that order.  The chain never falls through: it returns at the first
    attempt that succeeded, created last and named by the outcome, or it
    returns the outcome of a failure, or raises, after the whole plan. *)
Theorem X1_strategies_in_fixed_order {W} (drv : Driver W) (clk : Clock) page description
    standard_selectors action text_input page_index capture_screenshot optional
    (e : Ext W) :
  let pl := plan description standard_selectors in
  let r := run (multi_strategy_chain drv clk page description standard_selectors action
                  text_input page_index capture_screenshot optional) e in
  StronglySorted le (attempts (frame r.2))
  ∧ Forall (λ a, a < length (created r.2))%nat (attempts (frame r.2))
  ∧ match r.1 with
    | Ok _ => False
    | Return o =>
        (∃ k d, pl !! k = Some d ∧ created r.2 = take (S k) pl ∧ succeeded r.2
                ∧ names o d)
        ∨ (created r.2 = pl
           ∧ ∃ page_info debug_screenshot,
               o = not_located optional description (trail (frame r.2)) page_info
                     debug_screenshot)
    | Raise _ => created r.2 = pl
    end.
Proof.
  intros pl r.
  pose proof (multi_strategy_chain_in_order drv clk page description standard_selectors
                action text_input page_index capture_screenshot optional (start e)) as H.
  unfold wp in H. fold pl in H. unfold run in r. subst r.
  destruct (multi_strategy_chain _ _ _ _ _ _ _ _ _ _ (start e)) as [[o|o|x] s']; [done| |].
  - simpl. assert (∃ ds, ran ds (start e) s') as [ds [Hc (new & Ha & Hs & Hb)]].
    { destruct H as [(k & d & _ & Hr & _)|[Hr _]]; eauto. }
    simpl in Ha, Hb. rewrite Ha. split_and!; [done| |].
    + rewrite Hc, length_app. simpl. eapply Forall_impl; [done|]. intros; simpl in *; lia.
    + destruct H as [(k & d & Hk & [Hr _] & Hs' & Hn)|[[Hr _] Ho]]; [left|right].
      * exists k, d. by rewrite Hr.
      * by rewrite Hr.
  - simpl. destruct H as [Hc (new & Ha & Hs & Hb)].
    simpl in Ha, Hb. rewrite Ha. split_and!; [done| |done].
    rewrite Hc, length_app. simpl. eapply Forall_impl; [done|]. intros; simpl in *; lia.
Qed.

Section FailedScreenshot.
Context {W : Type} (drv : Driver W) (clk : Clock).

Lemma trail_app (f : Frame) (l : list nat) :
  trail {| dicts := dicts f; attempts := attempts f ++ l; called := called f |}
  = trail f ++ omap (λ a, dicts f !! a) l.
Proof. unfold trail. simpl. by rewrite omap_app. Qed.

Lemma trail_alter_new (f : Frame) (g : dict → dict) d :
  Forall (λ a, a < length (dicts f))%nat (attempts f) →
  omap (λ a, alter g (length (dicts f)) (dicts f ++ [d]) !! a) (attempts f) = trail f.
Proof.
  intros Hwf. unfold trail. induction Hwf as [|a l Ha _ IH]; [done|].
  csimpl. rewrite list_lookup_alter_ne by lia. rewrite lookup_app_l by done.
  by rewrite IH.
Qed.

End FailedScreenshot.

(** X2 ([playwright_multi_strategy_locate], one selector of the loop).
    The screenshot is taken inside the [try] of the selector: when the
    element was found and clicked but the screenshot raises, the block
    does not return.  The attempt, already appended as a success, is
    marked failed with the error of the screenshot and appended again,
    and the loop goes on with the click done. *)
Theorem X2_failed_screenshot_after_click {W} (drv : Driver W) (clk : Clock) page text_input
    selector (s : State W) h w1 w2 w3 x :
  Forall (λ a, a < length (dicts (frame s)))%nat (attempts (frame s)) →
  d_wait_for_selector drv page selector 1000 (world (ext s)) = (Gives (Some h), w1) →
  d_click drv h w1 = (Gives tt, w2) →
  d_screenshot drv page ("multi_strategy_" +:+ time_time clk (ticks (ext s)) +:+ ".png") w2
  = (Throws x, w3) →
  let r := try_standard_selector drv clk page "click" text_input true selector s in
  let failed := <["error" := VStr x]>
                  (<["result" := VStr "failed"]> (selector_attempt selector)) in
  r.1 = Ok tt
  ∧ world (ext r.2) = w3
  ∧ trail (frame r.2) = trail (frame s) ++ [failed; failed].
Proof.
  intros Hwf Hwait Hclick Hshot r failed. subst r.
  unfold try_standard_selector, perform_action, record_failure, take_screenshot.
  exec. rewrite Hwait. exec. simpl. exec. rewrite Hclick. exec. rewrite Hshot. exec.
  split_and!; [done..|].
  unfold trail. simpl. rewrite !omap_app. simpl.
  rewrite !list_alter_alter_eq.
  rewrite (trail_alter_new (frame s)) by done.
  rewrite list_lookup_alter_eq, list_lookup_middle by done. simpl.
  rewrite <- app_assoc. simpl.
  assert (<["error" := VStr x]>
            (<["result" := VStr "failed"]>
               (<["result" := VStr "success"]>
                  ({[ "strategy" := VStr "standard_selector";
                      "selector" := VStr selector ]} : dict))) = failed) as ->; [|done].
  unfold failed, selector_attempt. by rewrite insert_insert_eq.
Qed.

Lemma X2_witness :
  let r := try_standard_selector (Sim.driver (go_page true)) Sim.clock 7 "click" EmptyString
             true "#go" (start (Sim.session [7])) in
  r.1 = Ok tt ∧ world (ext r.2) = [1%nat]
  ∧ trail (frame r.2)
    = trail (frame (start (Sim.session [7])))
      ++ [ <["error" := VStr "screenshot failed"]>
             (<["result" := VStr "failed"]> (selector_attempt "#go"));
           <["error" := VStr "screenshot failed"]>
             (<["result" := VStr "failed"]> (selector_attempt "#go")) ].
Proof.
  apply (X2_failed_screenshot_after_click (Sim.driver (go_page true)) Sim.clock 7
           EmptyString "#go" (start (Sim.session [7])) 1%nat [] [1%nat] [1%nat]
           "screenshot failed").
  - constructor.
  - reflexivity.
  - reflexivity.
  - reflexivity.
Defined.

Section CodeGenFacts.
Import CodeGen.
Context {T : Type} (now : nat → T).
Implicit Types self : Tools T.

Lemma session_id_inj (j k : nat) :
  "session_" +:+ pretty j = "session_" +:+ pretty k → j = k.
Proof. intros H. simplify_eq/=. by apply (inj pretty). Qed.

Lemma next_id_fresh self : dense self → codegen_sessions self !! next_id self = None.
Proof.
  intros Hd. apply eq_None_not_Some. intros [k [Hk Hid]]%Hd.
  apply session_id_inj in Hid. lia.
Qed.

Lemma dense_start session_name lang self :
  dense self → dense (start_codegen_session now session_name lang self).2.
Proof.
  intros Hd id. simpl. rewrite map_size_insert_None by by apply next_id_fresh.
  rewrite lookup_insert_is_Some. split.
  - intros [<-|[_ [k [Hk ->]]%Hd]].
    + exists (size (codegen_sessions self) + 1)%nat. split; [lia|done].
    + exists k. split; [lia|done].
  - intros [k [Hk ->]].
    destruct (decide (k = size (codegen_sessions self) + 1)%nat) as [->|Hne].
    + by left.
    + right. split.
      * unfold next_id. intros Heq%session_id_inj. lia.
      * apply Hd. exists k. split; [lia|done].
Qed.

Lemma dense_clear id self : dense self → dense (clear_codegen_session now id self).2.
Proof.
  intros Hd. unfold clear_codegen_session.
  destruct (codegen_sessions self !! id) as [session|] eqn:Hid; [|done].
  intros id'. simpl. rewrite map_size_insert_Some by done.
  rewrite lookup_insert_is_Some. split.
  - intros [<-|[_ H]]; apply Hd; [by rewrite Hid|done].
  - intros H%Hd. destruct (decide (id = id')); [by left|by right].
Qed.

Lemma dense_get id self : dense self → dense (get_codegen_session id self).2.
Proof. unfold get_codegen_session. by destruct (_ !! id). Qed.

End CodeGenFacts.

(** X3 ([start_codegen_session], with [get_codegen_session] and
    [clear_codegen_session]).  As long as no session is ended, the ids
    given are [session_1], [session_2], ... in the order of the starts:
    after any calls but [end_codegen_session], a start adds a session
    under an id that was not in use, and every session started before is
    answered by [get_codegen_session] as it was. *)
Theorem X3_ids_fresh_until_an_end {T} (now : nat → T) (calls : list CodeGen.Call)
    session_name lang :
  Forall (λ c, ∀ id, c ≠ CodeGen.End_ id) calls →
  let self := CodeGen.after now calls CodeGen.init in
  let r := CodeGen.start_codegen_session now session_name lang self in
  CodeGen.codegen_sessions self !! CodeGen.next_id self = None
  ∧ size (CodeGen.codegen_sessions r.2) = S (size (CodeGen.codegen_sessions self))
  ∧ (CodeGen.get_codegen_session (CodeGen.next_id self) r.2).1 !! "session"
    = Some (CodeGen.CDict (CodeGen.to_dict
              (CodeGen.new_session now (CodeGen.next_id self) session_name lang
                 (CodeGen.readings self))))
  ∧ ∀ id, is_Some (CodeGen.codegen_sessions self !! id) →
          (CodeGen.get_codegen_session id r.2).1 = (CodeGen.get_codegen_session id self).1.
Proof.
  intros Hcalls self r.
  assert (CodeGen.dense self) as Hd.
  { subst self. clear r. induction calls as [|c calls IH] using rev_ind.
    - intros id. simpl. rewrite lookup_empty, map_size_empty. split.
      + by intros [? ?].
      + intros [k [Hk _]]. lia.
    - apply Forall_app in Hcalls as [Hcalls Hc]. rewrite Forall_singleton in Hc.
      unfold CodeGen.after. rewrite foldl_app. simpl.
      specialize (IH Hcalls). fold (CodeGen.after now calls (@CodeGen.init T)).
      destruct c as [n l|id|id|id]; simpl.
      + by apply dense_start.
      + by destruct (Hc id).
      + by apply dense_get.
      + by apply dense_clear. }
  pose proof (next_id_fresh self Hd) as Hfresh.
  split_and!; [done| | |].
  - subst r. unfold CodeGen.start_codegen_session. cbn [snd CodeGen.codegen_sessions].
    by rewrite map_size_insert_None by exact Hfresh.
  - subst r. unfold CodeGen.get_codegen_session, CodeGen.start_codegen_session.
    cbn [snd fst CodeGen.codegen_sessions]. rewrite lookup_insert_eq.
    reflexivity.
  - intros id [s Hs]. subst r.
    unfold CodeGen.get_codegen_session, CodeGen.start_codegen_session.
    cbn [snd fst CodeGen.codegen_sessions].
    rewrite lookup_insert_ne by (intros <-; congruence). by rewrite Hs.
Qed.

Lemma X3_witness :
  let self := CodeGen.after (λ n, n) [CodeGen.Start "login" "python"; CodeGen.Clear "session_1"]
                CodeGen.init in
  CodeGen.codegen_sessions self !! CodeGen.next_id self = None
  ∧ size (CodeGen.codegen_sessions
            (CodeGen.start_codegen_session (λ n, n) "search" "python" self).2)
    = S (size (CodeGen.codegen_sessions self)).
Proof.
  pose proof (X3_ids_fresh_until_an_end (λ n : nat, n)
                [CodeGen.Start "login" "python"; CodeGen.Clear "session_1"]
                "search" "python") as H.
  destruct H as (H1 & H2 & _).
  - repeat constructor; discriminate.
  - split; [exact H1|exact H2].
Defined.

(** X4 ([start_codegen_session] after [end_codegen_session]).  The id of a
    start is made of the number of sessions alone.  When that id is in
    use, which ending an older session brings about, the start replaces
    the session that had it: the number of sessions stays the same and
    the id answers the new session. *)
Theorem X4_id_reused_after_an_end {T} (now : nat → T) (self : CodeGen.Tools T)
    session_name lang old :
  CodeGen.codegen_sessions self !! CodeGen.next_id self = Some old →
  let r := CodeGen.start_codegen_session now session_name lang self in
  size (CodeGen.codegen_sessions r.2) = size (CodeGen.codegen_sessions self)
  ∧ CodeGen.codegen_sessions r.2 !! CodeGen.next_id self
    = Some (CodeGen.new_session now (CodeGen.next_id self) session_name lang
              (CodeGen.readings self))
  ∧ ∀ id, id ≠ CodeGen.next_id self →
          CodeGen.codegen_sessions r.2 !! id = CodeGen.codegen_sessions self !! id.
Proof.
  intros Hold r. subst r. simpl. split_and!.
  - by rewrite map_size_insert_Some.
  - by rewrite lookup_insert_eq.
  - intros id Hid. by rewrite lookup_insert_ne.
Qed.

Lemma X4_witness :
  let self := CodeGen.after (λ n : nat, n)
                [CodeGen.Start "login" "python"; CodeGen.Start "search" "python";
                 CodeGen.End_ "session_1"] CodeGen.init in
  let r := CodeGen.start_codegen_session (λ n : nat, n) "cart" "python" self in
  CodeGen.codegen_sessions self !! "session_2"
  = Some (CodeGen.new_session (λ n : nat, n) "session_2" "search" "python" 1)
  ∧ size (CodeGen.codegen_sessions r.2) = size (CodeGen.codegen_sessions self)
  ∧ CodeGen.codegen_sessions r.2 !! CodeGen.next_id self
    = Some (CodeGen.new_session (λ n : nat, n) (CodeGen.next_id self) "cart" "python"
              (CodeGen.readings self))
  ∧ ∀ id, id ≠ CodeGen.next_id self →
          CodeGen.codegen_sessions r.2 !! id = CodeGen.codegen_sessions self !! id.
Proof.
  intros self r. split; [reflexivity|].
  apply (X4_id_reused_after_an_end (λ n : nat, n) self "cart" "python"
           (CodeGen.new_session (λ n : nat, n) "session_2" "search" "python" 1)).
  reflexivity.
Defined.

(** X5 (the four tools of [CodeGenerationTools]).  Whatever calls are made,
    every session kept is filed under its own id, an id made by a start,
    and its code is empty: the only call of [CodeGenSession.update]
    passes the empty string, so no code is ever recorded. *)
Theorem X5_sessions_hold_no_code {T} (now : nat → T) (calls : list CodeGen.Call) id session :
  CodeGen.codegen_sessions (CodeGen.after now calls CodeGen.init) !! id = Some session →
  CodeGen.session_id session = id
  ∧ CodeGen.code session = EmptyString
  ∧ ∃ k, (1 ≤ k)%nat ∧ id = "session_" +:+ pretty k.
Proof.
  revert id session. induction calls as [|c calls IH] using rev_ind; intros id session.
  - simpl. by rewrite lookup_empty.
  - unfold CodeGen.after. rewrite foldl_app. simpl.
    fold (CodeGen.after now calls (@CodeGen.init T)).
    set (self := CodeGen.after now calls CodeGen.init) in *.
    destruct c as [n l|id'|id'|id']; simpl.
    + destruct (decide (id = CodeGen.next_id self)) as [->|Hne].
      * rewrite lookup_insert_eq. intros [= <-]. split_and!; [done..|].
        exists (size (CodeGen.codegen_sessions self) + 1)%nat. split; [lia|done].
      * rewrite lookup_insert_ne by done. apply IH.
    + unfold CodeGen.end_codegen_session.
      destruct (CodeGen.codegen_sessions self !! id') eqn:Hid'; simpl; [|apply IH].
      intros [_ H]%lookup_delete_Some. by apply IH.
    + unfold CodeGen.get_codegen_session.
      destruct (CodeGen.codegen_sessions self !! id') eqn:Hid'; simpl; apply IH.
    + unfold CodeGen.clear_codegen_session.
      destruct (CodeGen.codegen_sessions self !! id') as [s'|] eqn:Hid'; simpl; [|apply IH].
      destruct (decide (id = id')) as [->|Hne].
      * rewrite lookup_insert_eq. intros [= <-]. simpl.
        destruct (IH _ _ Hid') as (? & ? & ?). done.
      * rewrite lookup_insert_ne by done. apply IH.
Qed.

Lemma X5_witness :
  CodeGen.session_id (CodeGen.new_session (λ n : nat, n) "session_1" "login" "python" 0)
  = "session_1"
  ∧ CodeGen.code (CodeGen.update (λ n : nat, n)
                    (CodeGen.new_session (λ n : nat, n) "session_1" "login" "python" 0)
                    EmptyString 1) = EmptyString.
Proof.
  pose proof (X5_sessions_hold_no_code (λ n : nat, n)
                [CodeGen.Start "login" "python"; CodeGen.Clear "session_1"] "session_1"
                (CodeGen.update (λ n : nat, n)
                   (CodeGen.new_session (λ n : nat, n) "session_1" "login" "python" 0)
                   EmptyString 1) eq_refl) as (H1 & H2 & _).
  split; [reflexivity|exact H2].
Defined.

(** X6 ([end_codegen_session], [get_codegen_session],
    [clear_codegen_session]).  Ending a session answers its dictionary and
    forgets it: afterwards each of the three tools answers that the id is
    not found and changes nothing, and an id that is not found never
    costs a clock reading. *)
Theorem X6_ended_session_is_not_found {T} (now : nat → T) (self : CodeGen.Tools T) id session :
  CodeGen.codegen_sessions self !! id = Some session →
  let r := CodeGen.end_codegen_session id self in
  r.1 !! "session" = Some (CodeGen.CDict (CodeGen.to_dict session))
  ∧ size (CodeGen.codegen_sessions r.2) = pred (size (CodeGen.codegen_sessions self))
  ∧ CodeGen.end_codegen_session id r.2 = (CodeGen.not_found id, r.2)
  ∧ CodeGen.get_codegen_session id r.2 = (CodeGen.not_found id, r.2)
  ∧ CodeGen.clear_codegen_session now id r.2 = (CodeGen.not_found id, r.2)
  ∧ ∀ id', id' ≠ id →
           (CodeGen.get_codegen_session id' r.2).1 = (CodeGen.get_codegen_session id' self).1.
Proof.
  intros Hid r.
  set (s' := {| CodeGen.codegen_sessions := delete id (CodeGen.codegen_sessions self);
                CodeGen.readings := CodeGen.readings self |}).
  assert (∃ o, r = (o, s') ∧ o !! "session" = Some (CodeGen.CDict (CodeGen.to_dict session)))
    as (o & -> & Ho).
  { subst r. unfold CodeGen.end_codegen_session. rewrite Hid. by eexists. }
  assert (CodeGen.codegen_sessions s' !! id = None) as Hgone by apply lookup_delete_eq.
  cbn [fst snd]. split_and!.
  - done.
  - simpl. by rewrite map_size_delete_Some.
  - unfold CodeGen.end_codegen_session. by rewrite Hgone.
  - unfold CodeGen.get_codegen_session. by rewrite Hgone.
  - unfold CodeGen.clear_codegen_session. by rewrite Hgone.
  - intros id' Hne. unfold CodeGen.get_codegen_session. simpl.
    rewrite lookup_delete_ne by done. by destruct (_ !! id').
Qed.

Lemma X6_witness :
  let self := CodeGen.after (λ n : nat, n) [CodeGen.Start "login" "python"] CodeGen.init in
  let r := CodeGen.end_codegen_session "session_1" self in
  CodeGen.get_codegen_session "session_1" r.2 = (CodeGen.not_found "session_1", r.2).
Proof.
  intros self r.
  apply (X6_ended_session_is_not_found (λ n : nat, n) self "session_1"
           (CodeGen.new_session (λ n : nat, n) "session_1" "login" "python" 0) eq_refl).
Defined.

Section IntegrationFacts.
Context {W : Type} (drv : Driver W).

Lemma METHOD_MAP_renames_nothing method_name :
  default method_name (METHOD_MAP !! method_name) = method_name.
Proof.
  destruct (METHOD_MAP !! method_name) as [v|] eqn:H; [|done]. simpl.
  assert (map_Forall (λ k v : string, v = k) METHOD_MAP) as Hall.
  { apply map_Forall_to_list. vm_compute. repeat constructor. }
  by apply Hall in H.
Qed.


End IntegrationFacts.

(** X7 ([PlaywrightTools.dispatch_method]).  The method map renames
    nothing, so a dispatch is a call of the method of that very name, with
    what it raises turned into an error outcome: a name that is no method
    of the instance is answered [Method not found] with the session
    untouched, and nothing is ever raised to the caller. *)
Theorem X7_dispatch_is_a_guarded_call {W} (self : gmap string (@Attr W)) method_name kwargs
    (e : Ext W) :
  dispatch_method self method_name kwargs e
  = match self !! method_name with
    | Some (Method method) =>
        match method kwargs e with
        | (Gives result, e') => (Gives result, e')
        | (Throws x, e') =>
            (Gives (err ("Error in " +:+ method_name +:+ ": " +:+ x)), e')
        end
    | _ => (Gives (err ("Method not found: " +:+ method_name)), e)
    end.
Proof.
  unfold dispatch_method, fn, run. rewrite METHOD_MAP_renames_nothing.
  destruct (self !! method_name) as [[method|?]|]; [|done..].
  exec. by destruct (method kwargs e) as [[result|x] e'].
Qed.


(** With a second page whose close raises, the first page is closed and
    both stay in the collection. *)
Lemma cleanup_stuck_page :
  let r := cleanup stuck_driver (Sim.session [7; 8; 9]) in
  r.1 = Gives (err "Target closed") ∧ pages r.2 = [7; 8; 9]
  ∧ trace r.2 = [EClosePage 7; EClosePage 8].
Proof. by vm_compute. Qed.

(** X9 ([playwright_navigate] with [capture_screenshot]).  The module does
    not import [asyncio], which the name of the screenshot file reads:
    when a screenshot is asked for, a navigation that went through is
    answered as an error, with no screenshot taken. *)
Theorem X9_navigate_with_screenshot_errors {W} (drv : Driver W) (url : string)
    (wait_for_load : bool) (page_index : Z) (e : Ext W) (page : Page) (w1 w2 : W)
    (title : string) :
  page_at e page_index = Some page →
  d_goto drv page url (if wait_for_load then "load" else "domcontentloaded") 60000 (world e)
  = (Gives tt, w1) →
  d_title drv page w1 = (Gives title, w2) →
  let r := playwright_navigate drv url wait_for_load true page_index e in
  r.1 = Gives (err "name 'asyncio' is not defined")
  ∧ world r.2 = w2
  ∧ trace r.2 = trace e ++ [EGoto page url; ETitle page].
Proof.
  intros Hpage Hgoto Htitle r. subst r.
  unfold playwright_navigate, fn, run, _get_page. exec. rewrite Hpage. exec.
  rewrite Hgoto. exec. rewrite Htitle. exec.
  split_and!; [done..|]. by rewrite <- app_assoc.
Qed.

Lemma X9_witness :
  let r := playwright_navigate (Sim.driver Sim.blank) "https://example.test/" true true 0
             (Sim.session [7]) in
  r.1 = Gives (err "name 'asyncio' is not defined")
  ∧ world r.2 = []
  ∧ trace r.2 = trace (Sim.session [7]) ++ [EGoto 7 "https://example.test/"; ETitle 7].
Proof.
  apply (X9_navigate_with_screenshot_errors (Sim.driver Sim.blank) "https://example.test/"
           true 0 (Sim.session [7]) 7 [] [] "Test page"); reflexivity.
Defined.

Section Keywords.
Context {W : Type} (drv : Driver W) (clk : Clock).

Lemma head_filter_is_Some {A} (P : A → Prop) `{∀ x, Decision (P x)} (l : list A) x :
  x ∈ l → P x → is_Some (head (filter P l)).
Proof.
  intros Hx HP. assert (x ∈ filter P l) as Hin by by apply list_elem_of_filter.
  destruct (filter P l); [by apply elem_of_nil in Hin|by eexists].
Qed.

Lemma unexpected_keyword (allowed : list string) (args : dict) k :
  is_Some (args !! k) → k ∉ allowed → is_Some (unexpected allowed args).
Proof.
  intros [v Hk] Hnot. unfold unexpected. apply (head_filter_is_Some _ _ k); [|done].
  apply list_elem_of_fmap. exists (k, v). split; [done|]. by apply elem_of_map_to_list.
Qed.

Lemma bind_keywords_unexpected name required allowed args (t : Tool W) k e :
  is_Some (args !! k) → k ∉ allowed →
  ∃ msg, bind_keywords name required allowed false args t e = (Throws msg, e).
Proof.
  intros Hk Hnot. unfold bind_keywords.
  destruct (unexpected_keyword allowed args k Hk Hnot) as [k' ->]. by eexists.
Qed.

Lemma common_args_capture_screenshot page_index capture_screenshot kwargs :
  common_args page_index capture_screenshot kwargs !! "capture_screenshot"
  = Some (VBool capture_screenshot).
Proof. apply lookup_insert_eq. Qed.

End Keywords.

(** X10 ([playwright_auto_execute] with [playwright_fill],
    [playwright_select] and [playwright_js_locate]).  The dispatcher passes
    [capture_screenshot] to every tool, and these three do not take it:
    whatever the request, their call raises before the page is touched.
    So the primary attempt of a fill is always recorded as an error, and
    the field is never filled by [playwright_fill]. *)
Theorem X10_dispatcher_cannot_call_fill {W} (drv : Driver W) (clk : Clock) action target value
    page_index capture_screenshot kwargs (e : Ext W) :
  (∃ msg, fill_method drv (primary_args "playwright_fill" action target value page_index
                             capture_screenshot kwargs) e = (Throws msg, e))
  ∧ (∃ msg, select_method drv (primary_args "playwright_select" action target value
                                 page_index capture_screenshot kwargs) e = (Throws msg, e))
  ∧ (∃ msg, js_locate_method drv (fallback_args "playwright_js_locate" action target value
                                    page_index capture_screenshot kwargs) e = (Throws msg, e))
  ∧ ∃ msg s, try_primary (PlaywrightTools drv clk) action target value page_index
               capture_screenshot kwargs "playwright_fill" (start e) = (Ok tt, s)
             ∧ ext s = e
             ∧ trail (frame s) = [error_attempt "playwright_fill" target msg].
Proof.
  assert (∃ msg, fill_method drv (primary_args "playwright_fill" action target value
                    page_index capture_screenshot kwargs) e = (Throws msg, e)) as Hfill.
  { apply (bind_keywords_unexpected _ _ _ _ _ "capture_screenshot").
    - unfold primary_args. simpl. rewrite !lookup_insert_ne by done.
      rewrite common_args_capture_screenshot. by eexists.
    - set_solver. }
  split_and!.
  - done.
  - apply (bind_keywords_unexpected _ _ _ _ _ "capture_screenshot").
    + unfold primary_args. simpl. rewrite !lookup_insert_ne by done.
      rewrite common_args_capture_screenshot. by eexists.
    + set_solver.
  - apply (bind_keywords_unexpected _ _ _ _ _ "capture_screenshot").
    + unfold fallback_args, locate_args. simpl. rewrite !lookup_insert_ne by done.
      rewrite common_args_capture_screenshot. by eexists.
    + set_solver.
  - destruct Hfill as [msg Hfill]. exists msg.
    unfold try_primary. exec.
    assert (PlaywrightTools drv clk !! "playwright_fill" = Some (Method (fill_method drv)))
      as -> by reflexivity.
    unfold call_method, record_result. exec. rewrite Hfill. exec.
    eexists. split; [reflexivity|]. split; [done|]. reflexivity.
Qed.

Section PageToolFacts.
Context {W : Type} (drv : Driver W) (pd : PageDriver W) (clk : Clock).

Lemma run_perform {A} (op : W → Answer A * W) (s : State W) :
  perform op s = match op (world (ext s)) with
                 | (Gives a, w) => (Ok a, with_world (λ _, w) s)
                 | (Throws x, w) => (Raise x, with_world (λ _, w) s)
                 end.
Proof. unfold perform. by destruct (op _) as [[?|?] ?]. Qed.

Lemma ends_with_refl s : ends_with s s = true.
Proof. destruct s; cbn [ends_with]; by rewrite String.eqb_refl. Qed.

Lemma ends_with_app s suffix : ends_with (s +:+ suffix) suffix = true.
Proof.
  induction s as [|c s IH].
  - apply ends_with_refl.
  - change (String c s +:+ suffix) with (String c (s +:+ suffix)).
    cbn [ends_with]. rewrite IH. by destruct (String.eqb _ _).
Qed.

Lemma with_extension_ends ext name : ends_with (with_extension ext name) ext = true.
Proof.
  unfold with_extension. destruct (ends_with name ext) eqn:H; [done|apply ends_with_app].
Qed.

Lemma with_extension_idemp ext name :
  with_extension ext (with_extension ext name) = with_extension ext name.
Proof. unfold with_extension at 1. by rewrite with_extension_ends. Qed.

Lemma ends_with_iff s suffix : ends_with s suffix = true ↔ ∃ p, s = p +:+ suffix.
Proof.
  split.
  - induction s as [|c s IH]; cbn [ends_with].
    + destruct (String.eqb _ _) eqn:H; [|done]. apply String.eqb_eq in H as <-.
      by exists EmptyString.
    + destruct (String.eqb _ _) eqn:H.
      * apply String.eqb_eq in H as <-. by exists EmptyString.
      * intros [p ->]%IH. by exists (String c p).
  - intros [p ->]. apply ends_with_app.
Qed.

Lemma wp_perform {A} (op : W → Answer A * W) (Q : A → State W → Prop) R E (s : State W) :
  match op (world (ext s)) with
  | (Gives a, w) => Q a (with_world (λ _, w) s)
  | (Throws x, w) => E x (with_world (λ _, w) s)
  end →
  wp (perform op) Q R E s.
Proof. unfold wp. rewrite run_perform. by destruct (op _) as [[?|?] ?]. Qed.

End PageToolFacts.

Ltac page_step :=
  lazymatch goal with
  | |- wp (perform ?op) _ _ _ ?s =>
      apply wp_perform; destruct (op (world (ext s))) as [[?|?] ?]
  | _ => wp_step
  end.

(** X11 ([playwright_click]).  The screenshot is taken inside the [try]
    of the click: when the click went through but the screenshot raises,
    and fallbacks are on, the element is looked up and clicked again by
    script, and the outcome is that of the fallback. *)
Theorem X11_click_repeated_after_failed_screenshot {W} (drv : Driver W) (pd : PageDriver W)
    (clk : Clock) (selector : string) (page_index : Z) (e : Ext W) (page : Page)
    (w1 w2 w3 : W) (x : Exn) (element : Handle) :
  page_at e page_index = Some page →
  d_page_click drv page selector (world e) = (Gives tt, w1) →
  d_screenshot drv page ("click_" +:+ time_time clk (ticks e) +:+ ".png") w1 = (Throws x, w2) →
  d_page_query_selector pd page selector w2 = (Gives (Some element), w3) →
  let r := playwright_click drv pd clk selector page_index true true e in
  (∃ rest, trace r.2
           = trace e ++ [ EPageClick page selector;
                          EScreenshot page ("click_" +:+ time_time clk (ticks e) +:+ ".png");
                          EEvaluate page "(element) => element.click()" ] ++ rest)
  ∧ ∃ o, r.1 = Gives o
         ∧ (get o "fallback_used" = VBool true
            ∨ ∃ y, o = err ("Click failed: " +:+ x +:+ ". Fallback error: " +:+ y)).
Proof.
  intros Hpage Hclick Hshot Hquery r. subst r.
  unfold playwright_click, fn, run, _get_page, take_screenshot. exec.
  rewrite Hpage. exec. rewrite Hclick. exec. rewrite Hshot. exec. simpl. exec.
  rewrite run_perform. cbn [world ext with_world after_call after_tick].
  rewrite Hquery. exec.
  destruct (d_evaluate_click pd page element w3) as [[[]|y] w4]; exec.
  - destruct (d_screenshot drv page _ w4) as [[[]|y] w5]; exec.
    + split.
      * exists [EScreenshot page ("click_fallback_" +:+ time_time clk (S (ticks e)) +:+ ".png")].
        cbn. by rewrite <- !app_assoc.
      * eexists. split; [reflexivity|]. by left.
    + split.
      * exists [EScreenshot page ("click_fallback_" +:+ time_time clk (S (ticks e)) +:+ ".png")].
        cbn. by rewrite <- !app_assoc.
      * eexists. split; [reflexivity|]. right. by exists y.
  - split.
    + exists []. cbn. by rewrite <- !app_assoc.
    + eexists. split; [reflexivity|]. right. by exists y.
Qed.

Lemma X11_witness :
  let r := playwright_click (Sim.driver (go_page true)) (sim_page_driver (go_page true))
             Sim.clock "#go" 0 true true (Sim.session [7]) in
  (∃ rest, trace r.2
           = [] ++ [ EPageClick 7 "#go"; EScreenshot 7 "click_1700000000.png";
                     EEvaluate 7 "(element) => element.click()" ] ++ rest)
  ∧ ∃ o, r.1 = Gives o
         ∧ (get o "fallback_used" = VBool true
            ∨ ∃ y, o = err ("Click failed: " +:+ "screenshot failed"
                            +:+ ". Fallback error: " +:+ y)).
Proof.
  apply (X11_click_repeated_after_failed_screenshot (Sim.driver (go_page true))
           (sim_page_driver (go_page true)) Sim.clock "#go" 0 (Sim.session [7]) 7
           [1%nat] [1%nat] [1%nat] "screenshot failed" 1%nat); reflexivity.
Defined.

(** X12 ([playwright_click] with [fallback] off).  The page is clicked at
    most once and never by script: the session sees the click and at most
    the screenshot after it. *)
Theorem X12_click_without_fallback {W} (drv : Driver W) (pd : PageDriver W) (clk : Clock)
    (selector : string) (page_index : Z) (capture_screenshot : bool) (e : Ext W) :
  let r := playwright_click drv pd clk selector page_index capture_screenshot false e in
  (∃ o, r.1 = Gives o)
  ∧ (trace r.2 = trace e
     ∨ (∃ page, trace r.2 = trace e ++ [EPageClick page selector])
     ∨ (∃ page path, capture_screenshot = true
                     ∧ trace r.2 = trace e ++ [EPageClick page selector;
                                               EScreenshot page path])).
Proof.
  intros r. subst r.
  unfold playwright_click, fn, run, _get_page, take_screenshot. exec.
  destruct (page_at e page_index) as [page|]; exec; [|by eauto].
  destruct (d_page_click drv page selector (world e)) as [[[]|x] w1]; exec; simpl; exec.
  - destruct capture_screenshot; exec.
    + destruct (d_screenshot drv page _ w1) as [[[]|y] w2]; exec; simpl; exec.
      all: split; [by eauto|]; right; right; eexists _, _; split; [done|];
        cbn; by rewrite <- app_assoc.
    + split; [by eauto|]. right. left. by eexists.
  - split; [by eauto|]. right. left. by eexists.
Qed.


(** X14 ([playwright_save_as_pdf]).  A page that is answered as saved is
    saved under the name given, with [.pdf] appended unless the name ends
    in it already: the name answered ends in [.pdf], and saving under the
    name answered keeps that name. *)
Theorem X14_pdf_saved_as_pdf {W} (pd : PageDriver W) (filename : string) (page_index : Z)
    (e : Ext W) o e' :
  playwright_save_as_pdf pd filename page_index e = (Gives o, e') →
  get o "status" = VStr "success" →
  ∃ name, o !! "filename" = Some (VStr name)
          ∧ name = with_extension ".pdf" filename
          ∧ ends_with name ".pdf" = true
          ∧ with_extension ".pdf" name = name.
Proof.
  unfold playwright_save_as_pdf, fn, run, _get_page. exec.
  destruct (page_at e page_index) as [page|]; exec; [|by intros [= <- <-]].
  rewrite run_perform.
  destruct (d_pdf pd page _ _) as [[[]|x] w1]; exec; [|by intros [= <- <-]].
  intros [= <- <-] _. exists (with_extension ".pdf" filename).
  split_and!; [done..| |].
  - apply with_extension_ends.
  - apply with_extension_idemp.
Qed.

Lemma X14_witness :
  let r := playwright_save_as_pdf (sim_page_driver Sim.blank) "report" 0 (Sim.session [7]) in
  ∃ name, outcome_of r !! "filename" = Some (VStr name)
          ∧ name = with_extension ".pdf" "report"
          ∧ ends_with name ".pdf" = true
          ∧ with_extension ".pdf" name = name.
Proof.
  intros r.
  apply (X14_pdf_saved_as_pdf (sim_page_driver Sim.blank) "report" 0 (Sim.session [7])
           (outcome_of r) r.2).
  - by vm_compute.
  - by vm_compute.
Defined.

(** X15 ([playwright_evaluate], the script sent to the page).  Wrapping is
    done at most once: the script that is sent is sent unchanged when it
    is given again.  A script is wrapped only when it has a [return] and
    neither an arrow nor the word [function] in it. *)
Theorem X15_script_wrapped_once (script : string) :
  evaluate_script (evaluate_script script) = evaluate_script script
  ∧ (evaluate_script script = script
     ∨ (evaluate_script script = "() => { " +:+ script +:+ " }"
        ∧ Str.contains script "return " = true
        ∧ Str.contains script "() =>" = false
        ∧ Str.contains script "function" = false)).
Proof.
  unfold evaluate_script.
  destruct (Str.contains script "return ") eqn:H1;
    destruct (Str.contains script "() =>") eqn:H2;
    destruct (Str.contains script "function") eqn:H3; cbn [andb orb negb].
  all: rewrite ?H1, ?H2, ?H3; cbn [andb orb negb].
  all: try (split; [done|by left]).
  split; [|by right].
  assert (Str.contains ("() => { " +:+ script +:+ " }") "() =>" = true) as -> by done.
  by rewrite andb_false_r.
Qed.

Section AssertionFacts.
Context {W : Type} (drv : Driver W) (pd : PageDriver W) (clk : Clock).

Lemma length_app_star s : String.length (s +:+ "*") = S (String.length s).
Proof. induction s as [|c s IH]; [done|]. simpl. by rewrite IH. Qed.

Lemma take_app_star s : Str.take (String.length s) (s +:+ "*") = s.
Proof. induction s as [|c s IH]; [done|]. simpl. by rewrite IH. Qed.

Lemma middle_stars sub : middle ("*" +:+ sub +:+ "*") = sub.
Proof.
  change ("*" +:+ sub +:+ "*") with (String "*" (sub +:+ "*")). unfold middle.
  rewrite length_app_star. simpl. rewrite Nat.sub_0_r. apply take_app_star.
Qed.

Lemma ends_with_star sub : ends_with ("*" +:+ sub +:+ "*") "*" = true.
Proof.
  change ("*" +:+ sub +:+ "*") with (("*" +:+ sub) +:+ "*").
  apply (proj2 (ends_with_iff _ _)). exists ("*" +:+ sub).
  clear. by induction sub.
Qed.

Lemma check_state_text (v : Expected) (actual_state : ActualState) :
  check_state {[ "text" := v ]} actual_state
  = check_text {[ "text" := v ]} (as_text actual_state).
Proof.
  unfold check_state, check_scalar, check_items.
  rewrite !lookup_singleton_ne by done.
  destruct (check_text _ _) as [l|x]; [|done]. simpl. by rewrite !app_nil_r.
Qed.

Lemma check_text_wildcard sub t :
  check_text {[ "text" := EScalar (SStr ("*" +:+ sub +:+ "*")) ]} (Some t)
  = Gives (if negb (Str.contains t sub)
           then [ {| assertion := "text_contains"; expected := EScalar (SStr sub);
                     actual := SStr t |} ]
           else []).
Proof.
  unfold check_text. rewrite lookup_singleton_eq.
  rewrite ends_with_star, middle_stars.
  by change (Str.starts_with "*" ("*" +:+ sub +:+ "*")) with true.
Qed.

Lemma mismatches_nil (prefix : string) (actual_items : gmap string string)
    (items : list (string * Scalar)) : ∀ failures,
  foldl (λ failures '(item_name, expected_value),
           let actual_value := opt_scalar (actual_items !! item_name) in
           if negb (py_eq expected_value actual_value)
           then failures ++ [ {| assertion := prefix +:+ item_name;
                                 expected := EScalar expected_value;
                                 actual := actual_value |} ]
           else failures)
        failures items = []
  ↔ failures = []
    ∧ Forall (λ item, py_eq item.2 (opt_scalar (actual_items !! item.1)) = true) items.
Proof.
  induction items as [|[k v] items IH]; intros failures; simpl.
  - split; [by intros ->|by intros [-> _]].
  - rewrite IH, Forall_cons. simpl.
    destruct (py_eq v (opt_scalar (actual_items !! k))); simpl.
    + naive_solver.
    + split; [|naive_solver]. intros [H _]. by destruct failures.
Qed.

Lemma check_state_attributes items (actual_state : ActualState) :
  check_state {[ "attributes" := EDict items ]} actual_state
  = check_items "attributes" "attribute_" {[ "attributes" := EDict items ]}
      (as_attributes actual_state).
Proof.
  unfold check_state, check_scalar, check_text.
  rewrite !lookup_singleton_ne by done. simpl.
  destruct (check_items "attributes" _ _ _) as [l|x]; [|done]. simpl.
  unfold check_items at 1. rewrite lookup_singleton_ne by done. simpl.
  by rewrite app_nil_r.
Qed.

End AssertionFacts.

(** X16 ([playwright_assert_element_state], the check of [text]).  An
    expected text between two stars asserts that the text of the element
    contains what is between them; a lone star, which has nothing between
    its two ends, is met by every text.  The state of the element is
    taken by the driver; the element has a text. *)
Theorem X16_text_between_stars_is_contained {W} (drv : Driver W) (pd : PageDriver W)
    (clk : Clock) (selector sub : string) (page_index : Z) (e : Ext W) (page : Page)
    (element : Handle) (w1 w2 : W) (actual_state : ActualState) (t : string) :
  page_at e page_index = Some page →
  d_page_query_selector pd page selector (world e) = (Gives (Some element), w1) →
  d_element_state pd page element w1 = (Gives actual_state, w2) →
  as_text actual_state = Some t →
  (get (outcome_of (playwright_assert_element_state drv pd clk selector
                      {[ "text" := EScalar (SStr ("*" +:+ sub +:+ "*")) ]} page_index e))
       "status" = VStr "success"
   ↔ Str.contains t sub = true)
  ∧ get (outcome_of (playwright_assert_element_state drv pd clk selector
                       {[ "text" := EScalar (SStr "*") ]} page_index e)) "status"
    = VStr "success".
Proof.
  intros Hpage Hquery Hstate Htext.
  unfold playwright_assert_element_state, fn, run, _get_page, outcome_of, take_screenshot.
  split.
  - exec. rewrite Hpage. exec. rewrite run_perform. cbn [start ext world].
    rewrite Hquery. exec. rewrite run_perform. cbn [with_world ext world].
    rewrite Hstate. exec.
    rewrite check_state_text, Htext, check_text_wildcard.
    destruct (Str.contains t sub); simpl; exec; [done|].
    by destruct (d_screenshot drv page _ w2) as [[[]|x] w3]; exec.

  - exec. rewrite Hpage. exec. rewrite run_perform. cbn [start ext world].
    rewrite Hquery. exec. rewrite run_perform. cbn [with_world ext world].
    rewrite Hstate. exec.
    rewrite check_state_text, Htext. unfold check_text. rewrite lookup_singleton_eq.
    simpl. by destruct t.
Qed.

Lemma X16_witness :
  (get (outcome_of (playwright_assert_element_state (Sim.driver heading_page)
                      (sim_page_driver heading_page) Sim.clock "h1"
                      {[ "text" := EScalar (SStr ("*" +:+ "come" +:+ "*")) ]} 0
                      (Sim.session [7])))
       "status" = VStr "success"
   ↔ Str.contains "Welcome back" "come" = true)
  ∧ get (outcome_of (playwright_assert_element_state (Sim.driver heading_page)
                       (sim_page_driver heading_page) Sim.clock "h1"
                       {[ "text" := EScalar (SStr "*") ]} 0 (Sim.session [7]))) "status"
    = VStr "success".
Proof.
  apply (X16_text_between_stars_is_contained (Sim.driver heading_page)
           (sim_page_driver heading_page) Sim.clock "h1" "come" 0 (Sim.session [7]) 7
           1%nat [] []
           {| as_visible := true; as_text := Some "Welcome back"; as_value := SNone;
              as_disabled := SBool false; as_checked := SNone;
              as_attributes := {[ "class" := "hero" ]}; as_cssProperties := ∅ |}
           "Welcome back"); reflexivity.
Defined.

(** X17 ([playwright_assert_element_state], the check of [attributes]).
    Expected attributes are met exactly when each of them equals the
    attribute of the element, an attribute the element lacks counting as
    [None]; so expecting [None] asserts that the attribute is absent.
    The outcome is then a success, and it is no success otherwise. *)
Theorem X17_attributes_met_one_by_one {W} (drv : Driver W) (pd : PageDriver W)
    (clk : Clock) (selector : string) (items : list (string * Scalar)) (page_index : Z)
    (e : Ext W) (page : Page) (element : Handle) (w1 w2 : W) (actual_state : ActualState) :
  page_at e page_index = Some page →
  d_page_query_selector pd page selector (world e) = (Gives (Some element), w1) →
  d_element_state pd page element w1 = (Gives actual_state, w2) →
  get (outcome_of (playwright_assert_element_state drv pd clk selector
                     {[ "attributes" := EDict items ]} page_index e)) "status"
  = VStr "success"
  ↔ Forall (λ item, py_eq item.2 (opt_scalar (as_attributes actual_state !! item.1)) = true)
           items.
Proof.
  intros Hpage Hquery Hstate.
  unfold playwright_assert_element_state, fn, run, _get_page, outcome_of, take_screenshot.
  exec. rewrite Hpage. exec. rewrite run_perform. cbn [start ext world].
  rewrite Hquery. exec. rewrite run_perform. cbn [with_world ext world].
  rewrite Hstate. exec.
  rewrite check_state_attributes. unfold check_items. rewrite lookup_singleton_eq.
  destruct (foldl _ _ items) as [|f failures] eqn:Hf; simpl; exec.
  - split; [|done]. intros _.
    by apply (mismatches_nil "attribute_" (as_attributes actual_state) items []) in Hf as [_ ?].
  - assert (¬ Forall (λ item, py_eq item.2 (opt_scalar (as_attributes actual_state !! item.1))
                              = true) items) as Hnot.
    { intros H.
      pose proof (proj2 (mismatches_nil "attribute_" (as_attributes actual_state) items [])
                    (conj eq_refl H)) as Hnil.
      discriminate (eq_trans (eq_sym Hf) Hnil). }
    destruct (d_screenshot drv page _ w2) as [[[]|x] w3]; exec; by split.
Qed.

Lemma X17_witness :
  get (outcome_of (playwright_assert_element_state (Sim.driver heading_page)
                     (sim_page_driver heading_page) Sim.clock "h1"
                     {[ "attributes" := EDict [("class", SStr "hero"); ("hidden", SNone)] ]}
                     0 (Sim.session [7]))) "status"
  = VStr "success"
  ↔ Forall (λ item, py_eq item.2
                      (opt_scalar (({[ "class" := "hero" ]} : gmap string string) !! item.1))
                    = true)
           [("class", SStr "hero"); ("hidden", SNone)].
Proof.
  exact (X17_attributes_met_one_by_one (Sim.driver heading_page)
           (sim_page_driver heading_page) Sim.clock "h1"
           [("class", SStr "hero"); ("hidden", SNone)] 0 (Sim.session [7]) 7
           1%nat [] []
           {| as_visible := true; as_text := Some "Welcome back"; as_value := SNone;
              as_disabled := SBool false; as_checked := SNone;
              as_attributes := {[ "class" := "hero" ]}; as_cssProperties := ∅ |}
           eq_refl eq_refl eq_refl).
Defined.

Lemma vision_locator_other_action {W} (drv : Driver W) (text : option string)
    (exact : bool) (action text_input : string) (page_index : Z) (e : Ext W) (page : Page)
    (element : Handle) (w1 : W) :
  let selector := if exact then "text='" +:+ fmt text +:+ "'"
                  else "text='" +:+ fmt text +:+ "' >> visible=true" in
  page_at e page_index = Some page →
  action ≠ "find" → action ≠ "click" → action ≠ "fill" →
  d_wait_for_selector drv page selector 2000 (world e) = (Gives (Some element), w1) →
  playwright_vision_locator drv text exact action text_input page_index e
  = (Gives {[ "status" := VStr "success";
              "message" := VStr ("Successfully performed " +:+ action
                                 +:+ " on element with text: " +:+ fmt text);
              "element_found" := VBool true ]},
     {| world := w1; pages := pages e; ticks := ticks e;
        trace := trace e ++ [EWaitForSelector page selector 2000] |}).
Proof.
  intros selector Hpage Hfind Hclick Hfill Hwait.
  unfold playwright_vision_locator, vision_locator_body, fn, run, _get_page. exec.
  rewrite Hpage. exec. fold selector. rewrite Hwait. exec.
  apply String.eqb_neq in Hfind, Hclick, Hfill. rewrite Hfind, Hclick, Hfill. by exec.
Qed.

(** X18 ([playwright_vision_locator]).  Only [click] and [fill] are acted
    on.  For any other action but [find], [hover] and [select] among them,
    an element that is found is answered as acted on although the element
    is left alone: the session sees the wait for the selector and nothing
    else. *)
Theorem X18_vision_reports_actions_not_done {W} (drv : Driver W) (text : option string)
    (exact : bool) (action text_input : string) (page_index : Z) (e : Ext W) (page : Page)
    (element : Handle) (w1 : W) :
  let selector := if exact then "text='" +:+ fmt text +:+ "'"
                  else "text='" +:+ fmt text +:+ "' >> visible=true" in
  page_at e page_index = Some page →
  action ≠ "find" → action ≠ "click" → action ≠ "fill" →
  d_wait_for_selector drv page selector 2000 (world e) = (Gives (Some element), w1) →
  playwright_vision_locator drv text exact action text_input page_index e
  = (Gives {[ "status" := VStr "success";
              "message" := VStr ("Successfully performed " +:+ action
                                 +:+ " on element with text: " +:+ fmt text);
              "element_found" := VBool true ]},
     {| world := w1; pages := pages e; ticks := ticks e;
        trace := trace e ++ [EWaitForSelector page selector 2000] |}).
Proof. apply vision_locator_other_action. Qed.

Lemma X18_witness :
  playwright_vision_locator (Sim.driver menu_page) (Some "Menu") false "hover" EmptyString 0
    (Sim.session [7])
  = (Gives {[ "status" := VStr "success";
              "message" := VStr ("Successfully performed " +:+ "hover"
                                 +:+ " on element with text: " +:+ fmt (Some "Menu"));
              "element_found" := VBool true ]},
     {| world := []; pages := [7]; ticks := 0;
        trace := [] ++ [EWaitForSelector 7 "text='Menu' >> visible=true" 2000] |}).
Proof.
  apply (X18_vision_reports_actions_not_done (Sim.driver menu_page) (Some "Menu") false
           "hover" EmptyString 0 (Sim.session [7]) 7 5%nat []); done.
Defined.

Section A11yFacts.
Context {W : Type} (drv : Driver W).

Lemma a11y_find_element_role page top_node (s : State W) :
  wp (a11y_find_element drv page top_node)
     (λ element _, is_Some element →
                   nm_role top_node = Some "button" ∨ nm_role top_node = Some "link")
     (λ _ _, False) (λ _ _, False) s.
Proof.
  unfold a11y_find_element.
  destruct (bool_decide (nm_role top_node = Some "button")) eqn:Hb.
  - apply bool_decide_eq_true in Hb. simpl. repeat wp_step; by left.
  - destruct (bool_decide (nm_role top_node = Some "link")) eqn:Hl; simpl.
    + apply bool_decide_eq_true in Hl. repeat wp_step; by right.
    + apply wp_ret. by intros [? ?].
Qed.

End A11yFacts.

(** X19 ([playwright_accessibility_locator]).  The locator acts for
    [click], [fill] and [select] only, and only on a node whose role is
    [button] or [link]: whenever it answers that an element was found,
    the action is one of the three and the node reported has one of the
    two roles.  So a text box is never filled and nothing is ever hovered
    through the accessibility tree. *)
Theorem X19_a11y_acts_on_buttons_and_links {W} (drv : Driver W) (description : option string)
    (action text_input : string) (page_index : Z) (e : Ext W) o e' :
  playwright_accessibility_locator drv description action text_input page_index e
  = (Gives o, e') →
  get o "element_found" = VBool true →
  action ∈ ["click"; "fill"; "select"]
  ∧ ∃ top_node, get o "element_details" = VDict (node_dict top_node)
                ∧ (nm_role top_node = Some "button" ∨ nm_role top_node = Some "link").
Proof.
  intros Hrun. revert o e' Hrun.
  apply (fn_post _ (λ o _, get o "element_found" = VBool true → _ ∧ _)).
  unfold accessibility_locator_body, a11y_find_element, _get_page.
  repeat wp_step.
  all: try (intros H; by vm_compute in H).
  all: intros _; split; [by eapply bool_decide_eq_true_1|].
  all: eexists; split; [reflexivity|].
  all: match goal with
       | H : (bool_decide _ || bool_decide _) = true |- _ =>
           apply orb_true_iff in H as [H|H]; apply bool_decide_eq_true in H;
             [by left|by right]
       end.
Qed.

Lemma X19_witness :
  let r := playwright_accessibility_locator (Sim.driver menu_page) (Some "submit") "click"
             EmptyString 0 (Sim.session [7]) in
  "click" ∈ ["click"; "fill"; "select"]
  ∧ ∃ top_node, get (outcome_of r) "element_details" = VDict (node_dict top_node)
                ∧ (nm_role top_node = Some "button" ∨ nm_role top_node = Some "link").
Proof.
  intros r.
  apply (X19_a11y_acts_on_buttons_and_links (Sim.driver menu_page) (Some "submit") "click"
           EmptyString 0 (Sim.session [7]) (outcome_of r) r.2).
  - by vm_compute.
  - by vm_compute.
Defined.

Section HoverByText.
Context {W : Type} (drv : Driver W) (clk : Clock).

Lemma a11y_other_action description (action text_input : string) (page_index : Z)
    (e : Ext W) page tree w :
  page_at e page_index = Some page →
  action ≠ "find" → action ∉ ["click"; "fill"; "select"] →
  d_snapshot drv page (world e) = (Gives tree, w) →
  ∃ o, playwright_accessibility_locator drv description action text_input page_index e
       = (Gives o, {| world := w; pages := pages e; ticks := ticks e;
                      trace := trace e ++ [ESnapshot page] |})
       ∧ is_str (get o "status") "success" = false.
Proof.
  intros Hpage Hfind Haction Hsnap.
  unfold playwright_accessibility_locator, accessibility_locator_body, fn, run, _get_page.
  exec. rewrite Hpage. exec. rewrite Hsnap. exec.
  apply String.eqb_neq in Hfind.
  assert (bool_decide (action ∈ ["click"; "fill"; "select"]) = false) as Hno
    by by apply bool_decide_eq_false.
  destruct tree as [root|]; exec.
  - unfold answer. destruct (search_nodes description root []) as [matching_nodes|x]; exec.
    + rewrite Hfind. destruct (sort_desc nm_relevance matching_nodes); exec.
      * by eexists.
      * rewrite Hno. exec. by eexists.
    + by eexists.
  - rewrite Hfind. simpl. exec. by eexists.
Qed.

End HoverByText.

Section ChainSteps.
Context {W : Type} (drv : Driver W) (clk : Clock).

Lemma try_standard_selector_timeout page action text_input capture_screenshot selector
    (s : State W) x w :
  d_wait_for_selector drv page selector 1000 (world (ext s)) = (Throws x, w) →
  ∃ s', try_standard_selector drv clk page action text_input capture_screenshot selector s
        = (Ok tt, s')
        ∧ ext s' = {| world := w; pages := pages (ext s); ticks := ticks (ext s);
                      trace := trace (ext s) ++ [EWaitForSelector page selector 1000] |}.
Proof.
  intros Hwait. unfold try_standard_selector, record_failure. exec. rewrite Hwait. exec.
  by eexists.
Qed.

Lemma selectors_all_timeout page action text_input capture_screenshot x standard_selectors :
  (∀ selector w, selector ∈ standard_selectors →
                 d_wait_for_selector drv page selector 1000 w = (Throws x, w)) →
  ∀ s : State W,
    ∃ s', for_each standard_selectors
            (try_standard_selector drv clk page action text_input capture_screenshot) s
          = (Ok tt, s')
          ∧ ext s' = {| world := world (ext s); pages := pages (ext s);
                        ticks := ticks (ext s);
                        trace := trace (ext s)
                                 ++ ((λ selector, EWaitForSelector page selector 1000)
                                       <$> standard_selectors) |}.
Proof.
  induction standard_selectors as [|selector rest IH]; intros Hnone s.
  - exists s. split; [done|]. simpl. rewrite app_nil_r. by destruct s as [[] ?].
  - destruct (try_standard_selector_timeout page action text_input capture_screenshot
                selector s x _ (Hnone selector (world (ext s)) ltac:(left)))
      as (s1 & Hs1 & He1).
    destruct (IH (λ sel w Hin, Hnone sel w ltac:(by right)) s1) as (s2 & Hs2 & He2).
    exists s2. split.
    + cbn [for_each]. rewrite run_bind, Hs1. exact Hs2.
    + rewrite He2, He1. cbn. by rewrite <- app_assoc.
Qed.

Lemma try_locator_miss page capture_screenshot attempt0 (tool : Tool W) miss found
    (s : State W) o e1 :
  tool (ext s) = (Gives o, e1) →
  is_str (get o "status") "success" && truthy (get o "element_found") = false →
  ∃ s', try_locator drv clk page capture_screenshot attempt0 tool miss found s = (Ok tt, s')
        ∧ ext s' = e1.
Proof.
  intros Htool Hmiss. unfold try_locator. exec. rewrite Htool. exec. rewrite Hmiss. exec.
  by eexists.
Qed.

Lemma try_locator_hit page attempt0 (tool : Tool W) miss found (s : State W) o e1 :
  tool (ext s) = (Gives o, e1) →
  is_str (get o "status") "success" && truthy (get o "element_found") = true →
  ∃ s', try_locator drv clk page false attempt0 tool miss found s
        = (Return (found o None), s')
        ∧ ext s' = e1.
Proof.
  intros Htool Hhit. unfold try_locator, take_screenshot. exec. rewrite Htool. exec.
  rewrite Hhit. exec. by eexists.
Qed.

End ChainSteps.

(** X20 ([playwright_multi_strategy_locate] with the action [hover]).  When
    no selector resolves, the accessibility strategy, which does not
    know [hover], fails, and the visible-text strategy, which acts on
    [click] and [fill] only, finds the text: the outcome is a success
    that reports [hover] as performed by the vision locator, while the
    page was only read and nothing was hovered. *)
Theorem X20_hover_by_text_is_reported_not_done {W} (drv : Driver W) (clk : Clock)
    (description text_input : string) (page_index : Z) (optional : bool) (e : Ext W)
    (page : Page) (x : Exn) (tree : option A11yNode) (element : Handle) :
  Str.truthy description = true →
  page_at e page_index = Some page →
  (∀ selector w, selector ∈ template_selectors description →
                 d_wait_for_selector drv page selector 1000 w = (Throws x, w)) →
  (∀ w, d_snapshot drv page w = (Gives tree, w)) →
  (∀ w, d_wait_for_selector drv page ("text='" +:+ description +:+ "' >> visible=true")
          2000 w = (Gives (Some element), w)) →
  let r := playwright_multi_strategy_locate drv clk (Some description) None "hover"
             text_input page_index false optional e in
  (∃ o, r.1 = Gives o
        ∧ get o "status" = VStr "success"
        ∧ get o "strategy_used" = VStr "vision_locator"
        ∧ get o "action_performed" = VStr "hover")
  ∧ world r.2 = world e
  ∧ trace r.2
    = trace e
      ++ ((λ selector, EWaitForSelector page selector 1000) <$> template_selectors description)
      ++ [ ESnapshot page;
           EWaitForSelector page ("text='" +:+ description +:+ "' >> visible=true") 2000 ].
Proof.
  intros Htruthy Hpage Hnone Hsnap Htext r. subst r.
  unfold playwright_multi_strategy_locate, fn, run, multi_strategy_body, _get_page.
  exec. rewrite Hpage. exec.
  change (opt_truthy (Some description)) with (Str.truthy description).
  rewrite Htruthy. exec. unfold multi_strategy_chain.
  destruct (selectors_all_timeout drv clk page "hover" text_input false x
              (template_selectors description) Hnone (start e)) as (s1 & Hs1 & He1).
  rewrite run_bind.
  change (default EmptyString (Some description)) with description. rewrite Hs1.
  assert (page_at (ext s1) page_index = Some page) as Hpage1 by by rewrite He1.
  destruct (a11y_other_action drv (Some description) "hover" text_input page_index (ext s1)
              page tree _ Hpage1 ltac:(done) ltac:(set_solver) (Hsnap _))
    as (o1 & Ho1 & Hmiss1).
  edestruct (try_locator_miss drv clk page false) as (s2 & Hs2 & He2);
    [exact Ho1|by rewrite Hmiss1|].
  rewrite run_bind, Hs2.
  assert (page_at (ext s2) page_index = Some page) as Hpage2 by by rewrite He2.
  pose proof (vision_locator_other_action drv (Some description) false "hover" text_input
                page_index (ext s2) page element _ Hpage2 ltac:(done) ltac:(done)
                ltac:(done) (Htext _)) as Ho2.
  edestruct (try_locator_hit drv clk page) as (s3 & Hs3 & He3); [exact Ho2|done|].
  rewrite run_bind, Hs3. cbn [fst snd].
  rewrite He3, He2, He1. cbn [world trace ext start]. split_and!.
  - eexists. by split_and!.
  - done.
  - by rewrite <- !app_assoc.
Qed.

Lemma X20_witness :
  let r := playwright_multi_strategy_locate (Sim.driver menu_page) Sim.clock (Some "Menu")
             None "hover" EmptyString 0 false false (Sim.session [7]) in
  (∃ o, r.1 = Gives o
        ∧ get o "status" = VStr "success"
        ∧ get o "strategy_used" = VStr "vision_locator"
        ∧ get o "action_performed" = VStr "hover")
  ∧ world r.2 = world (Sim.session [7])
  ∧ trace r.2
    = trace (Sim.session [7])
      ++ ((λ selector, EWaitForSelector 7 selector 1000) <$> template_selectors "Menu")
      ++ [ ESnapshot 7; EWaitForSelector 7 ("text='" +:+ "Menu" +:+ "' >> visible=true") 2000 ].
Proof.
  apply (X20_hover_by_text_is_reported_not_done (Sim.driver menu_page) Sim.clock "Menu"
           EmptyString 0 false (Sim.session [7]) 7 "Timeout exceeded" (Sim.tree menu_page)
           5%nat).
  - reflexivity.
  - reflexivity.
  - intros selector w Hin.
    repeat (apply elem_of_cons in Hin as [->|Hin]); [reflexivity..|].
    by apply elem_of_nil in Hin.
  - reflexivity.
  - reflexivity.
Defined.

Lemma run_set_pages {W} (ps : list Page) (s : State W) :
  set_pages ps s = (Ok tt, with_pages ps s).
Proof. done. Qed.

Ltac exec_tab :=
  repeat first [ exec_step | rewrite run_set_pages | rewrite run_perform
               | progress cbn [with_pages with_world ext world pages] ].


(** X22 ([playwright_click_and_switch_tab]).  The tab is appended before it
    has loaded: when waiting for it raises, the outcome is the error and
    the tab stays in the collection. *)
Theorem X22_tab_kept_when_load_fails {W} (drv : Driver W) (td : TabDriver W) (clk : Clock)
    (selector : string) (page_index : Z) (capture_screenshot : bool) (e : Ext W)
    (page new_page : Page) (w1 w2 : W) (x : Exn) :
  page_at e page_index = Some page →
  d_click_expect_popup td page selector (world e) = (Gives new_page, w1) →
  d_wait_for_load_state td new_page "domcontentloaded" w1 = (Throws x, w2) →
  playwright_click_and_switch_tab drv td clk selector page_index capture_screenshot e
  = (Gives (err x),
     {| world := w2; pages := pages e ++ [new_page]; ticks := ticks e; trace := trace e |}).
Proof.
  intros Hpage Hclick Hload.
  unfold playwright_click_and_switch_tab, fn, run, _get_page. exec_tab.
  rewrite Hpage. exec_tab. rewrite Hclick. exec_tab. rewrite Hload. by exec_tab.
Qed.

Lemma X22_witness :
  playwright_click_and_switch_tab (Sim.driver Sim.blank) (sim_tab_driver false) Sim.clock
    "a.external" 0 false (Sim.session [7])
  = (Gives (err "Timeout 30000ms exceeded"),
     {| world := []; pages := [7] ++ [9%nat]; ticks := 0; trace := [] |}).
Proof.
  apply (X22_tab_kept_when_load_fails (Sim.driver Sim.blank) (sim_tab_driver false)
           Sim.clock "a.external" 0 false (Sim.session [7]) 7 9%nat [] []
           "Timeout 30000ms exceeded"); reflexivity.
Defined.

Lemma wp_conj {S A} (m : M S A) (Q1 Q2 : A → S → Prop) (R1 R2 : dict → S → Prop)
    (E1 E2 : Exn → S → Prop) (st : S) :
  wp m Q1 R1 E1 st → wp m Q2 R2 E2 st →
  wp m (λ a s', Q1 a s' ∧ Q2 a s') (λ o s', R1 o s' ∧ R2 o s')
     (λ e s', E1 e s' ∧ E2 e s') st.
Proof. unfold wp. by destruct (m st) as [[a|o|e] s']. Qed.

Section Kept.
Context {W : Type} (drv : Driver W) (clk : Clock).
Implicit Types s : State W.

Lemma alter_new {A} (f : A → A) (l : list A) (x : A) :
  alter f (length l) (l ++ [x]) = l ++ [f x].
Proof. by rewrite <- (Nat.add_0_r (length l)), alter_app_r. Qed.

(** A block that creates the dictionary [d] and appends its address [n]
    times appends [n] copies of [d] to the trail. *)
Lemma trail_step s0 s' d n :
  Forall (λ a, a < length (dicts (frame s0)))%nat (attempts (frame s0)) →
  dicts (frame s') = dicts (frame s0) ++ [d] →
  attempts (frame s') = attempts (frame s0) ++ replicate n (length (dicts (frame s0))) →
  trail (frame s') = trail (frame s0) ++ replicate n d.
Proof.
  intros Hwf Hd Ha. unfold trail. rewrite Hd, Ha, omap_app. f_equal.
  - clear Ha. induction Hwf as [|a l Hlt _ IH]; [done|].
    csimpl. rewrite lookup_app_l by done. by rewrite IH.
  - clear Ha. induction n as [|n IH]; [done|].
    csimpl. rewrite list_lookup_middle by done. by rewrite IH.
Qed.

Lemma kept_step k s0 s' d n :
  kept k s0 →
  dicts (frame s') = dicts (frame s0) ++ [d] →
  attempts (frame s') = attempts (frame s0) ++ replicate n (length (dicts (frame s0))) →
  n = 0%nat ∨ failed_entry d →
  kept (k + n) s'.
Proof.
  intros [[Hwf Hall] Hk] Hd Ha Hn.
  pose proof (trail_step s0 s' d n Hwf Hd Ha) as Ht.
  split; [split|].
  - rewrite Hd, Ha, length_app. simpl. apply Forall_app. split.
    + eapply Forall_impl; [done|]. intros; simpl in *; lia.
    + apply Forall_forall. intros x ->%elem_of_replicate_inv. lia.
  - rewrite Ht. apply Forall_app. split; [done|].
    destruct Hn as [->|Hfailed]; [done|].
    apply Forall_forall. by intros x ->%elem_of_replicate_inv.
  - rewrite Ht, length_app, length_replicate. lia.
Qed.

Lemma kept_le k k' s : kept k s → (k' ≤ k)%nat → kept k' s.
Proof. intros [H Hk] Hle. split; [done|lia]. Qed.

Lemma kept_frame k s s' : frame s' = frame s → kept k s → kept k s'.
Proof. unfold kept, all_failed. by intros ->. Qed.

Lemma start_kept (e : Ext W) : kept 0 (start e).
Proof. split; [split; constructor|]. simpl. lia. Qed.

End Kept.

Ltac solve_failed_entry :=
  split; [ rewrite lookup_insert_ne by done; apply lookup_insert_eq
         | eexists; apply lookup_insert_eq ].

Ltac solve_kept_with k s0 n :=
  eapply kept_le;
  [ eapply (kept_step k s0 _ _ n);
    [ eassumption
    | cbn [frame dicts attempts called ext with_attempt with_key with_dict with_ext
           after_call after_tick];
      rewrite ?alter_new; reflexivity
    | cbn [frame dicts attempts called ext with_attempt with_key with_dict with_ext
           after_call after_tick replicate];
      rewrite <- ?app_assoc, ?app_nil_r; reflexivity
    | first [ left; reflexivity | right; solve_failed_entry ] ]
  | lia ].

Ltac solve_kept k s0 :=
  first [ solve_kept_with k s0 1%nat | solve_kept_with k s0 2%nat | solve_kept_with k s0 0%nat ].

Section KeptChain.
Context {W : Type} (drv : Driver W) (clk : Clock).
Implicit Types s : State W.

(** A block of the loop that does not return leaves failures only. *)
Lemma try_standard_selector_kept k page action text_input capture_screenshot selector s0 :
  kept k s0 →
  wp (try_standard_selector drv clk page action text_input capture_screenshot selector)
     (λ _ s', kept k s')
     (λ o _, is_Some (o !! "strategy_used"))
     (λ _ _, False) s0.
Proof.
  intros H0. unfold try_standard_selector, perform_action, record_failure, take_screenshot.
  repeat wpx_step.
  all: try by eexists.
  all: solve_kept k s0.
Qed.

(** A block of a locator that does not return leaves one failure more. *)
Lemma try_locator_kept k page capture_screenshot attempt0 tool miss found s0 :
  kept k s0 →
  wp (try_locator drv clk page capture_screenshot attempt0 tool miss found)
     (λ _ s', kept (S k) s')
     (λ o _, ∃ result screenshot_path, o = found result screenshot_path)
     (λ _ _, False) s0.
Proof.
  intros H0. unfold try_locator, record_failure, take_screenshot.
  repeat wpx_step.
  all: try by eauto.
  all: solve_kept k s0.
Qed.

(** When the chain returns the outcome of a failure, or raises, the trail
    holds failures only, and three of them at least. *)
Lemma multi_strategy_chain_exhausted page description standard_selectors action text_input
    page_index capture_screenshot optional s0 :
  kept 0 s0 →
  wp (multi_strategy_chain drv clk page description standard_selectors action text_input
        page_index capture_screenshot optional)
     (λ _ _, False)
     (λ o s', is_Some (o !! "strategy_used")
              ∨ (kept 3 s'
                 ∧ ∃ page_info debug_screenshot,
                     o = not_located optional description (trail (frame s')) page_info
                           debug_screenshot))
     (λ _ s', kept 3 s') s0.
Proof.
  intros H0. unfold multi_strategy_chain.
  apply wp_bind.
  eapply (wp_mono _ _ _ (λ o _, is_Some (o !! "strategy_used")) _ (λ _ _, False));
    [apply (wp_for_each _ _ (kept 0)); [done|]| |by left|done].
  { intros selector s1 _ H1. by apply try_standard_selector_kept. }
  intros [] s1 H1. apply wp_bind.
  eapply wp_mono; [by apply try_locator_kept| | |done].
  2: { intros o s' (result & path & ->). left. by eexists. }
  intros [] s2 H2. apply wp_bind.
  eapply wp_mono; [by apply try_locator_kept| | |done].
  2: { intros o s' (result & path & ->). left. by eexists. }
  intros [] s3 H3. apply wp_bind.
  eapply wp_mono; [by apply try_locator_kept| | |done].
  2: { intros o s' (result & path & ->). left. by eexists. }
  intros [] s4 H4. unfold take_screenshot, read_attempts.
  repeat wpx_step.
  all: try (by eapply kept_frame).
  all: right; split; [by eapply kept_frame|by eauto].
Qed.

Lemma not_located_no_strategy optional description attempts page_info debug_screenshot :
  not_located optional description attempts page_info debug_screenshot !! "strategy_used"
  = None.
Proof. by destruct optional. Qed.

End KeptChain.

(** *** What an optional smart click keeps *)

Ltac wpe_step :=
  lazymatch goal with
  | |- wp (mbind _ _) _ _ _ _ => apply wp_bind
  | |- wp (mret _) _ _ _ _ => apply wp_ret
  | |- wp (return_ _) _ _ _ _ => apply wp_return
  | |- wp (raise _) _ _ _ _ => apply wp_raise
  | |- wp (try_except _ _) _ _ _ _ => apply wp_try
  | |- wp (try_pass _) _ _ _ _ => unfold try_pass; apply wp_try
  | |- wp (call _ ?op) _ _ _ ?s =>
      apply wp_call; destruct (op (world (ext s))) as [[[]|?] ?] eqn:?
  | |- wp (read_clock _ _) _ _ _ _ => apply wpx_read_clock
  | |- wp (if ?b then _ else _) _ _ _ _ => destruct b eqn:?
  | |- wp (match ?x with _ => _ end) _ _ _ _ => destruct x eqn:?
  end.

Ltac solve_clicked :=
  eexists _, _; split;
  [ first [ left; eexists; eassumption | right; eexists; eassumption ]
  | first [ left; reflexivity | right; eexists; eassumption ] ].

Section KeptClick.
Context {W : Type} (drv : Driver W) (clk : Clock).
Implicit Types s : State W.

Lemma fn_gives (body : M (State W) dict) (P : dict → Ext W → Prop) e :
  wp body (λ o s, P o (ext s)) (λ o s, P o (ext s)) (λ _ _, False) (start e) →
  ∃ o e', fn body e = (Gives o, e') ∧ P o e'.
Proof.
  unfold wp, fn, run.
  destruct (body (start e)) as [[o|o|x] s]; [by eauto..|done].
Qed.

Lemma smart_click_try_clicked page text capture_screenshot selector s :
  wp (smart_click_try drv clk page text capture_screenshot selector)
     (λ _ _, True)
     (λ o s', get o "status" = VStr "success"
              ∧ clicked drv page (ext s') ∧ get o "element_found" = VBool true)
     (λ _ _, False) s.
Proof.
  unfold smart_click_try, take_screenshot.
  repeat wpe_step; try done.
  all: split; [done|]; split; [|done]; solve_clicked.
Qed.

Lemma smart_click_direct_clicked page selector capture_screenshot s :
  wp (smart_click_direct drv clk page selector capture_screenshot)
     (λ _ _, False)
     (λ o s', get o "status" = VStr "success"
              ∧ clicked drv page (ext s') ∧ get o "element_found" = VNone)
     (λ _ _, True) s.
Proof.
  unfold smart_click_direct, take_screenshot.
  repeat wpe_step; try done.
  all: split; [done|]; split; [|done]; solve_clicked.
Qed.

Lemma smart_click_cascade_kept page text element_type capture_screenshot s :
  wp (smart_click_cascade drv clk page text element_type capture_screenshot true)
     (λ _ _, False)
     (λ o s', get o "status" = VStr "success"
              ∧ ((clicked drv page (ext s') ∧ get o "element_found" = VBool true)
                 ∨ nothing_clicked element_type text o))
     (λ x _, screenshot_raised drv page x) s.
Proof.
  unfold smart_click_cascade.
  apply wp_bind.
  eapply (wp_mono _ (λ _ _, True) _ _ _ (λ _ _, False));
    [apply (wp_for_each _ _ (λ _, True)); [done|]| | |done].
  { intros selector s1 _ _. apply smart_click_try_clicked. }
  2: { intros o s' (? & ? & ?). split; [done|]. by left. }
  intros [] s1 _. apply wp_bind. unfold try_pass. apply wp_try.
  apply wp_bind, wp_call.
  destruct (d_page_click _ _ _ _) as [[[]|x] w] eqn:Hclick.
  { apply wp_return. split; [done|]. left. split; [|done]. solve_clicked. }
  apply wp_ret. unfold take_screenshot.
  repeat wpe_step.
  - split; [done|]. by right.
  - by eexists _, _, _.
  - split; [done|]. by right.
Qed.

End KeptClick.

(** C3, as the code has it.  An optional request on an existing page and
    with a target returns with status success, from
    [playwright_multi_strategy_locate] and from [playwright_smart_click].

    The outcome of the locator is that of an attempt that succeeded, the
    one created last and named by the outcome; or it has
    [element_found = False] and carries the whole attempt trail, which
    has three entries at least, each reading failed and keeping its
    error, after every strategy of the plan was tried; or it has
    [element_found = False] and the text of the exception that the chain
    raised after the whole plan.

    The outcome of the smart click is answered from the session left by a
    click of the driver that went through; or it has
    [element_found = False] and keeps the first five selectors tried and
    the fallbacks; or it has [element_found = False] and the text of the
    exception that the screenshot raised. *)
Theorem C3_optional_never_errors {W} (drv : Driver W) (clk : Clock) :
  (∀ description selectors action text_input page_index capture_screenshot (e : Ext W) page,
     page_at e page_index = Some page →
     opt_truthy description = true ∨ (∃ sel rest, selectors = Some (sel :: rest)) →
     ∃ o s',
       run (multi_strategy_body drv clk description selectors action text_input page_index
              capture_screenshot true) e = (Return o, s')
       ∧ playwright_multi_strategy_locate drv clk description selectors action text_input
           page_index capture_screenshot true e = (Gives o, ext s')
       ∧ get o "status" = VStr "success"
       ∧ ((∃ k d, plan description (standard_selectors_of description selectors) !! k = Some d
                  ∧ created s'
                    = take (S k) (plan description (standard_selectors_of description selectors))
                  ∧ succeeded s' ∧ names o d)
          ∨ (get o "element_found" = VBool false
             ∧ get o "detailed_attempts" = VDicts (trail (frame s'))
             ∧ get o "attempted_strategies" = strategies_of (trail (frame s'))
             ∧ created s' = plan description (standard_selectors_of description selectors)
             ∧ kept 3 s')
          ∨ (∃ x, multi_strategy_chain drv clk page description
                    (standard_selectors_of description selectors) action
                    text_input page_index capture_screenshot true (start e) = (Raise x, s')
                  ∧ get o "element_found" = VBool false
                  ∧ get o "error" = VStr x
                  ∧ created s' = plan description (standard_selectors_of description selectors)
                  ∧ kept 3 s'))) ∧
  (∀ text selector element_type page_index capture_screenshot description (e : Ext W) page,
     page_at e page_index = Some page →
     opt_truthy text = true ∨ opt_truthy selector = true →
     ∃ o e',
       playwright_smart_click drv clk text selector element_type page_index
         capture_screenshot true description e = (Gives o, e')
       ∧ get o "status" = VStr "success"
       ∧ ((clicked drv page e' ∧ get o "element_found" ≠ VBool false)
          ∨ nothing_clicked element_type (text_or_fallback text description) o
          ∨ (∃ x, screenshot_raised drv page x
                  ∧ get o "element_found" = VBool false
                  ∧ get o "error" = VStr x))).
Proof.
  split.
  - intros description selectors action text_input page_index capture_screenshot e page
      Hpage Htarget.
    set (standard_selectors := standard_selectors_of description selectors).
    set (pl := plan description standard_selectors).
    pose proof (wp_conj _ _ _ _ _ _ _ _
                  (multi_strategy_chain_in_order drv clk page description standard_selectors
                     action text_input page_index capture_screenshot true (start e))
                  (multi_strategy_chain_exhausted drv clk page description standard_selectors
                     action text_input page_index capture_screenshot true (start e)
                     (start_kept e))) as Hchain.
    fold pl in Hchain. unfold wp in Hchain.
    assert (run (multi_strategy_body drv clk description selectors action text_input
                   page_index capture_screenshot true) e
            = match multi_strategy_chain drv clk page description standard_selectors action
                      text_input page_index capture_screenshot true (start e) with
              | (Raise x, s') => (Return (on_exception true x), s')
              | r => r
              end) as Hrun.
    { unfold run, multi_strategy_body, _get_page. exec. rewrite Hpage. exec.
      subst pl standard_selectors. unfold standard_selectors_of.
      destruct Htarget as [Hd|(sel & rest & ->)].
      - destruct selectors as [[|sel rest]|]; rewrite ?Hd; exec;
          by destruct (multi_strategy_chain _ _ _ _ _ _ _ _ _ _ _) as [[?|?|?] ?].
      - exec. by destruct (multi_strategy_chain _ _ _ _ _ _ _ _ _ _ _) as [[?|?|?] ?]. }
    unfold playwright_multi_strategy_locate, fn. rewrite Hrun.
    destruct (multi_strategy_chain drv clk page description standard_selectors action
                text_input page_index capture_screenshot true (start e)) as [[[]|o|x] s'].
    + by destruct Hchain.
    + exists o, s'. split; [done|]. split; [done|].
      destruct Hchain as [[Hhit|[Hran Ho]] Hkept].
      * destruct Hhit as (k & d & Hk & [Hc _] & Hs & Hn). split; [apply Hn|]. left.
        exists k, d. by rewrite Hc.
      * destruct Ho as (page_info & debug & ->).
        destruct Hkept as [[? Hsome]|[Hall _]].
        { by rewrite not_located_no_strategy in Hsome. }
        split; [done|]. right. left. destruct Hran as [Hc _].
        by rewrite Hc.
    + exists (on_exception true x), s'. split; [done|]. split; [done|]. split; [done|].
      right. right. exists x. destruct Hchain as [[Hc _] Hkept]. by rewrite Hc.
  - intros text selector element_type page_index capture_screenshot description e page
      Hpage Htarget.
    apply fn_gives.
    unfold smart_click_body. apply wp_bind, wp_gets.
    change (ext (start e)) with e. rewrite Hpage.
    apply wp_try, wp_bind.
    set (R := λ (o : dict) (s' : State W),
           get o "status" = VStr "success"
           ∧ ((clicked drv page (ext s') ∧ get o "element_found" ≠ VBool false)
              ∨ nothing_clicked element_type (text_or_fallback text description) o
              ∨ (∃ x, screenshot_raised drv page x
                      ∧ get o "element_found" = VBool false
                      ∧ get o "error" = VStr x))).
    apply (wp_mono _ (λ t _, t = Some (text_or_fallback text description)) _ R _
                   (λ _ _, False)).
    + destruct (opt_truthy selector && negb (opt_truthy text)) eqn:Hc.
      * apply wp_try, wp_bind.
        eapply wp_mono; [apply smart_click_direct_clicked|by intros ?? []| |].
        { intros o s' (Hs & Hclick & Hnone). split; [done|]. left. split; [done|].
          by rewrite Hnone. }
        intros _ s' _. by apply wp_ret.
      * apply wp_ret. unfold text_or_fallback.
        destruct Htarget as [Ht|Hs].
        -- rewrite Ht. by destruct text.
        -- rewrite Hs in Hc. destruct (opt_truthy text) eqn:Ht; [|done]. by destruct text.
    + intros t s' ->.
      assert (opt_truthy (Some (text_or_fallback text description)) = true) as ->
        by apply text_or_fallback_truthy.
      cbn [negb default].
      eapply wp_mono; [apply smart_click_cascade_kept|done| |].
      * intros o s'' [Hs [[Hclick Hfound]|Hnone]]; (split; [done|]).
        -- left. split; [done|]. by rewrite Hfound.
        -- by right; left.
      * intros x s'' Hx. apply wp_return. split; [done|]. right. right. by exists x.
    + done.
    + by intros ?? [].
Qed.

Lemma C3_witness :
  (∃ o s',
     run (multi_strategy_body (Sim.driver Sim.blank) Sim.clock (Some "Submit") None "click"
            EmptyString 0 true true) (Sim.session [7]) = (Return o, s')
     ∧ playwright_multi_strategy_locate (Sim.driver Sim.blank) Sim.clock (Some "Submit") None
         "click" EmptyString 0 true true (Sim.session [7]) = (Gives o, ext s')
     ∧ get o "status" = VStr "success"
     ∧ ((∃ k d, plan (Some "Submit") (standard_selectors_of (Some "Submit") None) !! k = Some d
                ∧ created s'
                  = take (S k) (plan (Some "Submit") (standard_selectors_of (Some "Submit") None))
                ∧ succeeded s' ∧ names o d)
        ∨ (get o "element_found" = VBool false
           ∧ get o "detailed_attempts" = VDicts (trail (frame s'))
           ∧ get o "attempted_strategies" = strategies_of (trail (frame s'))
           ∧ created s' = plan (Some "Submit") (standard_selectors_of (Some "Submit") None)
           ∧ kept 3 s')
        ∨ (∃ x, multi_strategy_chain (Sim.driver Sim.blank) Sim.clock 7%nat (Some "Submit")
                  (standard_selectors_of (Some "Submit") None) "click"
                  EmptyString 0 true true (start (Sim.session [7])) = (Raise x, s')
                ∧ get o "element_found" = VBool false
                ∧ get o "error" = VStr x
                ∧ created s' = plan (Some "Submit") (standard_selectors_of (Some "Submit") None)
                ∧ kept 3 s'))) ∧
  (∃ o e',
     playwright_smart_click (Sim.driver Sim.blank) Sim.clock None (Some "#go") "any" 0
       false true None (Sim.session [7]) = (Gives o, e')
     ∧ get o "status" = VStr "success"
     ∧ ((clicked (Sim.driver Sim.blank) 7%nat e' ∧ get o "element_found" ≠ VBool false)
        ∨ nothing_clicked "any" (text_or_fallback None None) o
        ∨ (∃ x, screenshot_raised (Sim.driver Sim.blank) 7%nat x
                ∧ get o "element_found" = VBool false
                ∧ get o "error" = VStr x))).
Proof.
  destruct (C3_optional_never_errors (Sim.driver Sim.blank) Sim.clock) as [Hm Hs].
  split.
  - apply (Hm (Some "Submit") None "click" EmptyString 0%Z true (Sim.session [7]) 7%nat);
      [reflexivity|left; reflexivity].
  - apply (Hs None (Some "#go") "any" 0%Z false None (Sim.session [7]) 7%nat);
      [reflexivity|right; reflexivity].
Defined.

(** C3 fails as stated: an optional request is answered with status error,
    and without [element_found], when the page index names no page, and
    when it names neither a description nor a selector (resp. neither a
    text nor a selector); no strategy succeeds in such a request, none
    being tried. *)
Lemma C3_counterexample :
  let locate := playwright_multi_strategy_locate (Sim.driver Sim.blank) Sim.clock in
  let click := playwright_smart_click (Sim.driver Sim.blank) Sim.clock in
  let no_page := outcome_of (locate (Some "Submit") None "click" EmptyString 1%Z false true
                               (Sim.session [7])) in
  let no_target := outcome_of (locate None None "click" EmptyString 0%Z false true
                                 (Sim.session [7])) in
  let click_no_page := outcome_of (click (Some "Submit") None "any" 1%Z false true None
                                     (Sim.session [7])) in
  let click_no_target := outcome_of (click None None "any" 0%Z false true None
                                       (Sim.session [7])) in
  Forall (λ o, get o "status" = VStr "error" ∧ o !! "element_found" = None)
    [no_page; no_target; click_no_page; click_no_target]
  ∧ get no_page "message" = VStr "Invalid page index"
  ∧ get no_target "message" = VStr "Either description or selectors must be provided"
  ∧ get click_no_target "message" = VStr "Either text or a valid selector must be provided".
Proof. cbv zeta. split; [|by vm_compute]. repeat constructor; by vm_compute. Qed.

Section FindElementExact.
Context {W : Type} (drv : Driver W).
Implicit Types s : State W.

Lemma inspect_element_exact page keywords found element el s :
  (∀ w, d_element drv page element w = (Gives el, w)) →
  wp (inspect_element drv page keywords found element)
     (λ found' s', found' = found ++ found_of keywords el
                   ∧ world (ext s') = world (ext s))
     (λ _ _, False) (λ _ _, False) s.
Proof.
  intros He. unfold inspect_element, evaluate_on.
  apply wp_bind, wp_bind, wp_call. rewrite He. apply wp_ret.
  apply wp_bind, wp_bind, wp_call. rewrite He. apply wp_ret.
  apply wp_bind, wp_bind, wp_call. rewrite He. apply wp_ret.
  apply wp_ret. done.
Qed.

Lemma inspect_elements_exact page keywords (dom : Handle → DomElement) elements :
  ∀ found s,
    Forall (λ h, ∀ w, d_element drv page h w = (Gives (dom h), w)) elements →
    wp (fold_m (inspect_element drv page keywords) elements found)
       (λ found' s', found' = found ++ (elements ≫= λ h, found_of keywords (dom h))
                     ∧ world (ext s') = world (ext s))
       (λ _ _, False) (λ _ _, False) s.
Proof.
  induction elements as [|h elements IH]; intros found s Hall.
  - apply wp_ret. by rewrite app_nil_r.
  - apply Forall_cons in Hall as [Hh Hall]. cbn [fold_m]. apply wp_bind.
    eapply wp_mono; [by apply inspect_element_exact|cbv beta|done|done].
    intros found' s' [-> Hw].
    eapply wp_mono; [by apply IH|cbv beta|done|done].
    intros found'' s'' [-> Hw']. split; [|congruence].
    csimpl. by rewrite app_assoc.
Qed.

Lemma scan_selectors_exact page keywords (matches : string → list Handle)
    (dom : Handle → DomElement) selectors :
  ∀ found s,
    Forall (λ selector, ∀ w, d_query_selector_all drv page selector w
                             = (Gives (matches selector), w)) selectors →
    Forall (λ h, ∀ w, d_element drv page h w = (Gives (dom h), w))
           (selectors ≫= matches) →
    wp (fold_m (λ found_elements selector,
                  elements ← call (EQuerySelectorAll page selector)
                                  (d_query_selector_all drv page selector);
                  fold_m (inspect_element drv page keywords) elements found_elements)
               selectors found)
       (λ found' s', found' = found ++ ((selectors ≫= matches)
                                         ≫= λ h, found_of keywords (dom h))
                     ∧ world (ext s') = world (ext s))
       (λ _ _, False) (λ _ _, False) s.
Proof.
  induction selectors as [|selector selectors IH]; intros found s Hq He.
  - apply wp_ret. by rewrite app_nil_r.
  - apply Forall_cons in Hq as [Hsel Hq]. csimpl in He.
    apply Forall_app in He as [Hhere He].
    cbn [fold_m]. apply wp_bind, wp_bind, wp_call. rewrite Hsel.
    eapply wp_mono; [by apply (inspect_elements_exact _ _ dom)|cbv beta|done|done].
    intros found' s' [-> Hw].
    eapply wp_mono; [by apply IH|cbv beta|done|done].
    intros found'' s'' [-> Hw']. split.
    + csimpl. by rewrite bind_app, app_assoc.
    + by rewrite Hw', Hw.
Qed.

(** On a page that answers the reads of the scan the same way throughout,
    the elements returned are exactly the ranked candidates of the
    elements matched, selector after selector in the order of the code
    and, for a selector, in the order of the page. *)
Lemma find_element_exact description page_index max_results (e : Ext W) page
    (matches : string → list Handle) (dom : Handle → DomElement) :
  page_at e page_index = Some page →
  Forall (λ selector, ∀ w, d_query_selector_all drv page selector w
                           = (Gives (matches selector), w))
         (find_element_selectors (Str.split (Str.lower description))) →
  Forall (λ h, ∀ w, d_element drv page h w = (Gives (dom h), w))
         (find_element_selectors (Str.split (Str.lower description)) ≫= matches) →
  ∃ o e',
    playwright_find_element drv description page_index max_results e = (Gives o, e')
    ∧ get o "status" = VStr "success"
    ∧ o !! "elements"
      = Some (VDicts (element_info_dict <$>
                rank max_results
                  ((find_element_selectors (Str.split (Str.lower description)) ≫= matches)
                   ≫= λ h, found_of (Str.split (Str.lower description)) (dom h))))
    ∧ world e' = world e.
Proof.
  intros Hpage Hq He.
  apply (fn_gives (find_element_body drv description page_index max_results)
           (λ o e', get o "status" = VStr "success"
                    ∧ o !! "elements"
                      = Some (VDicts (element_info_dict <$>
                                rank max_results
                                  ((find_element_selectors (Str.split (Str.lower description))
                                    ≫= matches)
                                   ≫= λ h, found_of (Str.split (Str.lower description))
                                             (dom h))))
                    ∧ world e' = world e)).
  unfold find_element_body. apply wp_bind, wp_gets.
  change (ext (start e)) with e. rewrite Hpage.
  apply wp_try, wp_bind.
  eapply wp_mono; [by apply (scan_selectors_exact _ _ matches dom)|cbv beta|done|done].
  intros found s' [-> Hw]. apply wp_return. done.
Qed.

End FindElementExact.

(** C4, as the code has it, for ASCII text.  [playwright_find_element]
    scores a candidate 10 when its text contains a keyword of the
    description plus 5 for every attribute of the element, whatever its
    name, whose value contains a keyword; the scan of
    [playwright_js_locate] scores 10 when the text contains the whole
    description plus 5 for each attribute among placeholder, title,
    aria-label, alt and name whose value contains it.

    On a page that answers the reads of [playwright_find_element] the
    same way throughout, the elements returned are exactly the ranked
    candidates of the elements the page matches, taken selector after
    selector and, for a selector, in the order of the page: the elements
    of score 0 are left out, the others are sorted by decreasing score
    with ties in this order of discovery, and the first [max_results] are
    kept (for [0 <= max_results]); whatever the page answers, every
    element returned has a positive score.  The scan of
    [playwright_js_locate] returns the first 5 of the candidates ranked
    the same way.  A candidate of a strictly higher score stands strictly
    before one of a lower score and is returned whenever the lower one
    is; so does one of score 20 before one of score 10. *)
Theorem C4_scores_and_ranking :
  (∀ keywords text attributes,
     forallb Str.ascii_only keywords = true →
     Str.ascii_only text = true →
     forallb (λ kv, Str.ascii_only kv.2) (map_to_list attributes) = true →
     relevance keywords text attributes
     = ((if Str.truthy text && any_keyword_in keywords text then 10 else 0)
        + 5 * Z.of_nat (length (filter (λ kv, attribute_matches keywords kv = true)
                                       (map_to_list attributes))))%Z) ∧
  (∀ descLower el,
     Str.ascii_only descLower = true →
     ascii_element el = true →
     js_score descLower el
     = ((if Str.contains (Str.lower (js_or [innerText el; textContent el])) descLower
         then 10 else 0)
        + 5 * Z.of_nat (length (filter
            (λ attr, scan_attribute_matches descLower el attr = true)
            scan_attributes)))%Z) ∧
  (∀ W (drv : Driver W) description page_index max_results (e : Ext W) page
     (matches : string → list Handle) (dom : Handle → DomElement),
     Str.ascii_only description = true →
     page_at e page_index = Some page →
     Forall (λ selector, ∀ w, d_query_selector_all drv page selector w
                              = (Gives (matches selector), w))
            (find_element_selectors (Str.split (Str.lower description))) →
     Forall (λ h, ascii_element (dom h) = true
                  ∧ ∀ w, d_element drv page h w = (Gives (dom h), w))
            (find_element_selectors (Str.split (Str.lower description)) ≫= matches) →
     ∃ o e',
       playwright_find_element drv description page_index max_results e = (Gives o, e')
       ∧ get o "status" = VStr "success"
       ∧ o !! "elements"
         = Some (VDicts (element_info_dict <$>
                   rank max_results
                     ((find_element_selectors (Str.split (Str.lower description)) ≫= matches)
                      ≫= λ h, found_of (Str.split (Str.lower description)) (dom h))))
       ∧ world e' = world e) ∧
  (∀ keywords el,
     found_of keywords el
     = let text := js_or [innerText el; textContent el; el_value el] in
       if (0 <? relevance keywords text (el_attributes el))%Z
       then [ {| ei_tag := Str.lower (tagName el);
                 ei_text := if Str.truthy text then Str.take 100 text else EmptyString;
                 ei_attributes := el_attributes el;
                 ei_relevance := relevance keywords text (el_attributes el) |} ]
       else []) ∧
  (∀ W (drv : Driver W) description page_index max_results e,
     ∃ o e', playwright_find_element drv description page_index max_results e
             = (Gives o, e')
       ∧ (get o "status" = VStr "success" →
          ∃ found, Forall (scored (Str.split (Str.lower description))) found
                   ∧ o !! "elements"
                     = Some (VDicts (element_info_dict <$> rank max_results found)))) ∧
  (∀ description allElements,
     Str.ascii_only description = true →
     forallb ascii_element allElements = true →
     ∃ found, js_scan (Some description) allElements = Gives found
       ∧ found = take 5 (sort_desc jm_score
                           (allElements ≫= js_candidate (Str.lower description)))
       ∧ Forall (λ m, ∃ el, el ∈ allElements
                            ∧ jm_score m = js_score (Str.lower description) el
                            ∧ (0 < jm_score m)%Z) found
       ∧ (length found ≤ 5)%nat) ∧
  (∀ max_results found,
     (0 ≤ max_results)%Z →
     rank max_results found = take (Z.to_nat max_results) (sort_desc ei_relevance found)
     ∧ (Z.of_nat (length (rank max_results found)) ≤ max_results)%Z) ∧
  (∀ A (key : A → Z) l,
     sort_desc key l ≡ₚ l
     ∧ StronglySorted (descending key) (sort_desc key l)
     ∧ ∀ k, filter (λ a, key a = k) (sort_desc key l) = filter (λ a, key a = k) l) ∧
  (∀ A (key : A → Z) n l i j a b,
     take n (sort_desc key l) !! i = Some a →
     take n (sort_desc key l) !! j = Some b →
     (key b < key a)%Z →
     (i < j)%nat) ∧
  (∀ A (key : A → Z) n l j a b,
     a ∈ l →
     take n (sort_desc key l) !! j = Some b →
     (key b < key a)%Z →
     ∃ i, take n (sort_desc key l) !! i = Some a ∧ (i < j)%nat) ∧
  (∀ max_results found i j a b,
     (0 ≤ max_results)%Z →
     rank max_results found !! i = Some a →
     rank max_results found !! j = Some b →
     ei_relevance a = 20%Z → ei_relevance b = 10%Z →
     (i < j)%nat).
Proof.
  split; [intros; apply relevance_formula|].
  split; [intros; apply js_score_formula|].
  split.
  { intros W drv description page_index max_results e page matches dom _ Hpage Hq He.
    apply (find_element_exact drv description page_index max_results e page matches dom);
      [done|done|].
    eapply Forall_impl; [exact He|]. by intros h [_ Hh]. }
  split; [done|].
  split; [intros; apply find_element_ranked|].
  split; [intros; apply js_scan_positive|].
  split.
  { intros max_results found Hn. split; [by apply py_take_nonneg|by apply py_take_length]. }
  split.
  { intros A key l. split; [apply sort_desc_perm|].
    split; [apply sort_desc_sorted|]. intros k. apply sort_desc_stable. }
  split; [intros; by eapply sort_desc_take_rank|].
  split; [intros; by eapply sort_desc_take_keeps|].
  intros max_results found i j a b Hn Hi Hj Ha Hb.
  unfold rank in Hi, Hj. rewrite py_take_nonneg in Hi, Hj by done.
  eapply (sort_desc_take_rank ei_relevance); [done..|lia].
Qed.

Lemma C4_witness :
  let matches := λ selector, default [] (Sim.lookup selector (Sim.matches_all ties_page)) in
  let dom := λ h, match list_find (λ kv, kv.1 = h) (Sim.handles ties_page) with
                  | Some (_, (_, el)) => el
                  | None => Sim.element EmptyString EmptyString EmptyString ∅
                  end in
  (∃ o e',
     playwright_find_element (Sim.driver ties_page) "submit button" 0 5 (Sim.session [7])
     = (Gives o, e')
     ∧ get o "status" = VStr "success"
     ∧ o !! "elements"
       = Some (VDicts (element_info_dict <$>
                 rank 5
                   ((find_element_selectors (Str.split (Str.lower "submit button")) ≫= matches)
                    ≫= λ h, found_of (Str.split (Str.lower "submit button")) (dom h))))
     ∧ world e' = world (Sim.session [7])) ∧
  relevance ["submit"; "button"] "Submit order" {[ "title" := "Submit the order" ]}
  = ((if Str.truthy "Submit order" && any_keyword_in ["submit"; "button"] "Submit order"
      then 10 else 0)
     + 5 * Z.of_nat (length (filter
         (λ kv, attribute_matches ["submit"; "button"] kv = true)
         (map_to_list ({[ "title" := "Submit the order" ]} : gmap string string)))))%Z ∧
  (Z.of_nat (length (rank 1 [candidate 10; candidate 20])) ≤ 1)%Z ∧
  (0 < 1)%nat.
Proof.
  intros matches dom.
  destruct C4_scores_and_ranking
    as (Hscore & _ & Hfind & _ & _ & _ & Hrank & _ & _ & _ & Habove).
  split; [|split; [|split]].
  - apply (Hfind (list nat) (Sim.driver ties_page) "submit button" 0%Z 5%Z (Sim.session [7])
             7%nat matches dom).
    + reflexivity.
    + reflexivity.
    + vm_compute. repeat constructor.
    + vm_compute. repeat constructor.
  - apply (Hscore ["submit"; "button"] "Submit order" {[ "title" := "Submit the order" ]});
      reflexivity.
  - apply (Hrank 1%Z [candidate 10; candidate 20]). lia.
  - apply (Habove 5%Z [candidate 10; candidate 20] 0%nat 1%nat
             (candidate 20) (candidate 10)); [lia|reflexivity..].
Defined.

(** On the page of the three buttons: the button with the matching title
    comes first, and the two that match by their text only follow in the
    order of the page. *)
Example ties_page_ranked :
  get (outcome_of (playwright_find_element (Sim.driver ties_page) "submit button" 0 5
                     (Sim.session [7]))) "elements"
  = VDicts (element_info_dict <$>
      [ {| ei_tag := "button"; ei_text := "Submit order";
           ei_attributes := {[ "title" := "Submit the order" ]}; ei_relevance := 15 |};
        {| ei_tag := "button"; ei_text := "Submit";
           ei_attributes := ∅; ei_relevance := 10 |};
        {| ei_tag := "button"; ei_text := "submit again";
           ei_attributes := ∅; ei_relevance := 10 |} ]).
Proof. by vm_compute. Qed.

(** X13 ([playwright_screenshot]).  A screenshot that is answered as a
    success was saved by the driver under a name that ends in [.png]: the
    first of [output_path], [path] and [filename] that is not empty, with
    the extension appended unless the name ends in it already, or a name
    made of the clock when none is given.  It is the name answered as
    [filename] and the path given to the driver: to the screenshot of the
    page when no selector is given, to the screenshot of the element that
    the selector resolved to otherwise; and the session answered is the
    one the driver left. *)
Theorem X13_screenshot_saved_as_png {W} (pd : PageDriver W) (clk : Clock)
    (filename : option string) (selector : string) (page_index : Z) (path : option string)
    (full_page : bool) (output_path : option string) (e : Ext W) o e' :
  playwright_screenshot pd clk filename selector page_index path full_page output_path e
  = (Gives o, e') →
  get o "status" = VStr "success" →
  ∃ name page,
    page_at e page_index = Some page
    ∧ o !! "filename" = Some (VStr name)
    ∧ ends_with name ".png" = true
    ∧ name = with_extension ".png"
               (if opt_truthy output_path then default EmptyString output_path
                else if opt_truthy path then default EmptyString path
                else if opt_truthy filename then default EmptyString filename
                else "screenshot_" +:+ time_time clk (ticks e) +:+ ".png")
    ∧ (if Str.truthy selector
       then ∃ element w,
              d_wait_visible pd page selector (world e) = (Gives (Some element), w)
              ∧ d_element_screenshot pd element name w = (Gives tt, world e')
       else d_page_screenshot pd page name full_page (world e) = (Gives tt, world e')).
Proof.
  unfold playwright_screenshot, fn, run, _get_page. exec.
  destruct (page_at e page_index) as [page|]; exec; [|by intros [= <- <-]].
  set (chosen := if opt_truthy output_path then default EmptyString output_path
                 else if opt_truthy path then default EmptyString path
                 else if opt_truthy filename then default EmptyString filename
                 else "screenshot_" +:+ time_time clk (ticks e) +:+ ".png").
  assert (∃ s1, (if opt_truthy (if opt_truthy output_path then output_path
                                else if opt_truthy path then path else filename)
                 then mret (default EmptyString
                              (if opt_truthy output_path then output_path
                               else if opt_truthy path then path else filename))
                 else t ← read_clock clk time_time;
                      mret ("screenshot_" +:+ t +:+ ".png")) (start e)
                = (Ok chosen, s1) ∧ world (ext s1) = world e) as (s1 & -> & Hw).
  { subst chosen. destruct (opt_truthy output_path) eqn:H1; [rewrite H1; by eexists|].
    destruct (opt_truthy path) eqn:H2; [rewrite H2; by eexists|].
    destruct (opt_truthy filename) eqn:H3; rewrite ?H3; [by eexists|].
    exec. by eexists. }
  destruct (Str.truthy selector); exec.
  - rewrite run_perform, Hw.
    destruct (d_wait_visible pd page selector _) as [[[element|]|x] w1] eqn:Hwait; exec;
      [|by intros [= <- <-]..].
    rewrite run_perform. cbn [with_world ext world].
    destruct (d_element_screenshot pd element _ _) as [[[]|x] w2] eqn:Hshot; exec;
      [|by intros [= <- <-]].
    intros [= <- <-] _. exists (with_extension ".png" chosen), page.
    split_and!; [done|done| |done|]; [apply with_extension_ends|].
    by exists element, w1.
  - rewrite Hw.
    destruct (d_page_screenshot pd page _ full_page _) as [[[]|x] w1] eqn:Hshot; exec;
      [|by intros [= <- <-]].
    intros [= <- <-] _. exists (with_extension ".png" chosen), page.
    split_and!; [done|done| |done|done]. apply with_extension_ends.
Qed.

Lemma X13_witness :
  let r := playwright_screenshot (sim_page_driver Sim.blank) Sim.clock (Some "shot")
             EmptyString 0 None false None (Sim.session [7]) in
  ∃ name page,
    page_at (Sim.session [7]) 0 = Some page
    ∧ outcome_of r !! "filename" = Some (VStr name)
    ∧ ends_with name ".png" = true
    ∧ name = with_extension ".png" "shot"
    ∧ d_page_screenshot (sim_page_driver Sim.blank) page name false
        (world (Sim.session [7])) = (Gives tt, world r.2).
Proof.
  intros r.
  apply (X13_screenshot_saved_as_png (sim_page_driver Sim.blank)
           Sim.clock (Some "shot") EmptyString 0 None false None (Sim.session [7])
           (outcome_of r) r.2).
  - by vm_compute.
  - by vm_compute.
Defined.
